(** * Food Image Enhancer: request orchestration of the three app.js variants

    The repository holds three variants of one browser script:
    - the text-only variant (src/app.js): one SDXL endpoint, error detail
      bound 300;
    - the three-model variant (first script of src/unnamed/part_000): SDXL,
      RMBG-2.0 and Real-ESRGAN behind a dispatch on the edit mode;
    - the alternate-prompt variant (second script of src/unnamed/part_000):
      one SDXL endpoint, prompt built from a lookup object.

    JavaScript strings are sequences of UTF-16 code units, numbers are
    binary64 floats, values coming out of [response.json()] are JSON values.
    The asynchronous functions are written in a small state-and-exception
    monad whose state records the observable effects (network calls, UI
    updates, console output). *)

From Stdlib Require Import List NArith ZArith Bool String Ascii Lia.
From Stdlib Require Import Strings.Byte.
From Stdlib Require Import Floats.SpecFloat.
Import ListNotations.
Set Warnings "-register-all".
Local Open Scope N_scope.
Local Open Scope list_scope.

(* ===================================================================== *)
(** * The JavaScript values the scripts handle *)
(* ===================================================================== *)

Module JS.

(** A string is its list of UTF-16 code units. *)
Definition code_unit := N.
Definition jsstring := list code_unit.

(** An ASCII source literal. *)
Definition lit (s : string) : jsstring :=
  map N_of_ascii (list_ascii_of_string s).

(** U+2026 HORIZONTAL ELLIPSIS, U+201C and U+201D quotation marks. *)
Definition ellipsis : code_unit := 8230.
Definition ldquo : code_unit := 8220.
Definition rdquo : code_unit := 8221.
Definition comma : code_unit := 44.

Fixpoint str_eqb (a b : jsstring) : bool :=
  match a, b with
  | [], [] => true
  | x :: a', y :: b' => (x =? y) && str_eqb a' b'
  | _, _ => false
  end.

(** [a < b] on strings: lexicographic on code units. *)
Fixpoint str_ltb (a b : jsstring) : bool :=
  match a, b with
  | _, [] => false
  | [], _ :: _ => true
  | x :: a', y :: b' =>
      if x <? y then true else if y <? x then false else str_ltb a' b'
  end.

(** [s.indexOf(c)] for a single code unit; [None] stands for -1. *)
Fixpoint indexOf (c : code_unit) (s : jsstring) : option nat :=
  match s with
  | [] => None
  | x :: r => if x =? c then Some O
              else match indexOf c r with
                   | Some i => Some (S i)
                   | None => None
                   end
  end.

(** [s.slice(from)] and [s.slice(0, n)] for indices within range or
    beyond the end (both clamp). *)
Definition slice_from (from : nat) (s : jsstring) : jsstring := skipn from s.
Definition slice_to (n : nat) (s : jsstring) : jsstring := firstn n s.

(** White space and line terminators removed by [String.prototype.trim]. *)
Definition isWhiteSpace (c : code_unit) : bool :=
  existsb (N.eqb c)
    [9; 10; 11; 12; 13; 32; 160; 5760; 8232; 8233; 8239; 8287; 12288; 65279]
  || ((8192 <=? c) && (c <=? 8202)).

Fixpoint trimStart (s : jsstring) : jsstring :=
  match s with
  | [] => []
  | c :: r => if isWhiteSpace c then trimStart r else s
  end.

Definition trim (s : jsstring) : jsstring :=
  rev (trimStart (rev (trimStart s))).

(** [parts.join(sep)] on an array of strings. *)
Fixpoint join (sep : jsstring) (parts : list jsstring) : jsstring :=
  match parts with
  | [] => []
  | [p] => p
  | p :: rest => p ++ sep ++ join sep rest
  end.

(** Decimal digits of a non-negative integer (an HTTP status code). *)
Fixpoint digits_fuel (fuel : nat) (n : N) (acc : jsstring) : jsstring :=
  match fuel with
  | O => acc
  | S f => let acc' := (48 + n mod 10) :: acc in
           if n / 10 =? 0 then acc' else digits_fuel f (n / 10) acc'
  end.
Definition decimal (n : N) : jsstring := digits_fuel (S (N.to_nat (N.log2 n))) n [].

(** ** Numbers *)

Definition number := spec_float.
Definition NaN : number := S754_nan.
Definition pos_zero : number := S754_zero false.
Definition one : number := S754_finite false 4503599627370496 (-52).

Definition is_nan (x : number) : bool :=
  match x with S754_nan => true | _ => false end.

Definition is_zero (x : number) : bool :=
  match x with S754_zero _ => true | _ => false end.

(** ** JSON values, as [response.json()] delivers them.  An object is the
    list of its own properties; [JSON.parse] never yields NaN. *)
Inductive json : Type :=
| JNull
| JBool (b : bool)
| JNum (x : number)
| JStr (s : jsstring)
| JArr (items : list json)
| JObj (props : list (jsstring * json)).

(** Induction over JSON values, through arrays and objects. *)
Section JsonInduction.
Variable P : json -> Prop.
Hypothesis HNull : P JNull.
Hypothesis HBool : forall b, P (JBool b).
Hypothesis HNum : forall x, P (JNum x).
Hypothesis HStr : forall s, P (JStr s).
Hypothesis HArr : forall items, Forall P items -> P (JArr items).
Hypothesis HObj :
  forall props, Forall (fun kv => P (snd kv)) props -> P (JObj props).

Fixpoint json_induction (v : json) : P v :=
  match v with
  | JNull => HNull
  | JBool b => HBool b
  | JNum x => HNum x
  | JStr s => HStr s
  | JArr items =>
      HArr items ((fix all (l : list json) : Forall P l :=
               match l with
               | [] => Forall_nil P
               | x :: r => Forall_cons x (json_induction x) (all r)
               end) items)
  | JObj props =>
      HObj props ((fix all (l : list (jsstring * json))
               : Forall (fun kv => P (snd kv)) l :=
               match l with
               | [] => Forall_nil _
               | kv :: r =>
                   Forall_cons (P := fun kv => P (snd kv)) kv
                     (json_induction (snd kv)) (all r)
               end) props)
  end.
End JsonInduction.

(** A value read from a property: [None] is [undefined]. *)
Definition value := option json.

Fixpoint own (k : jsstring) (props : list (jsstring * json)) : value :=
  match props with
  | [] => None
  | (k', v) :: r => if str_eqb k k' then Some v else own k r
  end.

(** [v.k] for a non-null [v] and a name [k] that no built-in prototype
    defines (here: score, mask): only an object's own property answers. *)
Definition get (v : json) (k : jsstring) : value :=
  match v with
  | JObj props => own k props
  | _ => None
  end.

(** ToBoolean. *)
Definition truthy (v : json) : bool :=
  match v with
  | JNull => false
  | JBool b => b
  | JNum x => negb (is_nan x || is_zero x)
  | JStr s => match s with [] => false | _ => true end
  | JArr _ | JObj _ => true
  end.

Definition truthy_value (v : value) : bool :=
  match v with None => false | Some j => truthy j end.

(** ** Exceptions and completion records *)

Inductive exn : Type :=
| Error (message : jsstring)        (* [new Error(message)] of the scripts *)
| TypeError (message : jsstring)    (* raised by the engine or by fetch *)
| SyntaxError (message : jsstring)  (* raised by [response.json()] *)
| DOMException (message : jsstring) (* [reader.error], body read failures *).

Definition exn_message (e : exn) : jsstring :=
  match e with
  | Error m | TypeError m | SyntaxError m | DOMException m => m
  end.

Inductive completion (A : Type) : Type :=
| Normal (a : A)
| Throw (e : exn).
Arguments Normal {A} a.
Arguments Throw {A} e.

Definition cbind {A B} (c : completion A) (k : A -> completion B) : completion B :=
  match c with
  | Normal a => k a
  | Throw e => Throw e
  end.

(** ** Conversions supplied by the engine.  The decimal grammar of
    StringToNumber, the shortest-digits printing of Number::toString and
    the implementation-defined source text of a native function are not
    part of the repository; they are the host's. *)
Class Host : Type := {
  StringToNumber : jsstring -> number;
  NumberToString : number -> jsstring;
  nativeFunctionSource : jsstring -> jsstring
}.

Definition cannot_convert : exn :=
  TypeError (lit "Cannot convert object to primitive value").

Section Conversions.
Context {host : Host}.

(** [Array.prototype.join] with the default separator: null elements
    give the empty string, the others their string conversion. *)
Definition joinItems (toStr : json -> completion jsstring)
  : list json -> completion jsstring :=
  fix go (l : list json) : completion jsstring :=
    match l with
    | [] => Normal []
    | x :: r =>
        cbind (match x with JNull => Normal [] | _ => toStr x end)
          (fun sx =>
             match r with
             | [] => Normal sx
             | _ => cbind (go r) (fun sr => Normal (sx ++ [comma] ++ sr))
             end)
    end.

(** ToString of a JSON value.  A parsed object inherits
    [Object.prototype.toString] unless it carries an own (hence
    non-callable) [toString] member, in which case OrdinaryToPrimitive
    finds no callable method that returns a primitive and throws.
    An array goes through [Array.prototype.join]. *)
Fixpoint ToString (v : json) : completion jsstring :=
  match v with
  | JNull => Normal (lit "null")
  | JBool true => Normal (lit "true")
  | JBool false => Normal (lit "false")
  | JNum x => Normal (NumberToString x)
  | JStr s => Normal s
  | JObj props =>
      match own (lit "toString") props with
      | Some _ => Throw cannot_convert
      | None => Normal (lit "[object Object]")
      end
  | JArr items => joinItems ToString items
  end.

(** Primitive values. *)
Inductive prim : Type :=
| PUndefined | PNull | PBool (b : bool) | PNum (x : number) | PStr (s : jsstring).

(** ToPrimitive (either hint gives the same result on JSON values). *)
Definition ToPrimitive (v : value) : completion prim :=
  match v with
  | None => Normal PUndefined
  | Some JNull => Normal PNull
  | Some (JBool b) => Normal (PBool b)
  | Some (JNum x) => Normal (PNum x)
  | Some (JStr s) => Normal (PStr s)
  | Some o => cbind (ToString o) (fun s => Normal (PStr s))
  end.

Definition ToNumber (p : prim) : number :=
  match p with
  | PUndefined => NaN
  | PNull => pos_zero
  | PBool true => one
  | PBool false => pos_zero
  | PNum x => x
  | PStr s => StringToNumber s
  end.

(** [a > b], that is IsLessThan(b, a) evaluated right operand last:
    the left operand [a] is converted first. *)
Definition gt (a b : value) : completion bool :=
  cbind (ToPrimitive a) (fun pa =>
  cbind (ToPrimitive b) (fun pb =>
    match pb, pa with
    | PStr sb, PStr sa => Normal (str_ltb sb sa)
    | _, _ => Normal (SFltb (ToNumber pb) (ToNumber pa))
    end)).

End Conversions.

End JS.

(* ===================================================================== *)
(** * Base64 (RFC 4648), the encoding inside a data URL *)
(* ===================================================================== *)

Module Base64.
Import JS.

Definition pad : code_unit := 61.

(** The 64-character alphabet: A-Z, a-z, 0-9, plus and slash. *)
Definition alphabet (v : N) : code_unit :=
  if v <? 26 then 65 + v
  else if v <? 52 then 71 + v
  else if v <? 62 then v - 4
  else if v =? 62 then 43 else 47.

Definition sextet (c : code_unit) : option N :=
  if (65 <=? c) && (c <=? 90) then Some (c - 65)
  else if (97 <=? c) && (c <=? 122) then Some (c - 71)
  else if (48 <=? c) && (c <=? 57) then Some (c + 4)
  else if c =? 43 then Some 62
  else if c =? 47 then Some 63
  else None.

Fixpoint encode (bs : list byte) : jsstring :=
  match bs with
  | [] => []
  | [a] =>
      let a := Byte.to_N a in
      [alphabet (a / 4); alphabet ((a mod 4) * 16); pad; pad]
  | [a; b] =>
      let a := Byte.to_N a in
      let b := Byte.to_N b in
      [alphabet (a / 4); alphabet ((a mod 4) * 16 + b / 16);
       alphabet ((b mod 16) * 4); pad]
  | a :: b :: c :: rest =>
      let a := Byte.to_N a in
      let b := Byte.to_N b in
      let c := Byte.to_N c in
      alphabet (a / 4) :: alphabet ((a mod 4) * 16 + b / 16)
      :: alphabet ((b mod 16) * 4 + c / 64) :: alphabet (c mod 64)
      :: encode rest
  end.

Definition byte_of (n : N) : option byte := Byte.of_N (n mod 256).

Fixpoint decode (s : jsstring) : option (list byte) :=
  match s with
  | [] => Some []
  | c1 :: c2 :: c3 :: c4 :: rest =>
      match sextet c1, sextet c2 with
      | Some v1, Some v2 =>
          if c3 =? pad then
            match c4 =? pad, rest, byte_of (v1 * 4 + v2 / 16) with
            | true, [], Some a => Some [a]
            | _, _, _ => None
            end
          else
            match sextet c3 with
            | None => None
            | Some v3 =>
                if c4 =? pad then
                  match rest, byte_of (v1 * 4 + v2 / 16),
                        byte_of (v2 * 16 + v3 / 4) with
                  | [], Some a, Some b => Some [a; b]
                  | _, _, _ => None
                  end
                else
                  match sextet c4 with
                  | None => None
                  | Some v4 =>
                      match byte_of (v1 * 4 + v2 / 16),
                            byte_of (v2 * 16 + v3 / 4),
                            byte_of (v3 * 64 + v4), decode rest with
                      | Some a, Some b, Some c, Some tl =>
                          Some (a :: b :: c :: tl)
                      | _, _, _, _ => None
                      end
                  end
            end
      | _, _ => None
      end
  | _ => None
  end.

End Base64.

(* ===================================================================== *)
(** * The browser: files, fetch, the page, and the effect monad *)
(* ===================================================================== *)

Module Browser.
Import JS.

Record blob : Type := { blob_type : jsstring; blob_bytes : list byte }.

(** What a [FileReader] delivers after [readAsDataURL]: [onload] with
    [reader.result] a string or something else, or [onerror] with
    [reader.error] possibly null. *)
Inductive reader_result : Type :=
| ResultString (s : jsstring)
| ResultOther.

Inductive reader_event : Type :=
| OnLoad (result : reader_result)
| OnError (error : option exn).

(** A [File]: its declared MIME type, its bytes, and what reading it as a
    data URL will deliver. *)
Record file : Type := {
  file_type : jsstring;
  file_bytes : list byte;
  file_read : reader_event
}.

(** The data URL of RFC 2397 that the File API prescribes for
    [readAsDataURL]. *)
Definition dataURL (type : jsstring) (bytes : list byte) : jsstring :=
  lit "data:" ++ type ++ lit ";base64," ++ Base64.encode bytes.

Definition reads_as_data_url (f : file) : Prop :=
  file_read f = OnLoad (ResultString (dataURL (file_type f) (file_bytes f))).

(** A request body: [JSON.stringify(v)] or a [File] sent as it is. *)
Inductive request_body : Type :=
| BodyJSON (v : json)
| BodyFile (f : file).

Record request : Type := {
  url : jsstring;
  method : jsstring;
  headers : list (jsstring * jsstring);
  body : request_body
}.

(** A response; each body reader may fail ([None]). *)
Record response : Type := {
  status : N;
  statusText : jsstring;
  body_text : option jsstring;
  body_json : option json;
  body_blob : option blob
}.

Definition ok (r : response) : bool := (200 <=? status r) && (status r <=? 299).

(** How a [fetch] settles: the promise is rejected, or it is fulfilled with a
    response.  A promise that never settles is not represented.  The
    handlers pass no timeout and no abort signal, so in the browser such a
    request leaves the run suspended at its [await]; the runs described here
    are those in which the request and the body read have settled. *)
Inductive fetch_outcome : Type :=
| Rejected (e : exn)
| Responded (r : response).

Definition network := request -> fetch_outcome.

(** Observable effects, in order of occurrence. *)
Inductive event : Type :=
| Fetch (r : request)
| ShowLoading
| ShowError (message : jsstring)
| ShowImage (b : blob) (alt : jsstring)
| ShowImageFromDataUrl (dataUrl alt : jsstring)
| ConsoleInfo (message : jsstring)
| ConsoleError (e : exn).

(** The page: effects so far and the generate button. *)
Record world : Type := {
  trace : list event;
  btn_disabled : bool;
  btn_content : jsstring
}.

Definition M (A : Type) : Type := world -> completion A * world.

Definition ret {A} (a : A) : M A := fun w => (Normal a, w).
Definition throw {A} (e : exn) : M A := fun w => (Throw e, w).
Definition lift {A} (c : completion A) : M A := fun w => (c, w).

Definition bind {A B} (c : M A) (k : A -> M B) : M B :=
  fun w => match c w with
           | (Normal a, w') => k a w'
           | (Throw e, w') => (Throw e, w')
           end.

Definition emit (e : event) : M unit :=
  fun w => (Normal tt, {| trace := trace w ++ [e];
                          btn_disabled := btn_disabled w;
                          btn_content := btn_content w |}).

Definition setDisabled (b : bool) : M unit :=
  fun w => (Normal tt, {| trace := trace w; btn_disabled := b;
                          btn_content := btn_content w |}).

Definition getContent : M jsstring := fun w => (Normal (btn_content w), w).

Definition setContent (s : jsstring) : M unit :=
  fun w => (Normal tt, {| trace := trace w; btn_disabled := btn_disabled w;
                          btn_content := s |}).

(** [try { body } catch (e) { handler e } finally { fin }]. *)
Definition try_catch_finally {A} (body : M A) (handler : exn -> M A)
    (fin : M unit) : M A :=
  fun w =>
    let '(c, w1) := match body w with
                    | (Normal a, w1) => (Normal a, w1)
                    | (Throw e, w1) => handler e w1
                    end in
    match fin w1 with
    | (Normal _, w2) => (c, w2)
    | (Throw e', w2) => (Throw e', w2)
    end.

(** [await fetch(url, init)]. *)
Definition fetch (net : network) (r : request) : M response :=
  bind (emit (Fetch r)) (fun _ =>
    match net r with
    | Rejected e => throw e
    | Responded resp => ret resp
    end).

(** [await response.blob()], [await response.json()]. *)
Definition response_blob (r : response) : M blob :=
  match body_blob r with
  | Some b => ret b
  | None => throw (TypeError (lit "Failed to read the response body"))
  end.

Definition response_json (r : response) : M json :=
  match body_json r with
  | Some v => ret v
  | None => throw (SyntaxError (lit "Unexpected token in JSON"))
  end.

(** [try { d = await response.text() } catch {}] starting from the empty [d]. *)
Definition text_or_empty (r : response) : jsstring :=
  match body_text r with
  | Some t => t
  | None => []
  end.

Definition nonempty (s : jsstring) : bool :=
  match s with [] => false | _ => true end.

(** The requests issued along a trace. *)
Fixpoint requests (t : list event) : list request :=
  match t with
  | [] => []
  | Fetch r :: t' => r :: requests t'
  | _ :: t' => requests t'
  end.

Definition initial (label : jsstring) : world :=
  {| trace := []; btn_disabled := false; btn_content := label |}.

End Browser.

Declare Scope effect_scope.
Notation "x <- c ;; k" := (Browser.bind c (fun x => k))
  (at level 61, c at next level, right associativity) : effect_scope.
Notation "c ;;; k" := (Browser.bind c (fun _ => k))
  (at level 61, right associativity) : effect_scope.

(* ===================================================================== *)
(** * The three-model variant (src/unnamed/part_000, first script) *)
(* ===================================================================== *)

Module ThreeModel.
Import JS Browser.
Local Open Scope effect_scope.

Record endpoints : Type := {
  style : jsstring;
  background : jsstring;
  quality : jsstring
}.

Definition HF_ENDPOINTS : endpoints := {|
  style := lit "https://router.huggingface.co/hf-inference/models/stabilityai/stable-diffusion-xl-base-1.0";
  background := lit "https://router.huggingface.co/hf-inference/models/briaai/RMBG-2.0";
  quality := lit "https://router.huggingface.co/hf-inference/models/ai-forever/Real-ESRGAN"
|}.

Definition Style := lit "Style".
Definition Background_cleaning := lit "Background cleaning".
Definition Quality_improvement := lit "Quality improvement".

Definition buildPrompt (food editType : jsstring) : jsstring :=
  let base :=
    (food ++ lit " hero shot, ultra realistic, commercial food photography, ")
    ++ lit "shot on a dark matte table, shallow depth of field, cinematic lighting" in
  if str_eqb editType Background_cleaning then
    base ++ lit ", isolated on a clean soft gradient background, no clutter, product catalog look, web shop ready"
  else if str_eqb editType Quality_improvement then
    base ++ lit ", crisp 4k detail, noise-free, high dynamic range, sharp textures, studio-grade retouching"
  else
    base ++ lit ", modern editorial style, subtle color grading, perfect for a sales landing page hero banner".

(** The promise of [fileToBase64], settled by the reader's event. *)
Definition fileToBase64 (f : file) : completion jsstring :=
  match file_read f with
  | OnLoad ResultOther => Throw (Error (lit "Unexpected FileReader result type."))
  | OnLoad (ResultString result) =>
      match indexOf comma result with
      | None => Normal result
      | Some commaIndex => Normal (slice_from (commaIndex + 1) result)
      end
  | OnError (Some e) => Throw e
  | OnError None => Throw (Error (lit "Failed to read image file."))
  end.

(** The [if (!response.ok)] block, written three times in the script with
    three base messages: [shortDetail] and [fullMessage] are its two
    conditional expressions. *)
Definition shortDetail (errorDetail : jsstring) : jsstring :=
  if nonempty errorDetail && (160 <? List.length errorDetail)%nat
  then slice_to 160 errorDetail ++ [ellipsis]
  else errorDetail.

Definition fullMessage (baseMessage short : jsstring) : jsstring :=
  if nonempty short then baseMessage ++ lit " Details: " ++ short
  else baseMessage.

Definition failure (baseMessage : jsstring) (r : response) : exn :=
  Error (fullMessage baseMessage (shortDetail (text_or_empty r))).

Definition style_base : jsstring :=
  lit "Style generation failed (SDXL). The model may be loading or your key may not have access.".
Definition background_base : jsstring :=
  lit "Background removal failed (RMBG-2.0). Check access to the model and try again.".
Definition quality_base : jsstring :=
  lit "Quality improvement failed (Real-ESRGAN). The model may not be available on the free Inference API.".

Definition empty_result : exn :=
  Error (lit "Background removal returned an empty result.").
Definition missing_mask : exn :=
  Error (lit "Background removal response did not include a mask.").

Definition bearer (apiKey : jsstring) : jsstring * jsstring :=
  (lit "Authorization", lit "Bearer " ++ apiKey).

Section WithHost.
Context {host : Host}.

(** The callback of [data.reduce]:
    [!acc || (item && item.score > acc.score) ? item : acc]. *)
Definition reducer (acc item : json) : completion json :=
  if negb (truthy acc) then Normal item
  else if negb (truthy item) then Normal acc
  else cbind (gt (get item (lit "score")) (get acc (lit "score")))
         (fun b => Normal (if b then item else acc)).

(** [Array.prototype.reduce] without initial value, after the first
    element has been taken as accumulator. *)
Fixpoint reduce (acc : json) (rest : list json) : completion json :=
  match rest with
  | [] => Normal acc
  | item :: rest' => cbind (reducer acc item) (fun acc' => reduce acc' rest')
  end.

(** Lines 247-260 of [callBackgroundRemoval]: from the parsed body to
    the data URL of the mask. *)
Definition decodeMask (data : json) : completion jsstring :=
  match data with
  | JArr (first :: rest) =>
      cbind (reduce first rest) (fun best =>
        if negb (truthy best) || negb (truthy_value (get best (lit "mask")))
        then Throw missing_mask
        else
          match get best (lit "mask") with
          | Some mask =>
              cbind (ToString mask)
                (fun s => Normal (lit "data:image/png;base64," ++ s))
          | None => Throw missing_mask
          end)
  | _ => Throw empty_result
  end.

Section WithNetwork.
Variable net : network.

Definition callStyleGeneration (apiKey prompt : jsstring) : M blob :=
  response <- fetch net {|
      url := style HF_ENDPOINTS;
      method := lit "POST";
      headers := [bearer apiKey;
                  (lit "Content-Type", lit "application/json");
                  (lit "Accept", lit "image/png")];
      body := BodyJSON (JObj [(lit "inputs", JStr prompt)]) |} ;;
  if negb (ok response) then throw (failure style_base response)
  else response_blob response.

Definition callBackgroundRemoval (apiKey : jsstring) (imageFile : file)
  : M jsstring :=
  base64Image <- lift (fileToBase64 imageFile) ;;
  response <- fetch net {|
      url := background HF_ENDPOINTS;
      method := lit "POST";
      headers := [bearer apiKey;
                  (lit "Content-Type", lit "application/json");
                  (lit "Accept", lit "application/json")];
      body := BodyJSON (JObj [(lit "inputs", JStr base64Image)]) |} ;;
  if negb (ok response) then throw (failure background_base response)
  else data <- response_json response ;; lift (decodeMask data).

Definition callQualityImprovement (apiKey : jsstring) (imageFile : file)
  : M blob :=
  response <- fetch net {|
      url := quality HF_ENDPOINTS;
      method := lit "POST";
      headers := [bearer apiKey;
                  (lit "Content-Type",
                   if nonempty (file_type imageFile) then file_type imageFile
                   else lit "application/octet-stream");
                  (lit "Accept", lit "image/png")];
      body := BodyFile imageFile |} ;;
  if negb (ok response) then throw (failure quality_base response)
  else response_blob response.

(** A call that receives [undefined] where a [File] is expected fails
    on the first use of the file. *)
Definition with_file {A} (photoFile : option file) (k : file -> M A) : M A :=
  match photoFile with
  | Some f => k f
  | None => throw (TypeError (lit "undefined is not a File"))
  end.

Definition key_message : jsstring :=
  lit "Please paste your Hugging Face API key before generating.".
Definition photo_message (editType : jsstring) : jsstring :=
  lit "Please upload a food photo for " ++ [ldquo] ++ editType ++ [rdquo]
  ++ lit ". Style mode can work without a file.".
Definition generic_message : jsstring :=
  lit "Something went wrong while processing the image. Please check your API key, model access and try again.".
Definition creating : jsstring :=
  lit "<span>Creating" ++ [ellipsis] ++ lit "</span>".

(** [apiKeyValue], [food], [editType] are the three [.value]s read
    from the page, [photoFile] is [photoInput.files[0]]. *)
Definition handleGenerateClick (apiKeyValue food editType : jsstring)
    (photoFile : option file) : M unit :=
  let apiKey := trim apiKeyValue in
  if negb (nonempty apiKey) then emit (ShowError key_message)
  else if (str_eqb editType Background_cleaning
           || str_eqb editType Quality_improvement)
          && match photoFile with None => true | Some _ => false end
  then emit (ShowError (photo_message editType))
  else
    let prompt := buildPrompt food editType in
    emit ShowLoading ;;;
    setDisabled true ;;;
    originalBtnHtml <- getContent ;;
    setContent creating ;;;
    try_catch_finally
      (if str_eqb editType Style then
         imageBlob <- callStyleGeneration apiKey prompt ;;
         emit (ShowImage imageBlob
                 (lit "Styled food image for " ++ food
                  ++ lit " using SDXL based on prompt: " ++ prompt))
       else if str_eqb editType Background_cleaning then
         dataUrl <- with_file photoFile (callBackgroundRemoval apiKey) ;;
         emit (ShowImageFromDataUrl dataUrl
                 (lit "Background mask for " ++ food
                  ++ lit " created with RMBG-2.0"))
       else if str_eqb editType Quality_improvement then
         upscaledBlob <- with_file photoFile (callQualityImprovement apiKey) ;;
         emit (ShowImage upscaledBlob
                 (lit "Quality-improved " ++ food
                  ++ lit " photo upscaled by Real-ESRGAN"))
       else
         fallbackBlob <- callStyleGeneration apiKey prompt ;;
         emit (ShowImage fallbackBlob
                 (lit "Generated food image for " ++ food
                  ++ lit " (fallback style mode)")))
      (fun error =>
         emit (ConsoleError error) ;;; emit (ShowError generic_message))
      (setDisabled false ;;; setContent originalBtnHtml).

End WithNetwork.
End WithHost.

End ThreeModel.

(* ===================================================================== *)
(** * The text-only variant (src/app.js) *)
(* ===================================================================== *)

Module TextOnly.
Import JS Browser.
Local Open Scope effect_scope.

Definition HF_ENDPOINT : jsstring :=
  lit "https://router.huggingface.co/hf-inference/models/stabilityai/stable-diffusion-xl-base-1.0".

Definition buildPrompt (food editType : jsstring) : jsstring :=
  let base :=
    (food ++ lit " hero shot, ultra realistic, commercial food photography, ")
    ++ lit "shot on a dark matte table, shallow depth of field, cinematic lighting" in
  if str_eqb editType (lit "Background cleaning") then
    base ++ lit ", isolated on a clean soft gradient background, no clutter, product catalog look, web shop ready"
  else if str_eqb editType (lit "Quality improvement") then
    base ++ lit ", crisp 4k detail, noise-free, high dynamic range, sharp textures, studio-grade retouching"
  else
    base ++ lit ", modern editorial style, subtle color grading, perfect for a sales landing page hero banner".

Definition shortDetail (detail : jsstring) : jsstring :=
  if nonempty detail && (300 <? List.length detail)%nat
  then slice_to 300 detail ++ [ellipsis]
  else detail.

Definition statusLine (r : response) : jsstring :=
  lit "HF Inference error: " ++ decimal (status r) ++ lit " "
  ++ statusText r ++ lit ".".

(** [[statusLine, shortDetail && `Details: ${shortDetail}`]
     .filter(Boolean).join(" ")]. *)
Definition message (r : response) : jsstring :=
  let short := shortDetail (text_or_empty r) in
  let msgParts :=
    [statusLine r; if nonempty short then lit "Details: " ++ short else short] in
  join (lit " ") (filter nonempty msgParts).

Definition key_message : jsstring :=
  lit "Please paste your Hugging Face API key before generating.".
Definition photo_info : jsstring :=
  lit "[Food Image Enhancer] Photo selected, but current MVP uses text prompt only (no img2img).".
Definition generic_message : jsstring :=
  lit "Something went wrong while generating the image.".
Definition creating : jsstring := lit "Creating" ++ [ellipsis].

Section WithNetwork.
Variable net : network.

Definition generateImage (apiKey prompt : jsstring) : M blob :=
  response <- fetch net {|
      url := HF_ENDPOINT;
      method := lit "POST";
      headers := [(lit "Authorization", lit "Bearer " ++ apiKey);
                  (lit "Content-Type", lit "application/json");
                  (lit "Accept", lit "image/png")];
      body := BodyJSON (JObj [(lit "inputs", JStr prompt)]) |} ;;
  if negb (ok response) then throw (Error (message response))
  else response_blob response.

Definition handleGenerateClick (apiKeyValue food editType : jsstring)
    (photoFile : option file) : M unit :=
  let apiKey := trim apiKeyValue in
  if negb (nonempty apiKey) then emit (ShowError key_message)
  else
    match photoFile with
    | Some _ => emit (ConsoleInfo photo_info)
    | None => ret tt
    end ;;;
    let prompt := buildPrompt food editType in
    emit ShowLoading ;;;
    setDisabled true ;;;
    originalLabel <- getContent ;;
    setContent creating ;;;
    try_catch_finally
      (imageBlob <- generateImage apiKey prompt ;;
       emit (ShowImage imageBlob
               (lit "Generated " ++ food ++ lit " image (" ++ editType
                ++ lit ") with SDXL. Prompt: " ++ prompt)))
      (fun err =>
         emit (ConsoleError err) ;;;
         emit (ShowError (if nonempty (exn_message err) then exn_message err
                          else generic_message)))
      (setDisabled false ;;; setContent originalLabel).

End WithNetwork.

End TextOnly.

(* ===================================================================== *)
(** * The alternate-prompt variant (src/unnamed/part_000, second script) *)
(* ===================================================================== *)

Module AltPrompt.
Import JS Browser.
Local Open Scope effect_scope.

Definition HF_ENDPOINT : jsstring :=
  lit "https://router.huggingface.co/hf-inference/models/stabilityai/stable-diffusion-xl-base-1.0".

(** What [editMap[editType]] can evaluate to: an own string, nothing, or a
    member inherited from [Object.prototype], which an object literal has
    as its prototype. *)
Inductive property : Type :=
| Undefined
| OwnString (s : jsstring)
| ObjectPrototype                   (* the getter of [__proto__] *)
| NativeFunction (name : jsstring).

Definition Object_prototype_methods : list jsstring :=
  [lit "toString"; lit "toLocaleString"; lit "valueOf"; lit "hasOwnProperty";
   lit "isPrototypeOf"; lit "propertyIsEnumerable"; lit "__defineGetter__";
   lit "__defineSetter__"; lit "__lookupGetter__"; lit "__lookupSetter__"].

Definition Object_prototype (k : jsstring) : property :=
  if str_eqb k (lit "__proto__") then ObjectPrototype
  else if str_eqb k (lit "constructor") then NativeFunction (lit "Object")
  else if existsb (str_eqb k) Object_prototype_methods then NativeFunction k
  else Undefined.

Definition editMap (k : jsstring) : property :=
  if str_eqb k (lit "Style") then
    OwnString (lit "hero shot in a clean, modern style, studio lighting, high contrast, appetizing presentation")
  else if str_eqb k (lit "Background cleaning") then
    OwnString (lit "isolated on a clean, soft gradient background, no clutter, studio tabletop photography")
  else if str_eqb k (lit "Quality improvement") then
    OwnString (lit "ultra detailed, crisp focus, high-resolution, professional food photography lighting")
  else Object_prototype k.

Definition property_truthy (p : property) : bool :=
  match p with
  | Undefined => false
  | OwnString s => nonempty s
  | ObjectPrototype | NativeFunction _ => true
  end.

Definition generic_clause : jsstring :=
  lit "professional food photography, sharp focus, soft studio lighting".

Definition shortDetail (errorDetail : jsstring) : jsstring :=
  if nonempty errorDetail && (160 <? List.length errorDetail)%nat
  then slice_to 160 errorDetail ++ [ellipsis]
  else errorDetail.

Definition base_message : jsstring :=
  lit "Generation failed. The model may be loading or your key may not have access.".

Definition combined (r : response) : jsstring :=
  let short := shortDetail (text_or_empty r) in
  if nonempty short then base_message ++ lit " Details: " ++ short
  else base_message.

Definition key_message : jsstring :=
  lit "Please paste your Hugging Face API key before generating.".
Definition no_photo_info : jsstring :=
  lit "[Food Image Enhancer] No photo selected. Using text prompt only for generation.".
Definition generic_message : jsstring :=
  lit "Something went wrong while generating the image. Please check your API key, model access, and try again.".
Definition creating : jsstring := lit "Creating" ++ [ellipsis].

Section WithHost.
Context {host : Host}.

(** The string a template literal makes of a looked-up member. *)
Definition property_text (p : property) : jsstring :=
  match p with
  | Undefined => lit "undefined"
  | OwnString s => s
  | ObjectPrototype => lit "[object Object]"
  | NativeFunction name => nativeFunctionSource name
  end.

Definition buildPrompt (food editType : jsstring) : jsstring :=
  let editDescription :=
    if property_truthy (editMap editType) then editMap editType
    else OwnString generic_clause in
  food ++ lit " photo, " ++ property_text editDescription
  ++ lit ", perfect for an online sales site hero banner, shot on DSLR, 4k, realistic textures".

Section WithNetwork.
Variable net : network.

Definition generateImage (apiKey prompt : jsstring) : M blob :=
  response <- fetch net {|
      url := HF_ENDPOINT;
      method := lit "POST";
      headers := [(lit "Authorization", lit "Bearer " ++ apiKey);
                  (lit "Content-Type", lit "application/json");
                  (lit "Accept", lit "image/png")];
      body := BodyJSON (JObj [(lit "inputs", JStr prompt)]) |} ;;
  if negb (ok response) then throw (Error (combined response))
  else response_blob response.

Definition handleGenerateClick (apiKeyValue food editType : jsstring)
    (photoFile : option file) : M unit :=
  let apiKey := trim apiKeyValue in
  if negb (nonempty apiKey) then emit (ShowError key_message)
  else
    match photoFile with
    | None => emit (ConsoleInfo no_photo_info)
    | Some _ => ret tt
    end ;;;
    let prompt := buildPrompt food editType in
    emit ShowLoading ;;;
    setDisabled true ;;;
    originalLabel <- getContent ;;
    setContent creating ;;;
    try_catch_finally
      (imageBlob <- generateImage apiKey prompt ;;
       emit (ShowImage imageBlob
               (lit "Generated food image based on prompt: " ++ prompt)))
      (fun error =>
         emit (ConsoleError error) ;;; emit (ShowError generic_message))
      (setDisabled false ;;; setContent originalLabel).

End WithNetwork.
End WithHost.

End AltPrompt.

(* ===================================================================== *)
(** * Vocabulary of the properties *)
(* ===================================================================== *)

Module Claims.
Import JS Browser.

(** A segmentation candidate with a numeric score: an object whose own
    [score] is a number. *)
Definition scored (c : json) : bool :=
  match get c (lit "score") with
  | Some (JNum x) => negb (is_nan x)
  | _ => false
  end.

Definition score_of (c : json) : number :=
  match get c (lit "score") with
  | Some (JNum x) => x
  | _ => NaN
  end.

(** The candidate kept when [item] meets the accumulator [acc], both with
    numeric scores. *)
Definition pick (acc item : json) : json :=
  if SFltb (score_of acc) (score_of item) then item else acc.

(** A truthy entry without a score. *)
Definition plain (c : json) : bool :=
  truthy c && match get c (lit "score") with None => true | Some _ => false end.

(** An entry, whatever it is, without a score. *)
Definition unscored (c : json) : bool :=
  match get c (lit "score") with None => true | Some _ => false end.

Definition png_prefix : jsstring := lit "data:image/png;base64,".

(** The closing qualifiers of the lookup variant's prompt. *)
Definition alt_tail : jsstring :=
  lit ", perfect for an online sales site hero banner, shot on DSLR, 4k, realistic textures".

Definition candidate (score : number) (mask : jsstring) : json :=
  JObj [(lit "score", JNum score); (lit "mask", JStr mask)].

(** [hay] has [needle] as a contiguous part. *)
Definition contains (hay needle : jsstring) : Prop :=
  exists pre post, hay = pre ++ needle ++ post.

(** binary64 values of 0.2, 0.5, 0.9 and 0.91. *)
Definition f0_2 : number := S754_finite false 7205759403792794 (-55).
Definition f0_5 : number := S754_finite false 4503599627370496 (-53).
Definition f0_9 : number := S754_finite false 8106479329266893 (-53).
Definition f0_91 : number := S754_finite false 8196551321814303 (-53).

(** The failure message in the words of the specification: the base
    sentence alone when there is no detail, otherwise the base sentence,
    the word Details, and the detail, cut to [bound] code units and
    followed by an ellipsis when it was longer. *)
Definition truncated (bound : nat) (detail : jsstring) : jsstring :=
  if (bound <? List.length detail)%nat
  then firstn bound detail ++ [ellipsis]
  else detail.

Definition humanMessage (bound : nat) (base : jsstring)
    (detail : option jsstring) : jsstring :=
  match detail with
  | None | Some [] => base
  | Some d => base ++ lit " Details: " ++ truncated bound d
  end.

(** The three endpoint contracts of the specification's interface
    section. *)
Definition json_request (endpoint apiKey accept inputs : jsstring) : request :=
  {| url := endpoint;
     method := lit "POST";
     headers := [(lit "Authorization", lit "Bearer " ++ apiKey);
                 (lit "Content-Type", lit "application/json");
                 (lit "Accept", accept)];
     body := BodyJSON (JObj [(lit "inputs", JStr inputs)]) |}.

Definition style_request (apiKey prompt : jsstring) : request :=
  json_request (ThreeModel.style ThreeModel.HF_ENDPOINTS) apiKey
    (lit "image/png") prompt.

Definition background_request (apiKey base64Image : jsstring) : request :=
  json_request (ThreeModel.background ThreeModel.HF_ENDPOINTS) apiKey
    (lit "application/json") base64Image.

Definition quality_request (apiKey : jsstring) (imageFile : file) : request :=
  {| url := ThreeModel.quality ThreeModel.HF_ENDPOINTS;
     method := lit "POST";
     headers := [(lit "Authorization", lit "Bearer " ++ apiKey);
                 (lit "Content-Type",
                  match file_type imageFile with
                  | [] => lit "application/octet-stream"
                  | _ => file_type imageFile
                  end);
                 (lit "Accept", lit "image/png")];
     body := BodyFile imageFile |}.

(** The endpoint of an edit mode, Style standing for every mode string
    that is not one of the other two. *)
Definition endpoint_of (editType : jsstring) : jsstring :=
  if str_eqb editType ThreeModel.Background_cleaning
  then ThreeModel.background ThreeModel.HF_ENDPOINTS
  else if str_eqb editType ThreeModel.Quality_improvement
  then ThreeModel.quality ThreeModel.HF_ENDPOINTS
  else ThreeModel.style ThreeModel.HF_ENDPOINTS.

(** The page after one more effect. *)
Definition after (w : world) (events : list event) : world :=
  {| trace := trace w ++ events;
     btn_disabled := btn_disabled w;
     btn_content := btn_content w |}.

(** The page once the handler's [finally] block has run. *)
Definition settled (w : world) (events : list event) : world :=
  {| trace := trace w ++ events;
     btn_disabled := false;
     btn_content := btn_content w |}.

(** What the three-model handler shows after a call has thrown. *)
Definition caught (e : exn) : list event :=
  [ConsoleError e; ShowError ThreeModel.generic_message].

(** The events that follow a request whose answer is read as a blob. *)
Definition blob_events (base alt : jsstring) (answer : fetch_outcome)
  : list event :=
  match answer with
  | Rejected e => caught e
  | Responded resp =>
      if ok resp then
        match body_blob resp with
        | Some b => [ShowImage b alt]
        | None => caught (TypeError (lit "Failed to read the response body"))
        end
      else caught (ThreeModel.failure base resp)
  end.

Section MaskEvents.
Context {host : Host}.

(** The events that follow the segmentation request, whose answer is
    parsed as JSON and decoded to a mask. *)
Definition mask_events (alt : jsstring) (answer : fetch_outcome)
  : list event :=
  match answer with
  | Rejected e => caught e
  | Responded resp =>
      if ok resp then
        match body_json resp with
        | Some data =>
            match ThreeModel.decodeMask data with
            | Normal dataUrl => [ShowImageFromDataUrl dataUrl alt]
            | Throw e => caught e
            end
        | None => caught (SyntaxError (lit "Unexpected token in JSON"))
        end
      else caught (ThreeModel.failure ThreeModel.background_base resp)
  end.
End MaskEvents.

Definition style_alt (food prompt : jsstring) : jsstring :=
  lit "Styled food image for " ++ food
  ++ lit " using SDXL based on prompt: " ++ prompt.
Definition fallback_alt (food : jsstring) : jsstring :=
  lit "Generated food image for " ++ food ++ lit " (fallback style mode)".
Definition mask_alt (food : jsstring) : jsstring :=
  lit "Background mask for " ++ food ++ lit " created with RMBG-2.0".
Definition quality_alt (food : jsstring) : jsstring :=
  lit "Quality-improved " ++ food ++ lit " photo upscaled by Real-ESRGAN".

(** A host whose conversions are constant, for runs that never reach
    them. *)
Definition plainHost : Host := {|
  StringToNumber := fun _ => NaN;
  NumberToString := fun _ => lit "NaN";
  nativeFunctionSource := fun name =>
    lit "function " ++ name ++ lit "() { [native code] }"
|}.

(** A network that answers every request with the same response. *)
Definition always (r : response) : network := fun _ => Responded r.

Definition png (bytes : list byte) : blob :=
  {| blob_type := lit "image/png"; blob_bytes := bytes |}.

Definition success (b : blob) : response :=
  {| status := 200; statusText := lit "OK"; body_text := None;
     body_json := None; body_blob := Some b |}.

Definition success_json (v : json) : response :=
  {| status := 200; statusText := lit "OK"; body_text := None;
     body_json := Some v; body_blob := None |}.

Definition failed (code : N) (reason : jsstring) (detail : option jsstring)
  : response :=
  {| status := code; statusText := reason; body_text := detail;
     body_json := None; body_blob := None |}.

(** A file whose reader delivers the data URL of its bytes. *)
Definition photo (type : jsstring) (bytes : list byte) : file :=
  {| file_type := type; file_bytes := bytes;
     file_read := OnLoad (ResultString (dataURL type bytes)) |}.

(** The trace a handler leaves on a fresh page. *)
Definition run (h : M unit) (label : jsstring) : completion unit * list event :=
  let '(c, w) := h (initial label) in (c, trace w).

(** An event without its alternative text. *)
Definition forget_alt (e : event) : event :=
  match e with
  | ShowImage b _ => ShowImage b []
  | ShowImageFromDataUrl u _ => ShowImageFromDataUrl u []
  | other => other
  end.

End Claims.

(* ===================================================================== *)
(** * Vocabulary for the handlers as a whole *)
(* ===================================================================== *)

Module Coverage.
Import JS Browser Claims.

(** An event that puts a result, image or error, in the output area. *)
Definition is_result (e : event) : bool :=
  match e with
  | ShowError _ | ShowImage _ _ | ShowImageFromDataUrl _ _ => true
  | _ => false
  end.

(** A trace without its console notes. *)
Definition is_console_info (e : event) : bool :=
  match e with ConsoleInfo _ => true | _ => false end.

Definition without_info (t : list event) : list event :=
  filter (fun e => negb (is_console_info e)) t.

(** The message the text-only handler shows for a caught exception:
    [err.message] when it is not empty. *)
Definition shown (err : exn) : jsstring :=
  if nonempty (exn_message err) then exn_message err
  else TextOnly.generic_message.

Definition text_only_caught (err : exn) : list event :=
  [ConsoleError err; ShowError (shown err)].

Definition alt_prompt_caught (err : exn) : list event :=
  [ConsoleError err; ShowError AltPrompt.generic_message].

(** What a call to [generateImage] ends in, given the answer. *)
Definition generated (failure : response -> jsstring) (answer : fetch_outcome)
  : completion blob :=
  match answer with
  | Rejected e => Throw e
  | Responded resp =>
      if ok resp then
        match body_blob resp with
        | Some b => Normal b
        | None => Throw (TypeError (lit "Failed to read the response body"))
        end
      else Throw (Error (failure resp))
  end.

(** The events that follow the request in the two single-endpoint
    handlers. *)
Definition text_only_events (alt : jsstring) (answer : fetch_outcome)
  : list event :=
  match generated TextOnly.message answer with
  | Normal b => [ShowImage b alt]
  | Throw e => text_only_caught e
  end.

Definition alt_prompt_events (alt : jsstring) (answer : fetch_outcome)
  : list event :=
  match generated AltPrompt.combined answer with
  | Normal b => [ShowImage b alt]
  | Throw e => alt_prompt_caught e
  end.

Definition text_only_alt (food editType prompt : jsstring) : jsstring :=
  lit "Generated " ++ food ++ lit " image (" ++ editType
  ++ lit ") with SDXL. Prompt: " ++ prompt.

Definition alt_prompt_alt (prompt : jsstring) : jsstring :=
  lit "Generated food image based on prompt: " ++ prompt.

Definition text_only_info (photoFile : option file) : list event :=
  match photoFile with
  | Some _ => [ConsoleInfo TextOnly.photo_info]
  | None => []
  end.

Definition alt_prompt_info (photoFile : option file) : list event :=
  match photoFile with
  | Some _ => []
  | None => [ConsoleInfo AltPrompt.no_photo_info]
  end.

(** A property value that needs no object conversion: absent, null, a
    boolean, a number or a string. *)
Definition primitive (v : value) : bool :=
  match v with
  | Some (JArr _) | Some (JObj _) => false
  | _ => true
  end.

(** An entry whose score and mask are both primitive. *)
Definition simple_entry (c : json) : bool :=
  primitive (get c (lit "score")) && primitive (get c (lit "mask")).

(** Names that [editMap[name]] resolves: its three keys and the members
    inherited from [Object.prototype]. *)
Definition resolved_names : list jsstring :=
  [lit "Style"; lit "Background cleaning"; lit "Quality improvement";
   lit "__proto__"; lit "constructor"]
  ++ AltPrompt.Object_prototype_methods.

(** The three endpoints. *)
Definition endpoints_list : list jsstring :=
  [ThreeModel.style ThreeModel.HF_ENDPOINTS;
   ThreeModel.background ThreeModel.HF_ENDPOINTS;
   ThreeModel.quality ThreeModel.HF_ENDPOINTS].

(** A request as every call builds it: a POST whose first header is the
    bearer token. *)
Definition authorized (apiKey : jsstring) (r : request) : Prop :=
  method r = lit "POST" /\
  hd_error (headers r) = Some (lit "Authorization", lit "Bearer " ++ apiKey) /\
  In (url r) endpoints_list.

(** The last event of a trace. *)
Definition last_event (t : list event) : option event :=
  match rev t with
  | [] => None
  | e :: _ => Some e
  end.

(** The answer is a success whose body reads as the blob [b]. *)
Definition succeeded (answer : fetch_outcome) (b : blob) : Prop :=
  exists resp,
    answer = Responded resp /\ ok resp = true /\ body_blob resp = Some b.

(** The trace shows the blob [b] as an image. *)
Definition shows_image (t : list event) (b : blob) : Prop :=
  exists alt, In (ShowImage b alt) t.

(** A trace whose last event shows a result. *)
Definition ends_in_result (t : list event) : Prop :=
  exists e, last_event t = Some e /\ is_result e = true.

(** Every display of the loading indicator in [t] has later events, and the
    last of them shows a result. *)
Definition loading_replaced (t : list event) : Prop :=
  forall pre post, t = pre ++ ShowLoading :: post -> ends_in_result post.

End Coverage.

(* ===================================================================== *)
(** * Order of binary64 comparison away from NaN *)
(* ===================================================================== *)

Import JS Browser Claims Coverage.

Ltac order_cases :=
  repeat match goal with
         | |- context [Z.compare ?x ?y] => destruct (Z.compare_spec x y)
         | H : context [Z.compare ?x ?y] |- _ => destruct (Z.compare_spec x y)
         | |- context [Pos.compare_cont Eq ?x ?y] =>
             change (Pos.compare_cont Eq x y) with (Pos.compare x y);
             destruct (Pos.compare_spec x y)
         | H : context [Pos.compare_cont Eq ?x ?y] |- _ =>
             change (Pos.compare_cont Eq x y) with (Pos.compare x y) in H;
             destruct (Pos.compare_spec x y)
         end.

Lemma SFltb_irrefl (a : number) : SFltb a a = false.
Proof.
  unfold SFltb, SFcompare.
  destruct a as [s|s| |s m e]; try destruct s; simpl; auto;
    rewrite Z.compare_refl;
    change (Pos.compare_cont Eq m m) with (Pos.compare m m);
    rewrite Pos.compare_refl; reflexivity.
Qed.

Lemma SFltb_trans (a b c : number) :
  SFltb a b = true -> SFltb b c = true -> SFltb a c = true.
Proof.
  unfold SFltb, SFcompare.
  destruct a as [s1|s1| |s1 m1 e1], b as [s2|s2| |s2 m2 e2],
           c as [s3|s3| |s3 m3 e3];
    try destruct s1; try destruct s2; try destruct s3; simpl;
    try congruence; order_cases; simpl; try congruence; try lia.
Qed.

Lemma SFltb_cotrans (a b c : number) :
  is_nan b = false -> SFltb a c = true ->
  SFltb a b = true \/ SFltb b c = true.
Proof.
  unfold SFltb, SFcompare.
  destruct a as [s1|s1| |s1 m1 e1], b as [s2|s2| |s2 m2 e2],
           c as [s3|s3| |s3 m3 e3];
    try destruct s1; try destruct s2; try destruct s3; simpl;
    try congruence; auto; order_cases; simpl; try congruence; auto; try lia.
Qed.

Lemma SFleb_ltb (a b : number) :
  is_nan a = false -> is_nan b = false -> SFleb a b = negb (SFltb b a).
Proof.
  unfold SFleb, SFltb, SFcompare.
  destruct a as [s1|s1| |s1 m1 e1], b as [s2|s2| |s2 m2 e2];
    try destruct s1; try destruct s2; simpl;
    try congruence; auto; order_cases; simpl; try congruence; auto; try lia.
Qed.

Lemma SFltb_nan_l (a : number) : SFltb NaN a = false.
Proof. reflexivity. Qed.

Lemma SFltb_nan_r (a : number) : SFltb a NaN = false.
Proof. destruct a; reflexivity. Qed.

(* ===================================================================== *)
(** * Mask selection *)
(* ===================================================================== *)

Section MaskSelection.
Context {host : Host}.

Lemma scored_truthy (c : json) : scored c = true -> truthy c = true.
Proof. destruct c; simpl; try discriminate; reflexivity. Qed.

Lemma scored_not_nan (c : json) : scored c = true -> is_nan (score_of c) = false.
Proof.
  unfold scored, score_of. destruct (get c (lit "score")) as [[]|]; try discriminate.
  intros H. now apply negb_true_iff in H.
Qed.

(** On candidates with numeric scores the callback compares the two
    numbers and nothing else. *)
Lemma reducer_scored (acc item : json) :
  scored acc = true -> scored item = true ->
  ThreeModel.reducer acc item = Normal (pick acc item).
Proof.
  intros Ha Hi. unfold ThreeModel.reducer, pick.
  rewrite (scored_truthy _ Ha), (scored_truthy _ Hi). simpl.
  unfold scored, score_of in *.
  destruct (get item (lit "score")) as [[]|]; try discriminate.
  destruct (get acc (lit "score")) as [[]|]; try discriminate.
  reflexivity.
Qed.

Lemma pick_scored (acc item : json) :
  scored acc = true -> scored item = true -> scored (pick acc item) = true.
Proof. unfold pick. now destruct (SFltb _ _). Qed.

Lemma reduce_scored (rest : list json) : forall acc,
  scored acc = true -> forallb scored rest = true ->
  ThreeModel.reduce acc rest = Normal (fold_left pick rest acc).
Proof.
  induction rest as [|item rest IH]; intros acc Ha Hr; simpl in *.
  - reflexivity.
  - apply andb_true_iff in Hr as [Hi Hr].
    rewrite (reducer_scored _ _ Ha Hi). simpl.
    apply IH; auto using pick_scored.
Qed.

(** The fold keeps the first candidate that no other candidate beats. *)
Lemma fold_pick_first_max (first : json) (rest : list json) :
  forallb scored (first :: rest) = true ->
  exists i : nat,
    nth_error (first :: rest) i = Some (fold_left pick rest first) /\
    (forall c, In c (first :: rest) ->
               SFltb (score_of (fold_left pick rest first)) (score_of c) = false) /\
    (forall j c, (j < i)%nat -> nth_error (first :: rest) j = Some c ->
                 SFltb (score_of c) (score_of (fold_left pick rest first)) = true).
Proof.
  induction rest as [|y rest IH] using rev_ind; intros Hall.
  - exists O. simpl. repeat split.
    + intros c [<-|[]]. apply SFltb_irrefl.
    + intros j c Hj. lia.
  - assert (Hsplit : forallb scored (first :: rest) = true /\ scored y = true).
    { change (first :: rest ++ [y]) with ((first :: rest) ++ [y]) in Hall.
      rewrite forallb_app in Hall. apply andb_true_iff in Hall as [H1 H2].
      simpl in H2. rewrite andb_true_r in H2. auto. }
    destruct Hsplit as [Hrest Hy].
    destruct (IH Hrest) as (i & Hnth & Hmax & Hfirst).
    rewrite fold_left_app. cbn [fold_left].
    set (b := fold_left pick rest first) in *.
    assert (Hi : (i < List.length (first :: rest))%nat).
    { apply nth_error_Some. rewrite Hnth. discriminate. }
    unfold pick. destruct (SFltb (score_of b) (score_of y)) eqn:Hby.
    + exists (List.length (first :: rest)). repeat split.
      * change (first :: rest ++ [y]) with ((first :: rest) ++ [y]).
        rewrite nth_error_app2 by lia. now rewrite Nat.sub_diag.
      * intros c Hc.
        change (first :: rest ++ [y]) with ((first :: rest) ++ [y]) in Hc.
        apply in_app_or in Hc as [Hc|[<-|[]]].
        -- destruct (SFltb (score_of y) (score_of c)) eqn:Hyc; auto.
           rewrite <- (Hmax c Hc). symmetry. eapply SFltb_trans; eauto.
        -- apply SFltb_irrefl.
      * intros j c Hj Hc.
        change (first :: rest ++ [y]) with ((first :: rest) ++ [y]) in Hc.
        rewrite nth_error_app1 in Hc by exact Hj.
        assert (Hin : In c (first :: rest)) by (eapply nth_error_In; eauto).
        assert (Hc' : scored c = true).
        { rewrite forallb_forall in Hrest. auto. }
        destruct (SFltb_cotrans (score_of b) (score_of c) (score_of y)
                    (scored_not_nan _ Hc') Hby) as [Hbc|Hcy]; auto.
        rewrite (Hmax c Hin) in Hbc. discriminate.
    + exists i. repeat split.
      * change (first :: rest ++ [y]) with ((first :: rest) ++ [y]).
        rewrite nth_error_app1 by exact Hi. exact Hnth.
      * intros c Hc.
        change (first :: rest ++ [y]) with ((first :: rest) ++ [y]) in Hc.
        apply in_app_or in Hc as [Hc|[<-|[]]]; auto.
      * intros j c Hj Hc.
        change (first :: rest ++ [y]) with ((first :: rest) ++ [y]) in Hc.
        rewrite nth_error_app1 in Hc by lia. eauto.
Qed.

Lemma fold_pick_scored (rest : list json) : forall acc,
  scored acc = true -> forallb scored rest = true ->
  scored (fold_left pick rest acc) = true.
Proof.
  induction rest as [|item rest IH]; intros acc Ha Hr; simpl in *; auto.
  apply andb_true_iff in Hr as [Hi Hr]. apply IH; auto using pick_scored.
Qed.

End MaskSelection.

(** C1. On a non-empty array of candidates that all carry a numeric score,
    the reduce step of the background-removal decode path returns the entry
    at some index [i] whose score is at least every other score, and every
    entry before [i] has a strictly smaller score: the maximum, and among
    equal maxima the first in iteration order. *)
Theorem mask_selection_first_maximum :
  forall (host : Host) (first : json) (rest : list json),
    forallb scored (first :: rest) = true ->
    exists (i : nat) (best : json),
      ThreeModel.reduce first rest = Normal best /\
      nth_error (first :: rest) i = Some best /\
      (forall c, In c (first :: rest) ->
                 SFleb (score_of c) (score_of best) = true) /\
      (forall j c, (j < i)%nat -> nth_error (first :: rest) j = Some c ->
                   SFltb (score_of c) (score_of best) = true).
Proof.
  intros host first rest Hall.
  destruct (fold_pick_first_max first rest Hall) as (i & Hnth & Hmax & Hfirst).
  exists i, (fold_left pick rest first).
  assert (Hsplit := Hall). simpl in Hsplit.
  apply andb_true_iff in Hsplit as [Hf Hr].
  repeat split; auto.
  - now apply reduce_scored.
  - intros c Hc.
    assert (Hcs : scored c = true) by (rewrite forallb_forall in Hall; auto).
    rewrite SFleb_ltb.
    + now rewrite (Hmax c Hc).
    + now apply scored_not_nan.
    + apply scored_not_nan. now apply fold_pick_scored.
Qed.

(** The worked example: scores 0.2, 0.91, 0.5 in each of their six orders. *)
Example mask_selection_example (host : Host) :
  let a := candidate f0_2 (lit "QQ==") in
  let b := candidate f0_91 (lit "Qg==") in
  let c := candidate f0_5 (lit "Qw==") in
  Forall (fun data => ThreeModel.reduce (hd JNull data) (tl data) = Normal b)
    [[a; b; c]; [a; c; b]; [b; a; c]; [b; c; a]; [c; a; b]; [c; b; a]].
Proof. repeat constructor. Qed.

Lemma mask_selection_first_maximum_witness :
  let data := [candidate f0_2 (lit "QQ=="); candidate f0_91 (lit "Qg==");
               candidate f0_91 (lit "Qw==")] in
  forallb scored data = true /\
  exists (i : nat) (best : json),
    ThreeModel.reduce (host := plainHost) (hd JNull data) (tl data) = Normal best /\
    nth_error data i = Some best /\
    (forall c, In c data -> SFleb (score_of c) (score_of best) = true) /\
    (forall j c, (j < i)%nat -> nth_error data j = Some c ->
                 SFltb (score_of c) (score_of best) = true).
Proof.
  split; [reflexivity|].
  apply (mask_selection_first_maximum plainHost
           (candidate f0_2 (lit "QQ=="))
           [candidate f0_91 (lit "Qg=="); candidate f0_91 (lit "Qw==")]).
  reflexivity.
Defined.

Section Conversions.
Context {host : Host}.

(** The only exception a conversion raises is the engine's TypeError. *)
Lemma ToString_throws : forall (v : json) (e : exn),
  ToString v = Throw e -> e = cannot_convert.
Proof.
  intros v. induction v as [|b|x|s|items IH|props _] using json_induction;
    intros e; simpl.
  - discriminate.
  - destruct b; discriminate.
  - discriminate.
  - discriminate.
  - induction IH as [|x r Hx _ IHr]; simpl; [discriminate|].
    destruct (match x with JNull => Normal [] | _ => ToString x end)
      as [sx|ex] eqn:Ex; simpl.
    + destruct r as [|y r']; [discriminate|].
      destruct (joinItems ToString (y :: r')) as [sr|er] eqn:Er; simpl.
      * discriminate.
      * intros H. apply IHr. congruence.
    + intros H. injection H as <-.
      destruct x; try discriminate; apply (Hx _ Ex).
  - destruct (own (lit "toString") props); [|discriminate].
    intros H. now injection H as <-.
Qed.

Lemma ToPrimitive_throws (v : value) (e : exn) :
  ToPrimitive v = Throw e -> e = cannot_convert.
Proof.
  destruct v as [[| | | |items|props]|]; unfold ToPrimitive; try discriminate.
  - destruct (ToString (JArr items)) eqn:H; unfold cbind; [discriminate|].
    intros H'. injection H' as <-. eapply ToString_throws; eauto.
  - destruct (ToString (JObj props)) eqn:H; unfold cbind; [discriminate|].
    intros H'. injection H' as <-. eapply ToString_throws; eauto.
Qed.

Lemma gt_throws (a b : value) (e : exn) :
  gt a b = Throw e -> e = cannot_convert.
Proof.
  unfold gt. destruct (ToPrimitive a) as [pa|ea] eqn:Ha; simpl.
  - destruct (ToPrimitive b) as [pb|eb] eqn:Hb; simpl.
    + destruct pb, pa; discriminate.
    + intros H. injection H as <-. eapply ToPrimitive_throws; eauto.
  - intros H. injection H as <-. eapply ToPrimitive_throws; eauto.
Qed.

Lemma reducer_throws (acc item : json) (e : exn) :
  ThreeModel.reducer acc item = Throw e -> e = cannot_convert.
Proof.
  unfold ThreeModel.reducer.
  destruct (truthy acc); simpl; [|discriminate].
  destruct (truthy item); simpl; [|discriminate].
  destruct (gt _ _) eqn:H; simpl; [discriminate|].
  intros H'. injection H' as <-. eapply gt_throws; eauto.
Qed.

Lemma reduce_throws (rest : list json) : forall (acc : json) (e : exn),
  ThreeModel.reduce acc rest = Throw e -> e = cannot_convert.
Proof.
  induction rest as [|item rest IH]; intros acc e; simpl; [discriminate|].
  destruct (ThreeModel.reducer acc item) eqn:H; simpl.
  - apply IH.
  - intros H'. injection H' as <-. eapply reducer_throws; eauto.
Qed.

End Conversions.

(* ===================================================================== *)
(** * The decode path of background removal *)
(* ===================================================================== *)

Section Decode.
Context {host : Host}.

Lemma empty_result_neq_missing : ThreeModel.empty_result <> ThreeModel.missing_mask.
Proof. intros H. vm_compute in H. discriminate H. Qed.

Lemma empty_result_neq_convert : ThreeModel.empty_result <> cannot_convert.
Proof. discriminate. Qed.

Lemma missing_mask_neq_convert : ThreeModel.missing_mask <> cannot_convert.
Proof. discriminate. Qed.

(** After the selection, the decode path is a test on [best] and on
    [best.mask] followed by the template literal. *)
Lemma decodeMask_selected (first : json) (rest : list json) (best : json) :
  ThreeModel.reduce first rest = Normal best ->
  ThreeModel.decodeMask (JArr (first :: rest)) =
    if negb (truthy best) || negb (truthy_value (get best (lit "mask")))
    then Throw ThreeModel.missing_mask
    else match get best (lit "mask") with
         | Some mask => cbind (ToString mask) (fun s => Normal (png_prefix ++ s))
         | None => Throw ThreeModel.missing_mask
         end.
Proof. intros H. unfold ThreeModel.decodeMask. rewrite H. reflexivity. Qed.

Lemma decodeMask_not_empty_result (first : json) (rest : list json) :
  ThreeModel.decodeMask (JArr (first :: rest)) <> Throw ThreeModel.empty_result.
Proof.
  destruct (ThreeModel.reduce first rest) as [best|e] eqn:Hsel.
  - rewrite (decodeMask_selected first rest best Hsel).
    destruct (negb (truthy best) || negb (truthy_value (get best (lit "mask")))).
    + intros H. apply empty_result_neq_missing. congruence.
    + destruct (get best (lit "mask")) as [mask|].
      * destruct (ToString mask) as [s|e] eqn:Hs; simpl; [discriminate|].
        apply ToString_throws in Hs. subst e. discriminate.
      * intros H. apply empty_result_neq_missing. congruence.
  - unfold ThreeModel.decodeMask. rewrite Hsel. simpl.
    apply reduce_throws in Hsel. subst e. discriminate.
Qed.

Lemma reducer_falsy_acc (acc item : json) :
  truthy acc = false -> ThreeModel.reducer acc item = Normal item.
Proof. intros H. unfold ThreeModel.reducer. now rewrite H. Qed.

Lemma reducer_falsy_item (acc item : json) :
  truthy acc = true -> truthy item = false ->
  ThreeModel.reducer acc item = Normal acc.
Proof. intros Ha Hi. unfold ThreeModel.reducer. now rewrite Ha, Hi. Qed.

Lemma gt_undefined_r (a : value) :
  gt a None = Normal false \/ exists e, gt a None = Throw e.
Proof.
  unfold gt. destruct (ToPrimitive a) as [pa|e]; simpl.
  - left. destruct pa; try reflexivity.
  - right. now exists e.
Qed.

Lemma gt_undefined_l (b : value) :
  gt None b = Normal false \/ exists e, gt None b = Throw e.
Proof.
  unfold gt. simpl. destruct (ToPrimitive b) as [pb|e]; simpl.
  - left. destruct pb; simpl; f_equal; apply SFltb_nan_r.
  - right. now exists e.
Qed.

Lemma gt_both_undefined : gt None None = Normal false.
Proof. reflexivity. Qed.

(** An entry without a score never replaces a truthy accumulator, and a
    truthy accumulator without a score is never replaced. *)
Lemma reducer_unscored (acc item : json) :
  truthy acc = true ->
  truthy item = false \/ get item (lit "score") = None
    \/ get acc (lit "score") = None ->
  ThreeModel.reducer acc item = Normal acc
  \/ exists e, ThreeModel.reducer acc item = Throw e.
Proof.
  intros Ha H. unfold ThreeModel.reducer. rewrite Ha. simpl.
  destruct (truthy item) eqn:Hi; simpl; [|now left].
  destruct H as [H|[H|H]]; [discriminate| |]; rewrite H.
  - destruct (gt_undefined_l (get acc (lit "score"))) as [->|[e ->]];
      simpl; eauto.
  - destruct (gt_undefined_r (get item (lit "score"))) as [->|[e ->]];
      simpl; eauto.
Qed.

Lemma reduce_plain (rest : list json) : forall acc,
  plain acc = true -> forallb plain rest = true ->
  ThreeModel.reduce acc rest = Normal acc.
Proof.
  induction rest as [|item rest IH]; intros acc Ha Hr; simpl in *; auto.
  apply andb_true_iff in Hr as [Hi Hr].
  assert (Hstep : ThreeModel.reducer acc item = Normal acc).
  { unfold plain in Ha, Hi. apply andb_true_iff in Ha as [Ta Sa].
    apply andb_true_iff in Hi as [Ti Si].
    unfold ThreeModel.reducer. rewrite Ta, Ti. simpl.
    destruct (get item (lit "score")); [discriminate|].
    destruct (get acc (lit "score")); [discriminate|]. reflexivity. }
  rewrite Hstep. simpl. now apply IH.
Qed.

End Decode.

(** C5, as stated, fails: the selected candidate below has a [mask] member
    (the empty string), and the decode path still reports the missing
    mask. *)
Lemma missing_mask_with_mask_present :
  ~ (forall (host : Host) (first : json) (rest : list json) (best : json),
       ThreeModel.reduce first rest = Normal best ->
       (ThreeModel.decodeMask (JArr (first :: rest)) = Throw ThreeModel.missing_mask
        <-> get best (lit "mask") = None)).
Proof.
  intros H.
  destruct (H plainHost (candidate f0_9 []) [] (candidate f0_9 []) eq_refl) as [H1 _].
  specialize (H1 eq_refl). discriminate H1.
Qed.

(** C5 (amended). The decode path fails with the empty-result error exactly
    when the parsed body is not a non-empty array.  Once the reduce step has
    selected [best], it fails with the missing-mask error exactly when
    [best] is falsy or [best.mask] is absent or falsy (null, false, 0, the
    empty string).  Otherwise the mask is converted to a string: when the
    conversion succeeds, as it does for every primitive mask, the path
    returns the PNG data-URL prefix followed by that string, the mask itself
    when it is a string; when it does not (a mask object that carries its
    own [toString] member), the path fails with the engine's conversion
    TypeError.  The same TypeError is the only way the selection itself can
    fail; on candidates with numeric scores it always completes. *)
Theorem decode_outcomes :
  forall (host : Host) (data : json),
    (ThreeModel.decodeMask data = Throw ThreeModel.empty_result <->
       ~ (exists first rest, data = JArr (first :: rest))) /\
    (forall first rest best,
       data = JArr (first :: rest) ->
       ThreeModel.reduce first rest = Normal best ->
       (ThreeModel.decodeMask data = Throw ThreeModel.missing_mask <->
          truthy best = false \/ truthy_value (get best (lit "mask")) = false) /\
       (forall mask s,
          truthy best = true -> get best (lit "mask") = Some mask ->
          truthy mask = true -> ToString mask = Normal s ->
          ThreeModel.decodeMask data = Normal (png_prefix ++ s)) /\
       (forall s,
          truthy best = true -> get best (lit "mask") = Some (JStr s) ->
          s <> [] ->
          ThreeModel.decodeMask data = Normal (png_prefix ++ s)) /\
       (forall mask,
          truthy best = true -> get best (lit "mask") = Some mask ->
          truthy mask = true ->
          (exists s, ToString mask = Normal s /\
                     ThreeModel.decodeMask data = Normal (png_prefix ++ s))
          \/ (ToString mask = Throw cannot_convert /\
              ThreeModel.decodeMask data = Throw cannot_convert)) /\
       (forall mask,
          primitive (Some mask) = true -> exists s, ToString mask = Normal s)) /\
    (forall first rest e,
       data = JArr (first :: rest) ->
       ThreeModel.reduce first rest = Throw e ->
       e = cannot_convert /\
       ThreeModel.decodeMask data = Throw cannot_convert) /\
    (forall first rest,
       data = JArr (first :: rest) -> forallb scored (first :: rest) = true ->
       exists best, ThreeModel.reduce first rest = Normal best).
Proof.
  intros host data. split; [|split; [|split]].
  - split.
    + intros H [first [rest ->]]. now apply decodeMask_not_empty_result in H.
    + intros H. destruct data as [| | | |[|first rest]|]; try reflexivity.
      exfalso. apply H. now exists first, rest.
  - intros first rest best -> Hsel.
    rewrite (decodeMask_selected first rest best Hsel).
    split; [|split; [|split; [|split]]].
    + destruct (truthy best); simpl.
      * destruct (get best (lit "mask")) as [mask|]; simpl.
        -- destruct (truthy mask); simpl.
           ++ split.
              ** destruct (ToString mask) as [s|e] eqn:Hs; simpl; [discriminate|].
                 apply ToString_throws in Hs. subst e. discriminate.
              ** intros [H|H]; discriminate.
           ++ split; auto.
        -- split; auto.
      * split; auto.
    + intros mask s Hb Hm Ht Hs. rewrite Hb, Hm. simpl. rewrite Ht, Hs. reflexivity.
    + intros s Hb Hm Hs. rewrite Hb, Hm. simpl.
      destruct s; [contradiction|reflexivity].
    + intros mask Hb Hm Ht. rewrite Hb, Hm. simpl. rewrite Ht.
      destruct (ToString mask) as [s|e] eqn:Hs; simpl.
      * left. now exists s.
      * right. apply ToString_throws in Hs. subst e. split; reflexivity.
    + intros mask Hprim.
      destruct mask as [|[|]| | |items|props]; simpl in *;
        try discriminate; eauto.
  - intros first rest e -> Hsel.
    assert (He := reduce_throws rest first e Hsel). subst e.
    split; [reflexivity|].
    unfold ThreeModel.decodeMask. now rewrite Hsel.
  - intros first rest -> Hall. simpl in Hall.
    apply andb_true_iff in Hall as [Hf Hr].
    exists (fold_left pick rest first). now apply reduce_scored.
Qed.

Lemma decode_outcomes_witness :
  let data := JArr [candidate f0_2 (lit "QQ=="); candidate f0_91 (lit "Qg==")] in
  ThreeModel.decodeMask (host := plainHost) data
  = Normal (png_prefix ++ lit "Qg==").
Proof.
  intros data.
  destruct (decode_outcomes plainHost data) as (_ & H & _).
  destruct (H (candidate f0_2 (lit "QQ==")) [candidate f0_91 (lit "Qg==")]
              (candidate f0_91 (lit "Qg==")) eq_refl eq_refl)
    as (_ & _ & Hs & _).
  apply Hs; [reflexivity | reflexivity | discriminate].
Defined.

(** Runs of the decode path on malformed bodies. *)
Example decode_examples (host : Host) :
  ThreeModel.decodeMask (JArr []) = Throw ThreeModel.empty_result /\
  ThreeModel.decodeMask (JObj [(lit "error", JStr (lit "loading"))])
    = Throw ThreeModel.empty_result /\
  ThreeModel.decodeMask (JArr [JObj [(lit "score", JNum f0_9)]])
    = Throw ThreeModel.missing_mask /\
  ThreeModel.decodeMask (JArr [JNull]) = Throw ThreeModel.missing_mask /\
  ThreeModel.decodeMask (JArr [candidate f0_9 (lit "QQ==")])
    = Normal (lit "data:image/png;base64,QQ==") /\
  ThreeModel.decodeMask
    (JArr [JObj [(lit "score", JNum f0_9);
                 (lit "mask", JObj [(lit "toString", JNull)])]])
    = Throw cannot_convert.
Proof. repeat split. Qed.

(** C10, as stated, fails: both entries below lack a score, and the reduce
    step yields the second one, because a falsy accumulator is always
    replaced. *)
Lemma unscored_array_second_entry :
  ~ (forall (host : Host) (first : json) (rest : list json),
       forallb unscored (first :: rest) = true ->
       ThreeModel.reduce first rest = Normal first).
Proof.
  intros H.
  specialize (H plainHost JNull [JObj [(lit "mask", JStr (lit "QQ=="))]] eq_refl).
  discriminate H.
Qed.

(** C10 (amended). Selection looks at scores only: among candidates with
    numeric scores the selected one has the maximum score, and when its mask
    is absent or falsy the decode path fails with the missing-mask error
    whatever masks the other candidates carry.  A truthy accumulator is never
    replaced by an entry that is falsy or has no score, nor when the
    accumulator itself has no score; a falsy accumulator is always replaced
    by the next entry.  Hence an array of truthy entries that all lack a
    score yields its first entry. *)
Theorem selection_by_score_alone :
  forall (host : Host),
    (forall first rest,
       forallb scored (first :: rest) = true ->
       exists best,
         ThreeModel.reduce first rest = Normal best /\
         In best (first :: rest) /\
         (forall c, In c (first :: rest) ->
                    SFltb (score_of best) (score_of c) = false) /\
         (truthy_value (get best (lit "mask")) = false ->
          ThreeModel.decodeMask (JArr (first :: rest))
          = Throw ThreeModel.missing_mask)) /\
    (forall acc item,
       truthy acc = true ->
       truthy item = false \/ get item (lit "score") = None
         \/ get acc (lit "score") = None ->
       ThreeModel.reducer acc item = Normal acc
       \/ ThreeModel.reducer acc item = Throw cannot_convert) /\
    (forall acc item,
       truthy acc = false -> ThreeModel.reducer acc item = Normal item) /\
    (forall first rest,
       forallb plain (first :: rest) = true ->
       ThreeModel.reduce first rest = Normal first).
Proof.
  intros host. repeat split.
  - intros first rest Hall.
    destruct (fold_pick_first_max first rest Hall) as (i & Hnth & Hmax & _).
    assert (Hsplit := Hall). simpl in Hsplit.
    apply andb_true_iff in Hsplit as [Hf Hr].
    assert (Hsel := reduce_scored rest first Hf Hr).
    exists (fold_left pick rest first). repeat split; auto.
    + eapply nth_error_In; eauto.
    + intros Hm. rewrite (decodeMask_selected first rest _ Hsel), Hm.
      now rewrite orb_true_r.
  - intros acc item Ha H.
    destruct (reducer_unscored acc item Ha H) as [Hn|[e He]]; auto.
    right. rewrite He. f_equal. eapply reducer_throws; eauto.
  - intros acc item. apply reducer_falsy_acc.
  - intros first rest Hall. simpl in Hall.
    apply andb_true_iff in Hall as [Hf Hr]. now apply reduce_plain.
Qed.

Lemma selection_by_score_alone_witness :
  ThreeModel.decodeMask (host := plainHost)
    (JArr [candidate f0_2 (lit "QQ==");
           JObj [(lit "score", JNum f0_91)];
           candidate f0_5 (lit "Qw==")])
  = Throw ThreeModel.missing_mask
  /\ ThreeModel.reduce (host := plainHost)
       (JObj [(lit "mask", JStr (lit "QQ=="))])
       [JArr []; JObj [(lit "mask", JStr (lit "Qg=="))]]
     = Normal (JObj [(lit "mask", JStr (lit "QQ=="))]).
Proof.
  destruct (selection_by_score_alone plainHost) as (Ha & _ & _ & Hd).
  split.
  - destruct (Ha (candidate f0_2 (lit "QQ=="))
                [JObj [(lit "score", JNum f0_91)]; candidate f0_5 (lit "Qw==")]
                eq_refl) as (best & Hsel & _ & _ & Hm).
    apply Hm. vm_compute in Hsel. injection Hsel as <-. reflexivity.
  - apply Hd. reflexivity.
Defined.

(* ===================================================================== *)
(** * Strings *)
(* ===================================================================== *)

Lemma str_eqb_eq (a b : jsstring) : str_eqb a b = true <-> a = b.
Proof.
  revert b. induction a as [|x a IH]; intros [|y b]; simpl; split;
    try discriminate; try reflexivity.
  - intros H. apply andb_true_iff in H as [Hx Ha].
    apply N.eqb_eq in Hx. apply IH in Ha. congruence.
  - intros H. injection H as -> ->.
    rewrite N.eqb_refl. simpl. now apply IH.
Qed.

Lemma str_eqb_neq (a b : jsstring) : str_eqb a b = false <-> a <> b.
Proof.
  rewrite <- str_eqb_eq. destruct (str_eqb a b); split; congruence.
Qed.

Lemma contains_prefix (s t : jsstring) : contains (s ++ t) s.
Proof. exists [], t. reflexivity. Qed.

Lemma contains_length (hay needle : jsstring) :
  contains hay needle -> (List.length needle <= List.length hay)%nat.
Proof.
  intros (pre & post & ->). rewrite !length_app. lia.
Qed.

(* ===================================================================== *)
(** * Prompt construction *)
(* ===================================================================== *)

Lemma TextOnly_buildPrompt_same (food editType : jsstring) :
  TextOnly.buildPrompt food editType = ThreeModel.buildPrompt food editType.
Proof. reflexivity. Qed.

(** The if-chain of the text-only and three-model variants: the food text
    first, then the fixed qualifiers, then the clause of the mode, the Style
    clause standing for every other mode string. *)
Lemma ThreeModel_buildPrompt_clauses (food editType : jsstring) :
  let base := food
    ++ lit " hero shot, ultra realistic, commercial food photography, shot on a dark matte table, shallow depth of field, cinematic lighting" in
  (editType = ThreeModel.Background_cleaning ->
   ThreeModel.buildPrompt food editType = base
     ++ lit ", isolated on a clean soft gradient background, no clutter, product catalog look, web shop ready") /\
  (editType = ThreeModel.Quality_improvement ->
   ThreeModel.buildPrompt food editType = base
     ++ lit ", crisp 4k detail, noise-free, high dynamic range, sharp textures, studio-grade retouching") /\
  (editType <> ThreeModel.Background_cleaning ->
   editType <> ThreeModel.Quality_improvement ->
   ThreeModel.buildPrompt food editType = base
     ++ lit ", modern editorial style, subtle color grading, perfect for a sales landing page hero banner") /\
  contains (ThreeModel.buildPrompt food editType) food /\
  ThreeModel.buildPrompt food editType <> [].
Proof.
  intros base. unfold ThreeModel.buildPrompt. repeat split.
  - intros ->. subst base. simpl str_eqb. cbv iota.
    now rewrite <- !app_assoc.
  - intros ->. subst base. simpl str_eqb. cbv iota.
    now rewrite <- !app_assoc.
  - intros H1 H2. apply str_eqb_neq in H1, H2. rewrite H1, H2.
    subst base. now rewrite <- !app_assoc.
  - destruct (str_eqb editType _); [|destruct (str_eqb editType _)];
      rewrite <- !app_assoc; apply contains_prefix.
  - destruct (str_eqb editType _); [|destruct (str_eqb editType _)];
      rewrite <- !app_assoc; destruct food; discriminate.
Qed.

Lemma ThreeModel_buildPrompt_unknown (food editType : jsstring) :
  editType <> ThreeModel.Background_cleaning ->
  editType <> ThreeModel.Quality_improvement ->
  ThreeModel.buildPrompt food editType
  = ThreeModel.buildPrompt food ThreeModel.Style.
Proof.
  intros H1 H2. unfold ThreeModel.buildPrompt.
  apply str_eqb_neq in H1, H2. now rewrite H1, H2.
Qed.

Section AltPromptFacts.
Context {host : Host}.

(** The lookup variant always returns, and its result starts with the
    food text. *)
Lemma AltPrompt_buildPrompt_shape (food editType : jsstring) :
  exists clause,
    AltPrompt.buildPrompt food editType
    = food ++ lit " photo, " ++ clause ++ alt_tail /\
    contains (AltPrompt.buildPrompt food editType) food /\
    AltPrompt.buildPrompt food editType <> [].
Proof.
  unfold AltPrompt.buildPrompt.
  eexists. split; [reflexivity|]. split.
  - apply contains_prefix.
  - destruct food; discriminate.
Qed.

(** A mode string that is neither a key of [editMap] nor a member of
    [Object.prototype] gets the generic clause. *)
Lemma AltPrompt_buildPrompt_fallback (food editType : jsstring) :
  AltPrompt.editMap editType = AltPrompt.Undefined ->
  AltPrompt.buildPrompt food editType
  = food ++ lit " photo, " ++ AltPrompt.generic_clause ++ alt_tail.
Proof. intros H. unfold AltPrompt.buildPrompt. rewrite H. reflexivity. Qed.

Lemma AltPrompt_buildPrompt_known :
  forall food,
    AltPrompt.buildPrompt food (lit "Style")
    = food ++ lit " photo, hero shot in a clean, modern style, studio lighting, high contrast, appetizing presentation" ++ alt_tail /\
    AltPrompt.buildPrompt food (lit "Background cleaning")
    = food ++ lit " photo, isolated on a clean, soft gradient background, no clutter, studio tabletop photography" ++ alt_tail /\
    AltPrompt.buildPrompt food (lit "Quality improvement")
    = food ++ lit " photo, ultra detailed, crisp focus, high-resolution, professional food photography lighting" ++ alt_tail /\
    AltPrompt.buildPrompt food (lit "Dessert styling")
    = food ++ lit " photo, professional food photography, sharp focus, soft studio lighting" ++ alt_tail.
Proof. intros food. repeat split. Qed.

End AltPromptFacts.

(** C4. The lookup variant of [buildPrompt] does not give the generic clause
    to every unrecognized mode string: [editMap["__proto__"]] is
    [Object.prototype], which is truthy, so the fallback after [||] is not
    taken and the clause is the text of that object. *)
Theorem buildPrompt_inherited_member :
  forall (host : Host),
    AltPrompt.buildPrompt (lit "Pizza") (lit "__proto__")
    = lit "Pizza photo, [object Object], perfect for an online sales site hero banner, shot on DSLR, 4k, realistic textures"
    /\ AltPrompt.buildPrompt (lit "Pizza") (lit "__proto__")
       <> lit "Pizza photo, " ++ AltPrompt.generic_clause ++ alt_tail
    /\ ThreeModel.buildPrompt (lit "Pizza") (lit "__proto__")
       = ThreeModel.buildPrompt (lit "Pizza") (lit "Style").
Proof.
  intros host. repeat split. intros H. vm_compute in H. discriminate H.
Qed.

(* ===================================================================== *)
(** * Base64 round trip and [fileToBase64] *)
(* ===================================================================== *)

Lemma sextet_alphabet (v : N) : v < 64 -> Base64.sextet (Base64.alphabet v) = Some v.
Proof.
  intros Hv. unfold Base64.alphabet, Base64.sextet.
  repeat match goal with
         | |- context [?a <? ?b] => destruct (N.ltb_spec a b)
         | |- context [?a <=? ?b] => destruct (N.leb_spec a b)
         | |- context [?a =? ?b] => destruct (N.eqb_spec a b)
         end; cbv beta iota delta [andb]; try lia; try (f_equal; lia).
Qed.

Lemma alphabet_not_pad (v : N) :
  v < 64 -> (Base64.alphabet v =? Base64.pad) = false.
Proof.
  intros Hv. apply N.eqb_neq. unfold Base64.alphabet, Base64.pad.
  repeat match goal with
         | |- context [?a <? ?b] => destruct (N.ltb_spec a b)
         | |- context [?a =? ?b] => destruct (N.eqb_spec a b)
         end; lia.
Qed.

Lemma byte_of_to_N (b : byte) (n : N) :
  n mod 256 = Byte.to_N b -> Base64.byte_of n = Some b.
Proof. intros H. unfold Base64.byte_of. rewrite H. apply Byte.of_to_N. Qed.

Lemma to_N_lt (b : byte) : Byte.to_N b < 256.
Proof. pose proof (Byte.to_N_bounded b). lia. Qed.

Ltac sextets :=
  repeat (rewrite sextet_alphabet by assumption);
  repeat (rewrite alphabet_not_pad by assumption).

Lemma base64_chunk (a b c : N) :
  a < 256 -> b < 256 -> c < 256 ->
  a / 4 < 64 /\ (a mod 4) * 16 < 64 /\ (a mod 4) * 16 + b / 16 < 64 /\
  (b mod 16) * 4 < 64 /\ (b mod 16) * 4 + c / 64 < 64 /\ c mod 64 < 64 /\
  (a / 4 * 4 + (a mod 4) * 16 / 16) mod 256 = a /\
  (a / 4 * 4 + ((a mod 4) * 16 + b / 16) / 16) mod 256 = a /\
  (((a mod 4) * 16 + b / 16) * 16 + (b mod 16) * 4 / 4) mod 256 = b /\
  (((a mod 4) * 16 + b / 16) * 16 + ((b mod 16) * 4 + c / 64) / 4) mod 256 = b /\
  (((b mod 16) * 4 + c / 64) * 64 + c mod 64) mod 256 = c.
Proof.
  intros Ha Hb Hc.
  repeat apply conj; zify; Z.to_euclidean_division_equations; lia.
Qed.

Lemma base64_round_trip_bounded (n : nat) : forall bs : list byte,
  (List.length bs <= n)%nat -> Base64.decode (Base64.encode bs) = Some bs.
Proof.
  induction n as [|n IH]; intros bs Hlen.
  - destruct bs; [reflexivity|simpl in Hlen; lia].
  - destruct bs as [|a [|b [|c rest]]].
    + reflexivity.
    + destruct (base64_chunk (Byte.to_N a) 0 0 (to_N_lt a) eq_refl eq_refl)
        as (H1 & H2 & _ & _ & _ & _ & E1 & _).
      cbn [Base64.encode Base64.decode]. sextets.
      rewrite N.eqb_refl. rewrite (byte_of_to_N a _ E1). reflexivity.
    + destruct (base64_chunk (Byte.to_N a) (Byte.to_N b) 0
                  (to_N_lt a) (to_N_lt b) eq_refl)
        as (H1 & _ & H3 & H4 & _ & _ & _ & E2 & E3 & _).
      cbn [Base64.encode Base64.decode]. sextets.
      rewrite N.eqb_refl.
      rewrite (byte_of_to_N a _ E2), (byte_of_to_N b _ E3). reflexivity.
    + destruct (base64_chunk (Byte.to_N a) (Byte.to_N b) (Byte.to_N c)
                  (to_N_lt a) (to_N_lt b) (to_N_lt c))
        as (H1 & _ & H3 & _ & H5 & H6 & _ & E2 & _ & E5 & E6).
      cbn [Base64.encode Base64.decode]. sextets.
      rewrite (byte_of_to_N a _ E2), (byte_of_to_N b _ E5), (byte_of_to_N c _ E6).
      rewrite IH by (simpl in Hlen; lia). reflexivity.
Qed.

Lemma base64_round_trip (bs : list byte) :
  Base64.decode (Base64.encode bs) = Some bs.
Proof. apply (base64_round_trip_bounded (List.length bs)). lia. Qed.

Lemma indexOf_app (c : code_unit) (pre rest : jsstring) :
  ~ In c pre -> indexOf c (pre ++ c :: rest) = Some (List.length pre).
Proof.
  induction pre as [|x pre IH]; intros Hnot; simpl.
  - now rewrite N.eqb_refl.
  - destruct (N.eqb_spec x c) as [->|Hne].
    + exfalso. apply Hnot. now left.
    + rewrite IH; [reflexivity|]. intros Hin. apply Hnot. now right.
Qed.

Lemma indexOf_none (c : code_unit) (s : jsstring) :
  ~ In c s -> indexOf c s = None.
Proof.
  induction s as [|x s IH]; intros Hnot; simpl; [reflexivity|].
  destruct (N.eqb_spec x c) as [->|Hne].
  - exfalso. apply Hnot. now left.
  - rewrite IH; [reflexivity|]. intros Hin. apply Hnot. now right.
Qed.

Lemma slice_after_comma (pre rest : jsstring) :
  slice_from (List.length pre + 1) (pre ++ comma :: rest) = rest.
Proof.
  unfold slice_from. rewrite Nat.add_1_r.
  change (pre ++ comma :: rest) with (pre ++ [comma] ++ rest).
  rewrite app_assoc.
  replace (S (List.length pre)) with (List.length (pre ++ [comma]))
    by (rewrite length_app; simpl; lia).
  now rewrite skipn_app, skipn_all, Nat.sub_diag.
Qed.

Lemma fileToBase64_strips (type : jsstring) (bytes : list byte) (pre rest : jsstring) :
  ~ In comma pre ->
  ThreeModel.fileToBase64
    {| file_type := type; file_bytes := bytes;
       file_read := OnLoad (ResultString (pre ++ comma :: rest)) |}
  = Normal rest.
Proof.
  intros Hpre. unfold ThreeModel.fileToBase64. cbn [file_read].
  rewrite (indexOf_app comma pre rest Hpre). now rewrite slice_after_comma.
Qed.

(** C7. [fileToBase64] resolves with the reader's string unchanged when it
    has no comma, and with everything after the first comma otherwise (later
    commas stay).  When the reader delivers the data URL of the file, whose
    media type has no comma, the result is the Base64 text of the bytes, and
    decoding it gives the bytes back. *)
Theorem fileToBase64_round_trip :
  forall (f : file),
    (forall result,
       file_read f = OnLoad (ResultString result) -> ~ In comma result ->
       ThreeModel.fileToBase64 f = Normal result) /\
    (forall pre rest,
       file_read f = OnLoad (ResultString (pre ++ comma :: rest)) ->
       ~ In comma pre ->
       ThreeModel.fileToBase64 f = Normal rest) /\
    (reads_as_data_url f -> ~ In comma (file_type f) ->
     ThreeModel.fileToBase64 f = Normal (Base64.encode (file_bytes f)) /\
     Base64.decode (Base64.encode (file_bytes f)) = Some (file_bytes f)).
Proof.
  intros f. repeat split.
  - intros result Hr Hnot. unfold ThreeModel.fileToBase64. rewrite Hr.
    now rewrite (indexOf_none comma result Hnot).
  - intros pre rest Hr Hnot. unfold ThreeModel.fileToBase64. rewrite Hr.
    rewrite (indexOf_app comma pre rest Hnot). now rewrite slice_after_comma.
  - unfold reads_as_data_url, dataURL in H.
    unfold ThreeModel.fileToBase64. rewrite H.
    change (lit "data:" ++ file_type f ++ lit ";base64," ++ Base64.encode (file_bytes f))
      with (lit "data:" ++ file_type f ++ lit ";base64" ++ comma :: Base64.encode (file_bytes f)).
    rewrite !app_assoc.
    rewrite indexOf_app.
    + now rewrite slice_after_comma.
    + intros Hin. apply in_app_or in Hin as [Hin|Hin].
      * apply in_app_or in Hin as [Hin|Hin]; [|contradiction].
        vm_compute in Hin. intuition discriminate.
      * vm_compute in Hin. intuition discriminate.
  - apply base64_round_trip.
Qed.

Lemma fileToBase64_round_trip_witness :
  let bytes := [x89; x50; x4e; x47; x0d]%byte in
  let f := photo (lit "image/png") bytes in
  ThreeModel.fileToBase64 f = Normal (lit "iVBORw0=") /\
  Base64.decode (lit "iVBORw0=") = Some bytes.
Proof.
  intros bytes f.
  destruct (fileToBase64_round_trip f) as (_ & _ & H).
  apply H.
  - reflexivity.
  - vm_compute. intuition discriminate.
Defined.

(** The reader outcomes other than a string with a comma. *)
Example fileToBase64_examples :
  let file_with event :=
    {| file_type := lit "image/png"; file_bytes := []; file_read := event |} in
  ThreeModel.fileToBase64 (file_with (OnLoad (ResultString (lit "data:"))))
    = Normal (lit "data:") /\
  ThreeModel.fileToBase64
    (file_with (OnLoad (ResultString (lit "data:text/plain;charset=a,b;base64,QQ=="))))
    = Normal (lit "b;base64,QQ==") /\
  ThreeModel.fileToBase64 (file_with (OnLoad ResultOther))
    = Throw (Error (lit "Unexpected FileReader result type.")) /\
  ThreeModel.fileToBase64 (file_with (OnError None))
    = Throw (Error (lit "Failed to read image file.")) /\
  ThreeModel.fileToBase64 (file_with (OnError (Some (DOMException (lit "NotReadableError")))))
    = Throw (DOMException (lit "NotReadableError")).
Proof. repeat split. Qed.

(* ===================================================================== *)
(** * Failure messages *)
(* ===================================================================== *)

Ltac run_effects :=
  cbv beta iota zeta delta
    [bind ret throw lift emit setDisabled getContent setContent
     try_catch_finally fetch response_blob response_json
     fst snd trace btn_disabled btn_content].

Lemma nonempty_false (s : jsstring) : nonempty s = false <-> s = [].
Proof. destruct s; simpl; split; congruence. Qed.

Lemma nonempty_true (s : jsstring) : nonempty s = true <-> s <> [].
Proof. destruct s; simpl; split; congruence. Qed.

Lemma ThreeModel_shortDetail_truncated (detail : jsstring) :
  ThreeModel.shortDetail detail = truncated 160 detail.
Proof.
  unfold ThreeModel.shortDetail, truncated, slice_to.
  destruct detail as [|c detail]; [reflexivity|].
  cbn [nonempty andb]. reflexivity.
Qed.

Lemma truncated_nonempty (bound : nat) (detail : jsstring) :
  detail <> [] -> nonempty (truncated bound detail) = true.
Proof.
  intros H. unfold truncated. destruct (bound <? List.length detail)%nat.
  - destruct (firstn bound detail); reflexivity.
  - now apply nonempty_true.
Qed.

Lemma ThreeModel_failure_message (base : jsstring) (r : response) :
  ThreeModel.failure base r = Error (humanMessage 160 base (body_text r)).
Proof.
  unfold ThreeModel.failure, ThreeModel.fullMessage, text_or_empty, humanMessage.
  rewrite ThreeModel_shortDetail_truncated.
  destruct (body_text r) as [[|c d]|]; try reflexivity.
  now rewrite truncated_nonempty by discriminate.
Qed.

Lemma AltPrompt_combined_message (r : response) :
  AltPrompt.combined r = humanMessage 160 AltPrompt.base_message (body_text r).
Proof.
  unfold AltPrompt.combined, text_or_empty, humanMessage.
  change (AltPrompt.shortDetail ?d) with (ThreeModel.shortDetail d).
  rewrite ThreeModel_shortDetail_truncated.
  destruct (body_text r) as [[|c d]|]; try reflexivity.
  now rewrite truncated_nonempty by discriminate.
Qed.

Lemma TextOnly_shortDetail_truncated (detail : jsstring) :
  TextOnly.shortDetail detail = truncated 300 detail.
Proof.
  unfold TextOnly.shortDetail, truncated, slice_to.
  destruct detail as [|c detail]; [reflexivity|].
  cbn [nonempty andb]. reflexivity.
Qed.

Lemma TextOnly_message_human (r : response) :
  TextOnly.message r = humanMessage 300 (TextOnly.statusLine r) (body_text r).
Proof.
  unfold TextOnly.message, text_or_empty, humanMessage.
  rewrite TextOnly_shortDetail_truncated.
  assert (Hline : nonempty (TextOnly.statusLine r) = true) by reflexivity.
  destruct (body_text r) as [[|c d]|].
  - cbn [truncated Nat.ltb Nat.leb List.length]. cbn [nonempty filter].
    rewrite Hline. reflexivity.
  - rewrite truncated_nonempty by discriminate.
    cbn [filter]. rewrite Hline.
    assert (Hd : nonempty (lit "Details: " ++ truncated 300 (c :: d)) = true)
      by reflexivity.
    rewrite Hd. cbn [join].
    change (lit " " ++ lit "Details: " ++ truncated 300 (c :: d))
      with (lit " Details: " ++ truncated 300 (c :: d)).
    reflexivity.
  - cbn [truncated Nat.ltb Nat.leb List.length]. cbn [nonempty filter].
    rewrite Hline. reflexivity.
Qed.

(** What the message looks like in each case of the detail. *)
Lemma humanMessage_cases (bound : nat) (base : jsstring) :
  humanMessage bound base None = base /\
  humanMessage bound base (Some []) = base /\
  (forall body,
     body <> [] -> (List.length body <= bound)%nat ->
     humanMessage bound base (Some body) = base ++ lit " Details: " ++ body) /\
  (forall body,
     (bound < List.length body)%nat ->
     humanMessage bound base (Some body)
     = base ++ lit " Details: " ++ firstn bound body ++ [ellipsis] /\
     List.length (humanMessage bound base (Some body))
     = (List.length base + 10 + bound + 1)%nat /\
     ((List.length base + 10 + bound + 1 < List.length body)%nat ->
      ~ contains (humanMessage bound base (Some body)) body)).
Proof.
  repeat apply conj; try reflexivity.
  - intros body Hne Hlen. unfold humanMessage, truncated.
    destruct body as [|c d]; [contradiction|].
    destruct (Nat.ltb_spec bound (List.length (c :: d))); [lia|reflexivity].
  - intros body Hlen.
    assert (Hmsg : humanMessage bound base (Some body)
                   = base ++ lit " Details: " ++ firstn bound body ++ [ellipsis]).
    { unfold humanMessage, truncated.
      destruct body as [|c d]; [simpl in Hlen; lia|].
      destruct (Nat.ltb_spec bound (List.length (c :: d))); [reflexivity|lia]. }
    assert (Hsize : List.length (humanMessage bound base (Some body))
                    = (List.length base + 10 + bound + 1)%nat).
    { rewrite Hmsg, !length_app, length_firstn.
      change (List.length (lit " Details: ")) with 10%nat.
      change (List.length [ellipsis]) with 1%nat. lia. }
    repeat apply conj; auto.
    intros Hlong Hin. apply contains_length in Hin. lia.
Qed.

(** Each call issues its one request and then depends on the answer alone. *)
Lemma callStyleGeneration_run (net : network) (apiKey prompt : jsstring) (w : world) :
  ThreeModel.callStyleGeneration net apiKey prompt w =
  (match net (style_request apiKey prompt) with
   | Rejected e => Throw e
   | Responded resp =>
       if ok resp then
         match body_blob resp with
         | Some b => Normal b
         | None => Throw (TypeError (lit "Failed to read the response body"))
         end
       else Throw (ThreeModel.failure ThreeModel.style_base resp)
   end, after w [Fetch (style_request apiKey prompt)]).
Proof.
  unfold ThreeModel.callStyleGeneration. run_effects.
  change {| url := _; method := _; headers := _; body := _ |}
    with (style_request apiKey prompt).
  destruct (net (style_request apiKey prompt)) as [e|resp]; [reflexivity|].
  destruct (ok resp); [|reflexivity].
  destruct (body_blob resp); reflexivity.
Qed.

Lemma callQualityImprovement_run (net : network) (apiKey : jsstring)
    (imageFile : file) (w : world) :
  ThreeModel.callQualityImprovement net apiKey imageFile w =
  (match net (quality_request apiKey imageFile) with
   | Rejected e => Throw e
   | Responded resp =>
       if ok resp then
         match body_blob resp with
         | Some b => Normal b
         | None => Throw (TypeError (lit "Failed to read the response body"))
         end
       else Throw (ThreeModel.failure ThreeModel.quality_base resp)
   end, after w [Fetch (quality_request apiKey imageFile)]).
Proof.
  unfold ThreeModel.callQualityImprovement. run_effects.
  assert (Hreq : {| url := ThreeModel.quality ThreeModel.HF_ENDPOINTS;
                    method := lit "POST";
                    headers := [ThreeModel.bearer apiKey;
                                (lit "Content-Type",
                                 if nonempty (file_type imageFile)
                                 then file_type imageFile
                                 else lit "application/octet-stream");
                                (lit "Accept", lit "image/png")];
                    body := BodyFile imageFile |}
                 = quality_request apiKey imageFile).
  { unfold quality_request. destruct (file_type imageFile); reflexivity. }
  rewrite Hreq.
  destruct (net (quality_request apiKey imageFile)) as [e|resp]; [reflexivity|].
  destruct (ok resp); [|reflexivity].
  destruct (body_blob resp); reflexivity.
Qed.

Lemma callBackgroundRemoval_run (host : Host) (net : network) (apiKey : jsstring)
    (imageFile : file) (w : world) :
  ThreeModel.callBackgroundRemoval net apiKey imageFile w =
  match ThreeModel.fileToBase64 imageFile with
  | Throw e => (Throw e, w)
  | Normal base64Image =>
      (match net (background_request apiKey base64Image) with
       | Rejected e => Throw e
       | Responded resp =>
           if ok resp then
             match body_json resp with
             | Some data => ThreeModel.decodeMask data
             | None => Throw (SyntaxError (lit "Unexpected token in JSON"))
             end
           else Throw (ThreeModel.failure ThreeModel.background_base resp)
       end, after w [Fetch (background_request apiKey base64Image)])
  end.
Proof.
  unfold ThreeModel.callBackgroundRemoval. run_effects.
  destruct (ThreeModel.fileToBase64 imageFile) as [base64Image|e]; [|reflexivity].
  change {| url := _; method := _; headers := _; body := _ |}
    with (background_request apiKey base64Image).
  destruct (net (background_request apiKey base64Image)) as [e|resp]; [reflexivity|].
  destruct (ok resp); [|reflexivity].
  destruct (body_json resp); reflexivity.
Qed.

Lemma TextOnly_generateImage_run (net : network) (apiKey prompt : jsstring) (w : world) :
  TextOnly.generateImage net apiKey prompt w =
  (match net (style_request apiKey prompt) with
   | Rejected e => Throw e
   | Responded resp =>
       if ok resp then
         match body_blob resp with
         | Some b => Normal b
         | None => Throw (TypeError (lit "Failed to read the response body"))
         end
       else Throw (Error (TextOnly.message resp))
   end, after w [Fetch (style_request apiKey prompt)]).
Proof.
  unfold TextOnly.generateImage. run_effects.
  change {| url := _; method := _; headers := _; body := _ |}
    with (style_request apiKey prompt).
  destruct (net (style_request apiKey prompt)) as [e|resp]; [reflexivity|].
  destruct (ok resp); [|reflexivity].
  destruct (body_blob resp); reflexivity.
Qed.

Lemma AltPrompt_generateImage_run (net : network) (apiKey prompt : jsstring) (w : world) :
  AltPrompt.generateImage net apiKey prompt w =
  (match net (style_request apiKey prompt) with
   | Rejected e => Throw e
   | Responded resp =>
       if ok resp then
         match body_blob resp with
         | Some b => Normal b
         | None => Throw (TypeError (lit "Failed to read the response body"))
         end
       else Throw (Error (AltPrompt.combined resp))
   end, after w [Fetch (style_request apiKey prompt)]).
Proof.
  unfold AltPrompt.generateImage. run_effects.
  change {| url := _; method := _; headers := _; body := _ |}
    with (style_request apiKey prompt).
  destruct (net (style_request apiKey prompt)) as [e|resp]; [reflexivity|].
  destruct (ok resp); [|reflexivity].
  destruct (body_blob resp); reflexivity.
Qed.

(** C6, as stated, fails: a body of 161 spaces is longer than the bound of
    160, and the message, which ends the word Details with a space and then
    holds 160 spaces of detail, contains all 161 of them. *)
Lemma truncated_message_contains_body :
  ~ (forall (net : network) (apiKey prompt body msg : jsstring) (w : world)
            (resp : response),
       net (style_request apiKey prompt) = Responded resp ->
       ok resp = false ->
       body_text resp = Some body ->
       (160 < List.length body)%nat ->
       fst (ThreeModel.callStyleGeneration net apiKey prompt w) = Throw (Error msg) ->
       msg = ThreeModel.style_base ++ lit " Details: " ++ firstn 160 body ++ [ellipsis]
       /\ ~ contains msg body).
Proof.
  intros H.
  pose (body := repeat 32 161).
  pose (resp := failed 503 (lit "Service Unavailable") (Some body)).
  destruct (H (always resp) (lit "hf_key") (lit "Pizza") body
              (ThreeModel.style_base ++ lit " Details: " ++ firstn 160 body ++ [ellipsis])
              (initial (lit "Create Image")) resp
              eq_refl eq_refl eq_refl) as [_ Hnot].
  - vm_compute. lia.
  - reflexivity.
  - apply Hnot.
    exists (ThreeModel.style_base ++ lit " Details:"), [ellipsis].
    reflexivity.
Qed.

(** C6 (amended). On a non-success response each of the five calls throws an
    error whose message is the base sentence alone when the body is empty or
    cannot be read, the base sentence followed by the whole detail when the
    detail has at most [bound] code units (160, or 300 in the text-only
    variant), and the base sentence followed by the first [bound] code units
    of the detail and an ellipsis when it is longer.  The truncated message
    has [length base + 10 + bound + 1] code units, so no body longer than
    that is contained in it. *)
Theorem failure_message_bounded :
  forall (host : Host) (net : network) (apiKey prompt : jsstring)
         (imageFile : file) (w : world) (resp : response),
    ok resp = false ->
    (net (style_request apiKey prompt) = Responded resp ->
     fst (ThreeModel.callStyleGeneration net apiKey prompt w)
     = Throw (Error (humanMessage 160 ThreeModel.style_base (body_text resp))) /\
     fst (TextOnly.generateImage net apiKey prompt w)
     = Throw (Error (humanMessage 300 (TextOnly.statusLine resp) (body_text resp))) /\
     fst (AltPrompt.generateImage net apiKey prompt w)
     = Throw (Error (humanMessage 160 AltPrompt.base_message (body_text resp)))) /\
    (forall base64Image,
       ThreeModel.fileToBase64 imageFile = Normal base64Image ->
       net (background_request apiKey base64Image) = Responded resp ->
       fst (ThreeModel.callBackgroundRemoval net apiKey imageFile w)
       = Throw (Error (humanMessage 160 ThreeModel.background_base (body_text resp)))) /\
    (net (quality_request apiKey imageFile) = Responded resp ->
     fst (ThreeModel.callQualityImprovement net apiKey imageFile w)
     = Throw (Error (humanMessage 160 ThreeModel.quality_base (body_text resp)))) /\
    (forall bound base,
       humanMessage bound base None = base /\
       humanMessage bound base (Some []) = base /\
       (forall body,
          body <> [] -> (List.length body <= bound)%nat ->
          humanMessage bound base (Some body) = base ++ lit " Details: " ++ body) /\
       (forall body,
          (bound < List.length body)%nat ->
          humanMessage bound base (Some body)
          = base ++ lit " Details: " ++ firstn bound body ++ [ellipsis] /\
          List.length (humanMessage bound base (Some body))
          = (List.length base + 10 + bound + 1)%nat /\
          ((List.length base + 10 + bound + 1 < List.length body)%nat ->
           ~ contains (humanMessage bound base (Some body)) body))).
Proof.
  intros host net apiKey prompt imageFile w resp Hok.
  split; [|split; [|split]].
  - intros Hnet.
    rewrite callStyleGeneration_run, TextOnly_generateImage_run,
      AltPrompt_generateImage_run, Hnet, Hok.
    cbn [fst].
    rewrite ThreeModel_failure_message, TextOnly_message_human,
      AltPrompt_combined_message.
    auto.
  - intros base64Image Hfile Hnet.
    rewrite callBackgroundRemoval_run, Hfile, Hnet, Hok.
    cbn [fst]. now rewrite ThreeModel_failure_message.
  - intros Hnet. rewrite callQualityImprovement_run, Hnet, Hok.
    cbn [fst]. now rewrite ThreeModel_failure_message.
  - apply humanMessage_cases.
Qed.

Lemma failure_message_bounded_witness :
  let body := repeat 120 500 in
  let resp := failed 503 (lit "Service Unavailable") (Some body) in
  ok resp = false /\
  fst (ThreeModel.callStyleGeneration (always resp) (lit "hf_key") (lit "Pizza")
         (initial (lit "Create Image")))
  = Throw (Error (ThreeModel.style_base ++ lit " Details: "
                  ++ repeat 120 160 ++ [ellipsis])) /\
  fst (TextOnly.generateImage (always resp) (lit "hf_key") (lit "Pizza")
         (initial (lit "Create Image")))
  = Throw (Error (lit "HF Inference error: 503 Service Unavailable. Details: "
                  ++ repeat 120 300 ++ [ellipsis])).
Proof.
  intros body resp. split; [reflexivity|].
  destruct (failure_message_bounded plainHost (always resp) (lit "hf_key")
              (lit "Pizza") (photo (lit "image/png") [])
              (initial (lit "Create Image")) resp eq_refl)
    as (Hstyle & _).
  destruct (Hstyle eq_refl) as (H1 & H2 & _).
  split.
  - rewrite H1. reflexivity.
  - rewrite H2. reflexivity.
Defined.

(** Messages for short, empty and unreadable bodies. *)
Example failure_message_examples :
  let run detail :=
    fst (ThreeModel.callStyleGeneration
           (always (failed 429 (lit "Too Many Requests") detail))
           (lit "hf_key") (lit "Pizza") (initial (lit "Create Image"))) in
  run (Some (lit "rate limit")) <> run None /\
  run None = Throw (Error ThreeModel.style_base) /\
  run (Some []) = Throw (Error ThreeModel.style_base) /\
  run (Some (lit "Model is loading"))
  = Throw (Error (ThreeModel.style_base ++ lit " Details: Model is loading")).
Proof. repeat split. intros H. vm_compute in H. discriminate H. Qed.

(* ===================================================================== *)
(** * The click handler of the three-model variant *)
(* ===================================================================== *)

Lemma requests_app (t u : list event) : requests (t ++ u) = requests t ++ requests u.
Proof.
  induction t as [|e t IH]; simpl; [reflexivity|].
  destruct e; simpl; now rewrite IH.
Qed.

Ltac settle :=
  unfold settled, after, caught; cbn [trace btn_disabled btn_content];
  rewrite <- ?app_assoc; reflexivity.

Section ThreeModelHandler.
Context {host : Host}.
Variable net : network.

(** An empty key after trimming: one error, nothing else. *)
Lemma ThreeModel_no_key (apiKeyValue food editType : jsstring)
    (photoFile : option file) (w : world) :
  trim apiKeyValue = [] ->
  ThreeModel.handleGenerateClick net apiKeyValue food editType photoFile w
  = (Normal tt, after w [ShowError ThreeModel.key_message]).
Proof.
  intros Hkey. unfold ThreeModel.handleGenerateClick. rewrite Hkey. reflexivity.
Qed.

(** A mode that needs a photo, and none given: one error, nothing else. *)
Lemma ThreeModel_no_photo (apiKeyValue food editType : jsstring) (w : world) :
  trim apiKeyValue <> [] ->
  editType = ThreeModel.Background_cleaning
    \/ editType = ThreeModel.Quality_improvement ->
  ThreeModel.handleGenerateClick net apiKeyValue food editType None w
  = (Normal tt, after w [ShowError (ThreeModel.photo_message editType)]).
Proof.
  intros Hkey Hmode. unfold ThreeModel.handleGenerateClick.
  apply nonempty_true in Hkey. rewrite Hkey. cbn [negb].
  destruct Hmode as [-> | ->]; reflexivity.
Qed.

(** Every mode string other than the two image modes: the text-to-image
    call, with or without a photo. *)
Lemma ThreeModel_style_run (apiKeyValue food editType : jsstring)
    (photoFile : option file) (w : world) :
  trim apiKeyValue <> [] ->
  editType <> ThreeModel.Background_cleaning ->
  editType <> ThreeModel.Quality_improvement ->
  let prompt := ThreeModel.buildPrompt food editType in
  let r := style_request (trim apiKeyValue) prompt in
  ThreeModel.handleGenerateClick net apiKeyValue food editType photoFile w
  = (Normal tt,
     settled w (ShowLoading :: Fetch r ::
                blob_events ThreeModel.style_base
                  (if str_eqb editType ThreeModel.Style
                   then style_alt food prompt else fallback_alt food)
                  (net r))).
Proof.
  intros Hkey Hbg Hqi prompt r. unfold ThreeModel.handleGenerateClick.
  apply nonempty_true in Hkey. rewrite Hkey. cbn [negb].
  apply str_eqb_neq in Hbg, Hqi. rewrite Hbg, Hqi. cbn [orb andb].
  fold prompt. run_effects.
  destruct (str_eqb editType ThreeModel.Style);
    run_effects; rewrite callStyleGeneration_run; fold r; unfold blob_events;
    (destruct (net r) as [e|resp];
     [settle | destruct (ok resp); [destruct (body_blob resp)|]; settle]).
Qed.

Lemma ThreeModel_background_run (apiKeyValue food : jsstring)
    (imageFile : file) (w : world) :
  trim apiKeyValue <> [] ->
  ThreeModel.handleGenerateClick net apiKeyValue food
    ThreeModel.Background_cleaning (Some imageFile) w
  = (Normal tt,
     settled w (ShowLoading ::
                match ThreeModel.fileToBase64 imageFile with
                | Throw e => caught e
                | Normal base64Image =>
                    let r := background_request (trim apiKeyValue) base64Image in
                    Fetch r :: mask_events (mask_alt food) (net r)
                end)).
Proof.
  intros Hkey. unfold ThreeModel.handleGenerateClick.
  apply nonempty_true in Hkey. rewrite Hkey. cbn [negb].
  change (str_eqb ThreeModel.Background_cleaning ThreeModel.Background_cleaning)
    with true.
  change (str_eqb ThreeModel.Background_cleaning ThreeModel.Style) with false.
  cbn [orb andb]. unfold ThreeModel.with_file. run_effects.
  rewrite callBackgroundRemoval_run.
  destruct (ThreeModel.fileToBase64 imageFile) as [base64Image|e]; [|settle].
  unfold mask_events.
  destruct (net (background_request (trim apiKeyValue) base64Image)) as [e|resp];
    [settle|].
  destruct (ok resp); [|settle].
  destruct (body_json resp) as [data|]; [|settle].
  destruct (ThreeModel.decodeMask data); settle.
Qed.

Lemma ThreeModel_quality_run (apiKeyValue food : jsstring)
    (imageFile : file) (w : world) :
  trim apiKeyValue <> [] ->
  let r := quality_request (trim apiKeyValue) imageFile in
  ThreeModel.handleGenerateClick net apiKeyValue food
    ThreeModel.Quality_improvement (Some imageFile) w
  = (Normal tt,
     settled w (ShowLoading :: Fetch r ::
                blob_events ThreeModel.quality_base (quality_alt food) (net r))).
Proof.
  intros Hkey r. unfold ThreeModel.handleGenerateClick.
  apply nonempty_true in Hkey. rewrite Hkey. cbn [negb].
  change (str_eqb ThreeModel.Quality_improvement ThreeModel.Background_cleaning)
    with false.
  change (str_eqb ThreeModel.Quality_improvement ThreeModel.Quality_improvement)
    with true.
  change (str_eqb ThreeModel.Quality_improvement ThreeModel.Style) with false.
  cbn [orb andb]. unfold ThreeModel.with_file. run_effects.
  rewrite callQualityImprovement_run. fold r. unfold blob_events.
  destruct (net r) as [e|resp]; [settle|].
  destruct (ok resp); [destruct (body_blob resp)|]; settle.
Qed.

(** The handler returns normally whatever it is given. *)
Lemma ThreeModel_handler_returns (apiKeyValue food editType : jsstring)
    (photoFile : option file) (w : world) :
  fst (ThreeModel.handleGenerateClick net apiKeyValue food editType photoFile w)
  = Normal tt.
Proof.
  destruct (trim apiKeyValue) as [|c k] eqn:Hkey.
  - now rewrite ThreeModel_no_key.
  - assert (Hne : trim apiKeyValue <> []) by (rewrite Hkey; discriminate).
    destruct (str_eqb editType ThreeModel.Background_cleaning) eqn:Hbg.
    + apply str_eqb_eq in Hbg. subst editType.
      destruct photoFile as [f|].
      * now rewrite ThreeModel_background_run.
      * rewrite ThreeModel_no_photo; auto.
    + destruct (str_eqb editType ThreeModel.Quality_improvement) eqn:Hqi.
      * apply str_eqb_eq in Hqi. subst editType.
        destruct photoFile as [f|].
        -- now rewrite ThreeModel_quality_run.
        -- rewrite ThreeModel_no_photo; auto.
      * apply str_eqb_neq in Hbg, Hqi. now rewrite ThreeModel_style_run.
Qed.

End ThreeModelHandler.

Lemma requests_blob_events (base alt : jsstring) (answer : fetch_outcome) :
  requests (blob_events base alt answer) = [].
Proof.
  destruct answer as [e|resp]; simpl; [reflexivity|].
  destruct (ok resp); [destruct (body_blob resp)|]; reflexivity.
Qed.

Lemma requests_mask_events (host : Host) (alt : jsstring) (answer : fetch_outcome) :
  requests (mask_events alt answer) = [].
Proof.
  destruct answer as [e|resp]; simpl; [reflexivity|].
  destruct (ok resp); [|reflexivity].
  destruct (body_json resp) as [data|]; [|reflexivity].
  destruct (ThreeModel.decodeMask data); reflexivity.
Qed.

Lemma forget_alt_blob_events (base alt alt' : jsstring) (answer : fetch_outcome) :
  map forget_alt (blob_events base alt answer)
  = map forget_alt (blob_events base alt' answer).
Proof.
  destruct answer as [e|resp]; simpl; [reflexivity|].
  destruct (ok resp); [destruct (body_blob resp)|]; reflexivity.
Qed.

(* ===================================================================== *)
(** * The click handlers of the two single-endpoint variants *)
(* ===================================================================== *)

Section SingleEndpointHandlers.
Context {host : Host}.
Variable net : network.

Lemma TextOnly_no_key (apiKeyValue food editType : jsstring)
    (photoFile : option file) (w : world) :
  trim apiKeyValue = [] ->
  TextOnly.handleGenerateClick net apiKeyValue food editType photoFile w
  = (Normal tt, after w [ShowError TextOnly.key_message]).
Proof.
  intros Hkey. unfold TextOnly.handleGenerateClick. rewrite Hkey. reflexivity.
Qed.

Lemma AltPrompt_no_key (apiKeyValue food editType : jsstring)
    (photoFile : option file) (w : world) :
  trim apiKeyValue = [] ->
  AltPrompt.handleGenerateClick net apiKeyValue food editType photoFile w
  = (Normal tt, after w [ShowError AltPrompt.key_message]).
Proof.
  intros Hkey. unfold AltPrompt.handleGenerateClick. rewrite Hkey. reflexivity.
Qed.

(** With a key, the text-only handler issues the one text-to-image
    request, whatever the mode and the photo. *)
Lemma TextOnly_requests (apiKeyValue food editType : jsstring)
    (photoFile : option file) (w : world) :
  trim apiKeyValue <> [] ->
  requests (trace (snd (TextOnly.handleGenerateClick net apiKeyValue food
                          editType photoFile w)))
  = requests (trace w)
    ++ [style_request (trim apiKeyValue) (TextOnly.buildPrompt food editType)].
Proof.
  intros Hkey. unfold TextOnly.handleGenerateClick.
  apply nonempty_true in Hkey. rewrite Hkey. cbn [negb].
  set (r := style_request (trim apiKeyValue) (TextOnly.buildPrompt food editType)).
  destruct photoFile as [f|]; run_effects;
    rewrite TextOnly_generateImage_run; fold r;
    (destruct (net r) as [e|resp];
     [|destruct (ok resp); [destruct (body_blob resp)|]]);
    cbn [after trace btn_disabled btn_content];
    rewrite !requests_app; cbn [requests app]; now rewrite ?app_nil_r.
Qed.

Lemma AltPrompt_requests (apiKeyValue food editType : jsstring)
    (photoFile : option file) (w : world) :
  trim apiKeyValue <> [] ->
  requests (trace (snd (AltPrompt.handleGenerateClick net apiKeyValue food
                          editType photoFile w)))
  = requests (trace w)
    ++ [style_request (trim apiKeyValue) (AltPrompt.buildPrompt food editType)].
Proof.
  intros Hkey. unfold AltPrompt.handleGenerateClick.
  apply nonempty_true in Hkey. rewrite Hkey. cbn [negb].
  set (r := style_request (trim apiKeyValue) (AltPrompt.buildPrompt food editType)).
  destruct photoFile as [f|]; run_effects;
    rewrite AltPrompt_generateImage_run; fold r;
    (destruct (net r) as [e|resp];
     [|destruct (ok resp); [destruct (body_blob resp)|]]);
    cbn [after trace btn_disabled btn_content];
    rewrite !requests_app; cbn [requests app]; now rewrite ?app_nil_r.
Qed.

End SingleEndpointHandlers.

(* ===================================================================== *)
(** * Validation, dispatch and the Style request *)
(* ===================================================================== *)

(** C3, as stated, fails for the handler of src/app.js, which checks the
    key and nothing else: with a key, the mode Background cleaning and no
    photo, its run is not a validation error (it goes on to the request). *)
Lemma text_only_has_no_photo_check :
  ~ (forall (net : network) (apiKeyValue food editType : jsstring) (w : world),
       trim apiKeyValue <> [] ->
       editType = lit "Background cleaning"
         \/ editType = lit "Quality improvement" ->
       exists message,
         TextOnly.handleGenerateClick net apiKeyValue food editType None w
         = (Normal tt, after w [ShowError message])).
Proof.
  intros H.
  destruct (H (always (success (png [x89; x50]%byte))) (lit "hf_key")
              (lit "Pizza") (lit "Background cleaning")
              (initial (lit "Create Image"))) as (message & Hrun).
  - discriminate.
  - now left.
  - apply (f_equal (fun result => requests (trace (snd result)))) in Hrun.
    rewrite TextOnly_requests in Hrun by discriminate.
    discriminate Hrun.
Qed.

(** C3 (amended). When the trimmed key is empty every handler shows the key
    error and stops; one error event adds no request to the trace.  In the
    three-model handler a key with Background cleaning or Quality
    improvement and no photo shows the photo error and stops, and a key with
    Style mode and no photo issues the text-to-image request.  The text-only
    and the alternate-prompt handlers have no photo check: with a key they
    issue their one request for every mode, with or without a photo. *)
Theorem validation_before_network :
  forall (host : Host) (net : network) (apiKeyValue food editType : jsstring)
         (photoFile : option file) (w : world),
    (trim apiKeyValue = [] ->
     ThreeModel.handleGenerateClick net apiKeyValue food editType photoFile w
     = (Normal tt, after w [ShowError ThreeModel.key_message]) /\
     TextOnly.handleGenerateClick net apiKeyValue food editType photoFile w
     = (Normal tt, after w [ShowError TextOnly.key_message]) /\
     AltPrompt.handleGenerateClick net apiKeyValue food editType photoFile w
     = (Normal tt, after w [ShowError AltPrompt.key_message])) /\
    (trim apiKeyValue <> [] ->
     editType = ThreeModel.Background_cleaning
       \/ editType = ThreeModel.Quality_improvement ->
     ThreeModel.handleGenerateClick net apiKeyValue food editType None w
     = (Normal tt, after w [ShowError (ThreeModel.photo_message editType)])) /\
    (forall message,
       requests (trace (after w [ShowError message])) = requests (trace w)) /\
    (trim apiKeyValue <> [] ->
     requests (trace (snd (ThreeModel.handleGenerateClick net apiKeyValue food
                             ThreeModel.Style None w)))
     = requests (trace w)
       ++ [style_request (trim apiKeyValue)
             (ThreeModel.buildPrompt food ThreeModel.Style)]) /\
    (trim apiKeyValue <> [] ->
     requests (trace (snd (TextOnly.handleGenerateClick net apiKeyValue food
                             editType photoFile w)))
     = requests (trace w)
       ++ [style_request (trim apiKeyValue)
             (TextOnly.buildPrompt food editType)] /\
     requests (trace (snd (AltPrompt.handleGenerateClick net apiKeyValue food
                             editType photoFile w)))
     = requests (trace w)
       ++ [style_request (trim apiKeyValue)
             (AltPrompt.buildPrompt food editType)]).
Proof.
  intros host net apiKeyValue food editType photoFile w.
  split; [|split; [|split; [|split]]].
  - intros Hkey. repeat apply conj.
    + now apply ThreeModel_no_key.
    + now apply TextOnly_no_key.
    + now apply AltPrompt_no_key.
  - intros Hkey Hmode. now apply ThreeModel_no_photo.
  - intros message. cbn [after trace]. rewrite requests_app. cbn [requests].
    now rewrite app_nil_r.
  - intros Hkey.
    rewrite (ThreeModel_style_run net apiKeyValue food ThreeModel.Style None w Hkey)
      by discriminate.
    cbn [snd settled trace]. rewrite requests_app. cbn [requests].
    now rewrite requests_blob_events.
  - intros Hkey. split.
    + now apply TextOnly_requests.
    + now apply AltPrompt_requests.
Qed.

Lemma validation_before_network_witness :
  let net := always (success (png [x89; x50]%byte)) in
  let w := initial (lit "Create Image") in
  run (ThreeModel.handleGenerateClick (host := plainHost) net (lit "   ")
         (lit "Pizza") (lit "Style") None) (lit "Create Image")
  = (Normal tt, [ShowError ThreeModel.key_message]) /\
  run (ThreeModel.handleGenerateClick (host := plainHost) net (lit " hf_key ")
         (lit "Pizza") (lit "Background cleaning") None) (lit "Create Image")
  = (Normal tt,
     [ShowError (ThreeModel.photo_message (lit "Background cleaning"))]) /\
  requests (trace (snd (ThreeModel.handleGenerateClick (host := plainHost) net
                          (lit " hf_key ") (lit "Pizza") ThreeModel.Style None w)))
  = [style_request (lit "hf_key")
       (lit "Pizza hero shot, ultra realistic, commercial food photography, shot on a dark matte table, shallow depth of field, cinematic lighting, modern editorial style, subtle color grading, perfect for a sales landing page hero banner")] /\
  requests (trace (snd (TextOnly.handleGenerateClick net (lit " hf_key ")
                          (lit "Pizza") (lit "Background cleaning") None
                          (initial (lit "Create Image")))))
  = [style_request (lit "hf_key")
       (TextOnly.buildPrompt (lit "Pizza") (lit "Background cleaning"))].
Proof.
  intros net w. subst w.
  destruct (validation_before_network plainHost net (lit "   ") (lit "Pizza")
              (lit "Style") None (initial (lit "Create Image"))) as (Hkey & _).
  destruct (validation_before_network plainHost net (lit " hf_key ") (lit "Pizza")
              (lit "Background cleaning") None (initial (lit "Create Image")))
    as (_ & Hphoto & _ & Hstyle & Hsingle).
  repeat apply conj.
  - unfold run. destruct (Hkey eq_refl) as (-> & _). reflexivity.
  - unfold run. rewrite Hphoto; [reflexivity | discriminate | now left].
  - rewrite Hstyle; [reflexivity | discriminate].
  - destruct Hsingle as (-> & _); [discriminate | reflexivity].
Defined.

(** C9. In Style mode the three-model handler does not look at the photo at
    all, and in each variant the requests of a Style run are determined by
    the key and the food alone: none when the trimmed key is empty, otherwise
    the one JSON request that carries the prompt. *)
Theorem style_request_ignores_photo :
  forall (host : Host) (net : network) (apiKeyValue food : jsstring)
         (photo1 photo2 : option file) (w : world),
    let issued (prompt : jsstring) :=
      requests (trace w)
      ++ match trim apiKeyValue with
         | [] => []
         | _ => [style_request (trim apiKeyValue) prompt]
         end in
    ThreeModel.handleGenerateClick net apiKeyValue food ThreeModel.Style photo1 w
    = ThreeModel.handleGenerateClick net apiKeyValue food ThreeModel.Style photo2 w /\
    requests (trace (snd (ThreeModel.handleGenerateClick net apiKeyValue food
                            ThreeModel.Style photo1 w)))
    = issued (ThreeModel.buildPrompt food ThreeModel.Style) /\
    requests (trace (snd (TextOnly.handleGenerateClick net apiKeyValue food
                            ThreeModel.Style photo1 w)))
    = issued (TextOnly.buildPrompt food ThreeModel.Style) /\
    requests (trace (snd (AltPrompt.handleGenerateClick net apiKeyValue food
                            ThreeModel.Style photo1 w)))
    = issued (AltPrompt.buildPrompt food ThreeModel.Style).
Proof.
  intros host net apiKeyValue food photo1 photo2 w issued. subst issued.
  destruct (trim apiKeyValue) as [|c k] eqn:Hkey.
  - rewrite !ThreeModel_no_key, TextOnly_no_key, AltPrompt_no_key by assumption.
    cbn [snd after trace]. rewrite !requests_app. cbn [requests].
    repeat apply conj; reflexivity.
  - assert (Hne : trim apiKeyValue <> []) by (rewrite Hkey; discriminate).
    rewrite (ThreeModel_style_run net apiKeyValue food ThreeModel.Style photo1 w Hne)
      by discriminate.
    rewrite (ThreeModel_style_run net apiKeyValue food ThreeModel.Style photo2 w Hne)
      by discriminate.
    rewrite TextOnly_requests, AltPrompt_requests by assumption.
    cbn [snd settled trace]. rewrite requests_app. cbn [requests].
    rewrite requests_blob_events, Hkey.
    repeat apply conj; reflexivity.
Qed.

Lemma settled_trace (w : world) (events : list event) :
  trace (settled w events) = trace w ++ events.
Proof. reflexivity. Qed.

(** The script of src/app.js has one endpoint: with a key, two different
    modes of the selector send their request to the same URL, so the mode
    does not select the endpoint there. *)
Lemma text_only_modes_share_endpoint :
  ~ (forall (net : network) (apiKeyValue food : jsstring)
            (photoFile : option file) (w : world) (mode mode' : jsstring),
       trim apiKeyValue <> [] ->
       In mode [lit "Style"; lit "Background cleaning";
                lit "Quality improvement"] ->
       In mode' [lit "Style"; lit "Background cleaning";
                 lit "Quality improvement"] ->
       mode <> mode' ->
       map url (requests (trace (snd
         (TextOnly.handleGenerateClick net apiKeyValue food mode photoFile w))))
       <> map url (requests (trace (snd
         (TextOnly.handleGenerateClick net apiKeyValue food mode' photoFile w))))).
Proof.
  intros H.
  apply (H (always (success (png []))) (lit "hf_key") (lit "Pizza") None
           (initial (lit "Create Image"))
           (lit "Style") (lit "Background cleaning")).
  - discriminate.
  - left. reflexivity.
  - right. left. reflexivity.
  - intros Heq. vm_compute in Heq. discriminate Heq.
  - rewrite !TextOnly_requests by discriminate. reflexivity.
Qed.

(** C2 (amended). In the three-model script the three modes have three
    different endpoints, and every mode string resolves to one of them: a run
    issues at most one request, to the endpoint of its mode.  There a
    successful Style or Quality improvement answer is read as a blob and
    shown as it is; a successful Background cleaning answer is parsed as JSON
    and the decoded mask is shown as a data URL.  The text-only and the
    alternate-prompt scripts have a single endpoint, the one the three-model
    script uses for Style: with a key they send their one request to it for
    every mode, and read every successful answer as a blob. *)
Theorem dispatch_by_mode :
  forall (host : Host) (net : network) (apiKeyValue food : jsstring)
         (imageFile : file) (photoFile : option file) (w : world),
    trim apiKeyValue <> [] ->
    let apiKey := trim apiKeyValue in
    let handle := ThreeModel.handleGenerateClick net apiKeyValue food in
    (endpoint_of ThreeModel.Style = ThreeModel.style ThreeModel.HF_ENDPOINTS /\
     endpoint_of ThreeModel.Background_cleaning
     = ThreeModel.background ThreeModel.HF_ENDPOINTS /\
     endpoint_of ThreeModel.Quality_improvement
     = ThreeModel.quality ThreeModel.HF_ENDPOINTS /\
     endpoint_of ThreeModel.Style <> endpoint_of ThreeModel.Background_cleaning /\
     endpoint_of ThreeModel.Style <> endpoint_of ThreeModel.Quality_improvement /\
     endpoint_of ThreeModel.Background_cleaning
     <> endpoint_of ThreeModel.Quality_improvement) /\
    (forall editType,
       exists issued,
         requests (trace (snd (handle editType photoFile w)))
         = requests (trace w) ++ issued /\
         (List.length issued <= 1)%nat /\
         Forall (fun r => url r = endpoint_of editType) issued) /\
    (let r := style_request apiKey (ThreeModel.buildPrompt food ThreeModel.Style) in
     requests (trace (snd (handle ThreeModel.Style photoFile w)))
     = requests (trace w) ++ [r] /\
     forall resp b,
       net r = Responded resp -> ok resp = true -> body_blob resp = Some b ->
       trace (snd (handle ThreeModel.Style photoFile w))
       = trace w ++ [ShowLoading; Fetch r;
                     ShowImage b (style_alt food
                                    (ThreeModel.buildPrompt food ThreeModel.Style))]) /\
    (let r := quality_request apiKey imageFile in
     requests (trace (snd (handle ThreeModel.Quality_improvement (Some imageFile) w)))
     = requests (trace w) ++ [r] /\
     forall resp b,
       net r = Responded resp -> ok resp = true -> body_blob resp = Some b ->
       trace (snd (handle ThreeModel.Quality_improvement (Some imageFile) w))
       = trace w ++ [ShowLoading; Fetch r; ShowImage b (quality_alt food)]) /\
    (forall base64Image,
       ThreeModel.fileToBase64 imageFile = Normal base64Image ->
       let r := background_request apiKey base64Image in
       requests (trace (snd (handle ThreeModel.Background_cleaning (Some imageFile) w)))
       = requests (trace w) ++ [r] /\
       forall resp data dataUrl,
         net r = Responded resp -> ok resp = true ->
         body_json resp = Some data ->
         ThreeModel.decodeMask data = Normal dataUrl ->
         trace (snd (handle ThreeModel.Background_cleaning (Some imageFile) w))
         = trace w ++ [ShowLoading; Fetch r;
                       ShowImageFromDataUrl dataUrl (mask_alt food)]) /\
    (TextOnly.HF_ENDPOINT = endpoint_of ThreeModel.Style /\
     AltPrompt.HF_ENDPOINT = endpoint_of ThreeModel.Style /\
     (forall editType : jsstring,
        requests (trace (snd
          (TextOnly.handleGenerateClick net apiKeyValue food editType
             photoFile w)))
        = requests (trace w)
          ++ [json_request TextOnly.HF_ENDPOINT apiKey (lit "image/png")
                (TextOnly.buildPrompt food editType)] /\
        requests (trace (snd
          (AltPrompt.handleGenerateClick net apiKeyValue food editType
             photoFile w)))
        = requests (trace w)
          ++ [json_request AltPrompt.HF_ENDPOINT apiKey (lit "image/png")
                (AltPrompt.buildPrompt food editType)]) /\
     (forall (prompt : jsstring) (resp : response) (b : blob),
        net (json_request TextOnly.HF_ENDPOINT apiKey (lit "image/png") prompt)
        = Responded resp ->
        ok resp = true ->
        body_blob resp = Some b ->
        fst (TextOnly.generateImage net apiKey prompt w) = Normal b /\
        fst (AltPrompt.generateImage net apiKey prompt w) = Normal b)).
Proof.
  intros host net apiKeyValue food imageFile photoFile w Hkey apiKey handle.
  subst handle.
  split; [|split; [|split; [|split; [|split]]]].
  - repeat apply conj; try reflexivity; intros H; vm_compute in H; discriminate H.
  - intros editType.
    destruct (str_eqb editType ThreeModel.Background_cleaning) eqn:Hbg.
    { apply str_eqb_eq in Hbg. subst editType. destruct photoFile as [f|].
      - rewrite ThreeModel_background_run by assumption.
        cbn [snd]. rewrite settled_trace, requests_app. cbn [requests].
        destruct (ThreeModel.fileToBase64 f) as [b64|e].
        + exists [background_request (trim apiKeyValue) b64].
          cbn [requests]. rewrite requests_mask_events.
          repeat split; auto; repeat constructor.
        + exists []. repeat split; auto.
      - rewrite ThreeModel_no_photo by auto.
        exists []. cbn [snd after trace]. rewrite requests_app.
        repeat split; auto. }
    destruct (str_eqb editType ThreeModel.Quality_improvement) eqn:Hqi.
    { apply str_eqb_eq in Hqi. subst editType. destruct photoFile as [f|].
      - rewrite ThreeModel_quality_run by assumption.
        cbn [snd]. rewrite settled_trace, requests_app. cbn [requests].
        rewrite requests_blob_events.
        exists [quality_request (trim apiKeyValue) f].
        repeat split; auto; repeat constructor.
      - rewrite ThreeModel_no_photo by auto.
        exists []. cbn [snd after trace]. rewrite requests_app.
        repeat split; auto. }
    assert (Hbg' := Hbg). assert (Hqi' := Hqi).
    apply str_eqb_neq in Hbg', Hqi'.
    rewrite ThreeModel_style_run by assumption.
    cbn [snd]. rewrite settled_trace, requests_app. cbn [requests].
    rewrite requests_blob_events.
    eexists. split; [reflexivity|]. split; [simpl; lia|].
    repeat constructor. unfold endpoint_of. now rewrite Hbg, Hqi.
  - intros r.
    rewrite (ThreeModel_style_run net apiKeyValue food ThreeModel.Style photoFile w Hkey)
      by discriminate.
    cbn [snd]. rewrite settled_trace. fold apiKey. fold r. split.
    + rewrite requests_app. cbn [requests]. now rewrite requests_blob_events.
    + intros resp b Hnet Hok Hblob. unfold blob_events.
      now rewrite Hnet, Hok, Hblob.
  - intros r. rewrite ThreeModel_quality_run by assumption.
    cbn [snd]. rewrite settled_trace. fold apiKey. fold r. split.
    + rewrite requests_app. cbn [requests]. now rewrite requests_blob_events.
    + intros resp b Hnet Hok Hblob. unfold blob_events.
      now rewrite Hnet, Hok, Hblob.
  - intros base64Image Hfile r. rewrite ThreeModel_background_run by assumption.
    cbn [snd]. rewrite settled_trace, Hfile. fold apiKey. fold r. split.
    + rewrite requests_app. cbn [requests]. now rewrite requests_mask_events.
    + intros resp data dataUrl Hnet Hok Hjson Hdecode.
      cbv zeta. unfold mask_events. now rewrite Hnet, Hok, Hjson, Hdecode.
  - subst apiKey. split; [reflexivity|]. split; [reflexivity|]. split.
    + intros editType. split.
      * now apply TextOnly_requests.
      * now apply AltPrompt_requests.
    + intros prompt resp b Hnet Hok Hblob.
      change (json_request TextOnly.HF_ENDPOINT (trim apiKeyValue)
                (lit "image/png") prompt)
        with (style_request (trim apiKeyValue) prompt) in Hnet.
      rewrite TextOnly_generateImage_run, AltPrompt_generateImage_run.
      rewrite Hnet, Hok, Hblob. split; reflexivity.
Qed.

Lemma dispatch_by_mode_witness :
  let mask := JArr [candidate f0_2 (lit "QQ=="); candidate f0_91 (lit "Qg==")] in
  let f := photo (lit "image/png") [x89; x50; x4e; x47; x0d]%byte in
  let net := always {| status := 200; statusText := lit "OK"; body_text := None;
                       body_json := Some mask;
                       body_blob := Some (png [x89; x50]%byte) |} in
  map url (requests (trace (snd (
    ThreeModel.handleGenerateClick (host := plainHost) net (lit "hf_key")
      (lit "Pizza") ThreeModel.Quality_improvement (Some f)
      (initial (lit "Create Image"))))))
  = [ThreeModel.quality ThreeModel.HF_ENDPOINTS] /\
  trace (snd (
    ThreeModel.handleGenerateClick (host := plainHost) net (lit "hf_key")
      (lit "Pizza") ThreeModel.Background_cleaning (Some f)
      (initial (lit "Create Image"))))
  = [ShowLoading; Fetch (background_request (lit "hf_key") (lit "iVBORw0="));
     ShowImageFromDataUrl (lit "data:image/png;base64,Qg==") (mask_alt (lit "Pizza"))].
Proof.
  intros mask f net.
  destruct (dispatch_by_mode plainHost net (lit "hf_key") (lit "Pizza") f (Some f)
              (initial (lit "Create Image")))
    as (_ & _ & _ & (Hq & _) & Hb & _).
  - discriminate.
  - split.
    + rewrite Hq. reflexivity.
    + destruct (Hb (lit "iVBORw0=") eq_refl) as (_ & Hshow).
      exact (Hshow _ mask (lit "data:image/png;base64,Qg==")
               eq_refl eq_refl eq_refl eq_refl).
Defined.

(** C8. A mode string that is none of the three recognized ones is handled
    as Style: the same endpoint, the same request (the prompt falls to the
    Style clause), the same events up to the alternative text of the image,
    the button restored alike; and the handler returns normally. *)
Theorem unknown_mode_falls_back_to_style :
  forall (host : Host) (net : network) (apiKeyValue food editType : jsstring)
         (photoFile : option file) (w : world),
    editType <> ThreeModel.Style ->
    editType <> ThreeModel.Background_cleaning ->
    editType <> ThreeModel.Quality_improvement ->
    let unknown :=
      ThreeModel.handleGenerateClick net apiKeyValue food editType photoFile w in
    let styled :=
      ThreeModel.handleGenerateClick net apiKeyValue food ThreeModel.Style
        photoFile w in
    fst unknown = Normal tt /\
    endpoint_of editType = endpoint_of ThreeModel.Style /\
    ThreeModel.buildPrompt food editType
    = ThreeModel.buildPrompt food ThreeModel.Style /\
    requests (trace (snd unknown)) = requests (trace (snd styled)) /\
    map forget_alt (trace (snd unknown)) = map forget_alt (trace (snd styled)) /\
    btn_disabled (snd unknown) = btn_disabled (snd styled) /\
    btn_content (snd unknown) = btn_content (snd styled).
Proof.
  intros host net apiKeyValue food editType photoFile w Hs Hbg Hqi unknown styled.
  subst unknown styled.
  assert (Hprompt := ThreeModel_buildPrompt_unknown food editType Hbg Hqi).
  split; [apply ThreeModel_handler_returns|].
  split.
  { unfold endpoint_of. apply str_eqb_neq in Hbg, Hqi. now rewrite Hbg, Hqi. }
  split; [exact Hprompt|].
  destruct (trim apiKeyValue) as [|c k] eqn:Hkey.
  - rewrite !ThreeModel_no_key by assumption. repeat split.
  - assert (Hne : trim apiKeyValue <> []) by (rewrite Hkey; discriminate).
    rewrite (ThreeModel_style_run net apiKeyValue food editType photoFile w Hne Hbg Hqi).
    rewrite (ThreeModel_style_run net apiKeyValue food ThreeModel.Style photoFile w Hne)
      by discriminate.
    rewrite Hprompt. cbn [snd settled trace btn_disabled btn_content].
    repeat split.
    + rewrite !requests_app. cbn [requests]. now rewrite !requests_blob_events.
    + rewrite !map_app. cbn [map forget_alt]. f_equal. f_equal. f_equal.
      apply forget_alt_blob_events.
Qed.

Lemma unknown_mode_falls_back_to_style_witness :
  let net := always (success (png [x89; x50]%byte)) in
  let unknown :=
    ThreeModel.handleGenerateClick (host := plainHost) net (lit "hf_key")
      (lit "Pizza") (lit "Sharpen") None (initial (lit "Create Image")) in
  fst unknown = Normal tt /\
  requests (trace (snd unknown))
  = [style_request (lit "hf_key") (ThreeModel.buildPrompt (lit "Pizza") ThreeModel.Style)] /\
  map forget_alt (trace (snd unknown))
  = [ShowLoading;
     Fetch (style_request (lit "hf_key")
              (ThreeModel.buildPrompt (lit "Pizza") ThreeModel.Style));
     ShowImage (png [x89; x50]%byte) []].
Proof.
  intros net unknown. subst unknown.
  destruct (unknown_mode_falls_back_to_style plainHost net (lit "hf_key")
              (lit "Pizza") (lit "Sharpen") None (initial (lit "Create Image")))
    as (Hret & _ & _ & Hreq & Htrace & _); try discriminate.
  split; [exact Hret|]. split.
  - rewrite Hreq. reflexivity.
  - rewrite Htrace. reflexivity.
Defined.

(* ===================================================================== *)
(** * Whole runs of the two single-endpoint handlers *)
(* ===================================================================== *)

Ltac settle_run :=
  unfold settled, after, caught, text_only_caught, alt_prompt_caught, shown;
  cbn [trace btn_disabled btn_content text_only_info alt_prompt_info];
  rewrite <- ?app_assoc; reflexivity.

Lemma TextOnly_run (net : network) (apiKeyValue food editType : jsstring)
    (photoFile : option file) (w : world) :
  trim apiKeyValue <> [] ->
  let prompt := TextOnly.buildPrompt food editType in
  let r := style_request (trim apiKeyValue) prompt in
  TextOnly.handleGenerateClick net apiKeyValue food editType photoFile w
  = (Normal tt,
     settled w (text_only_info photoFile ++ ShowLoading :: Fetch r ::
                text_only_events (text_only_alt food editType prompt) (net r))).
Proof.
  intros Hkey prompt r. unfold TextOnly.handleGenerateClick.
  apply nonempty_true in Hkey. rewrite Hkey. cbn [negb]. fold prompt.
  destruct photoFile as [f|]; run_effects;
    rewrite TextOnly_generateImage_run; fold r;
    unfold text_only_events, generated;
    (destruct (net r) as [e|resp];
     [settle_run | destruct (ok resp); [destruct (body_blob resp)|]; settle_run]).
Qed.

Lemma AltPrompt_run (host : Host) (net : network)
    (apiKeyValue food editType : jsstring) (photoFile : option file) (w : world) :
  trim apiKeyValue <> [] ->
  let prompt := AltPrompt.buildPrompt food editType in
  let r := style_request (trim apiKeyValue) prompt in
  AltPrompt.handleGenerateClick net apiKeyValue food editType photoFile w
  = (Normal tt,
     settled w (alt_prompt_info photoFile ++ ShowLoading :: Fetch r ::
                alt_prompt_events (alt_prompt_alt prompt) (net r))).
Proof.
  intros Hkey prompt r. unfold AltPrompt.handleGenerateClick.
  apply nonempty_true in Hkey. rewrite Hkey. cbn [negb]. fold prompt.
  destruct photoFile as [f|]; run_effects;
    rewrite AltPrompt_generateImage_run; fold r;
    unfold alt_prompt_events, generated;
    (destruct (net r) as [e|resp];
     [settle_run | destruct (ok resp); [destruct (body_blob resp)|]; settle_run]).
Qed.

(** Every run of the three-model handler, in one of five shapes. *)
Lemma ThreeModel_run_shapes (host : Host) (net : network)
    (apiKeyValue food editType : jsstring) (photoFile : option file) (w : world) :
  let result :=
    ThreeModel.handleGenerateClick net apiKeyValue food editType photoFile w in
  (trim apiKeyValue = [] /\
   result = (Normal tt, after w [ShowError ThreeModel.key_message])) \/
  (trim apiKeyValue <> [] /\ photoFile = None /\
   (editType = ThreeModel.Background_cleaning
    \/ editType = ThreeModel.Quality_improvement) /\
   result = (Normal tt, after w [ShowError (ThreeModel.photo_message editType)])) \/
  (trim apiKeyValue <> [] /\
   editType <> ThreeModel.Background_cleaning /\
   editType <> ThreeModel.Quality_improvement /\
   exists alt,
     let r := style_request (trim apiKeyValue)
                (ThreeModel.buildPrompt food editType) in
     result = (Normal tt,
               settled w (ShowLoading :: Fetch r ::
                          blob_events ThreeModel.style_base alt (net r)))) \/
  (trim apiKeyValue <> [] /\ editType = ThreeModel.Quality_improvement /\
   exists f,
     photoFile = Some f /\
     let r := quality_request (trim apiKeyValue) f in
     result = (Normal tt,
               settled w (ShowLoading :: Fetch r ::
                          blob_events ThreeModel.quality_base
                            (quality_alt food) (net r)))) \/
  (trim apiKeyValue <> [] /\ editType = ThreeModel.Background_cleaning /\
   exists f,
     photoFile = Some f /\
     result = (Normal tt,
               settled w (ShowLoading ::
                          match ThreeModel.fileToBase64 f with
                          | Throw e => caught e
                          | Normal base64Image =>
                              let r := background_request (trim apiKeyValue)
                                         base64Image in
                              Fetch r :: mask_events (mask_alt food) (net r)
                          end))).
Proof.
  intros result. subst result.
  destruct (trim apiKeyValue) as [|c k] eqn:Hkey.
  { left. split; [reflexivity|]. now apply ThreeModel_no_key. }
  assert (Hne : trim apiKeyValue <> []) by (rewrite Hkey; discriminate).
  rewrite <- Hkey. right.
  destruct (str_eqb editType ThreeModel.Background_cleaning) eqn:Hbg.
  { apply str_eqb_eq in Hbg. subst editType. destruct photoFile as [f|].
    - do 3 right. repeat split; auto. exists f. split; [reflexivity|].
      now apply ThreeModel_background_run.
    - left. repeat split; auto. apply ThreeModel_no_photo; auto. }
  destruct (str_eqb editType ThreeModel.Quality_improvement) eqn:Hqi.
  { apply str_eqb_eq in Hqi. subst editType. destruct photoFile as [f|].
    - do 2 right. left. repeat split; auto. exists f. split; [reflexivity|].
      now apply ThreeModel_quality_run.
    - left. repeat split; auto. apply ThreeModel_no_photo; auto. }
  apply str_eqb_neq in Hbg, Hqi. right. left. repeat split; auto.
  eexists. now apply ThreeModel_style_run.
Qed.

(* ===================================================================== *)
(** * Trimming *)
(* ===================================================================== *)

Lemma trimStart_empty (s : jsstring) :
  trimStart s = [] <-> forallb isWhiteSpace s = true.
Proof.
  induction s as [|c s IH]; simpl; [tauto|].
  destruct (isWhiteSpace c); simpl; [exact IH|].
  split; discriminate.
Qed.

Lemma trimStart_head (s : jsstring) (c : code_unit) (r : jsstring) :
  trimStart s = c :: r -> isWhiteSpace c = false.
Proof.
  induction s as [|x s IH]; simpl; [discriminate|].
  destruct (isWhiteSpace x) eqn:Hx; [exact IH|].
  intros H. injection H as <- _. exact Hx.
Qed.

Lemma trimStart_keeps_end (l : jsstring) (c : code_unit) :
  isWhiteSpace c = false -> exists l', trimStart (l ++ [c]) = l' ++ [c].
Proof.
  intros Hc. induction l as [|x l IH]; simpl.
  - rewrite Hc. now exists [].
  - destruct (isWhiteSpace x); [exact IH|]. now exists (x :: l).
Qed.

Lemma trim_empty_iff (s : jsstring) :
  trim s = [] <-> forallb isWhiteSpace s = true.
Proof.
  rewrite <- trimStart_empty. unfold trim. split.
  - intros H. destruct (trimStart s) as [|c r] eqn:Hs; [reflexivity|].
    exfalso. pose proof (trimStart_head s c r Hs) as Hc.
    simpl rev in H.
    destruct (trimStart_keeps_end (rev r) c Hc) as (l' & Hl').
    rewrite Hl', rev_app_distr in H. discriminate.
  - intros ->. reflexivity.
Qed.

(** A trimmed string neither starts nor ends with white space. *)
Lemma trim_edges (s : jsstring) :
  (forall c, hd_error (trim s) = Some c -> isWhiteSpace c = false) /\
  (forall c, hd_error (rev (trim s)) = Some c -> isWhiteSpace c = false).
Proof.
  unfold trim. split; intros c.
  - destruct (trimStart s) as [|x r] eqn:Hs; [discriminate|].
    pose proof (trimStart_head s x r Hs) as Hx.
    simpl rev at 2.
    destruct (trimStart_keeps_end (rev r) x Hx) as (l' & Hl').
    rewrite Hl', rev_app_distr. simpl. now intros [= <-].
  - rewrite rev_involutive.
    destruct (trimStart (rev (trimStart s))) as [|x r] eqn:Hs; [discriminate|].
    simpl. intros [= <-]. eapply trimStart_head; eauto.
Qed.

(* ===================================================================== *)
(** * Traces *)
(* ===================================================================== *)

Lemma last_event_app (t : list event) (e : event) :
  last_event (t ++ [e]) = Some e.
Proof. unfold last_event. now rewrite rev_app_distr. Qed.

Lemma last_event_skip (t u : list event) :
  u <> [] -> last_event (t ++ u) = last_event u.
Proof.
  intros Hu. destruct (exists_last Hu) as (u' & e & ->).
  now rewrite app_assoc, !last_event_app.
Qed.

Lemma ends_in_result_app (t u : list event) :
  ends_in_result u -> ends_in_result (t ++ u).
Proof.
  intros (e & He & Hr). exists e. split; [|exact Hr].
  rewrite last_event_skip; [exact He|]. intros ->. discriminate.
Qed.

Lemma ends_in_result_cons (x : event) (u : list event) :
  ends_in_result u -> ends_in_result (x :: u).
Proof. apply (ends_in_result_app [x]). Qed.

Lemma caught_ends_in_result (e : exn) : ends_in_result (caught e).
Proof. eexists. split; reflexivity. Qed.

Lemma blob_events_end (base alt : jsstring) (answer : fetch_outcome) :
  ends_in_result (blob_events base alt answer).
Proof.
  destruct answer as [e|resp]; simpl; [apply caught_ends_in_result|].
  destruct (ok resp); [destruct (body_blob resp)|];
    eexists; split; reflexivity.
Qed.

Lemma mask_events_end (host : Host) (alt : jsstring) (answer : fetch_outcome) :
  ends_in_result (mask_events alt answer).
Proof.
  destruct answer as [e|resp]; simpl; [apply caught_ends_in_result|].
  destruct (ok resp); [|eexists; split; reflexivity].
  destruct (body_json resp) as [data|]; [|eexists; split; reflexivity].
  destruct (ThreeModel.decodeMask data); eexists; split; reflexivity.
Qed.

Lemma text_only_events_end (alt : jsstring) (answer : fetch_outcome) :
  ends_in_result (text_only_events alt answer).
Proof.
  unfold text_only_events. destruct (generated _ answer);
    eexists; split; reflexivity.
Qed.

Lemma alt_prompt_events_end (alt : jsstring) (answer : fetch_outcome) :
  ends_in_result (alt_prompt_events alt answer).
Proof.
  unfold alt_prompt_events. destruct (generated _ answer);
    eexists; split; reflexivity.
Qed.

Lemma requests_text_only_events (alt : jsstring) (answer : fetch_outcome) :
  requests (text_only_events alt answer) = [].
Proof. unfold text_only_events. now destruct (generated _ answer). Qed.

Lemma requests_alt_prompt_events (alt : jsstring) (answer : fetch_outcome) :
  requests (alt_prompt_events alt answer) = [].
Proof. unfold alt_prompt_events. now destruct (generated _ answer). Qed.

Lemma requests_text_only_info (photoFile : option file) :
  requests (text_only_info photoFile) = [].
Proof. now destruct photoFile. Qed.

Lemma requests_alt_prompt_info (photoFile : option file) :
  requests (alt_prompt_info photoFile) = [].
Proof. now destruct photoFile. Qed.

(* ===================================================================== *)
(** * What every click does *)
(* ===================================================================== *)

Ltac only_shown H :=
  simpl in H;
  repeat (destruct H as [H|H]; [try discriminate H; injection H as <-; auto|]);
  try contradiction.

Lemma caught_shows (e : exn) (m : jsstring) :
  In (ShowError m) (caught e) -> m = ThreeModel.generic_message.
Proof. intros H. only_shown H. Qed.

Lemma blob_events_shows (base alt : jsstring) (answer : fetch_outcome)
    (m : jsstring) :
  In (ShowError m) (blob_events base alt answer) ->
  m = ThreeModel.generic_message.
Proof.
  unfold blob_events. intros H.
  destruct answer as [e|resp]; [now apply caught_shows in H|].
  destruct (ok resp); [destruct (body_blob resp)|];
    try (now apply caught_shows in H). only_shown H.
Qed.

Lemma mask_events_shows (host : Host) (alt : jsstring) (answer : fetch_outcome)
    (m : jsstring) :
  In (ShowError m) (mask_events alt answer) ->
  m = ThreeModel.generic_message.
Proof.
  unfold mask_events. intros H.
  destruct answer as [e|resp]; [now apply caught_shows in H|].
  destruct (ok resp); [|now apply caught_shows in H].
  destruct (body_json resp) as [data|]; [|now apply caught_shows in H].
  destruct (ThreeModel.decodeMask data); [|now apply caught_shows in H].
  only_shown H.
Qed.

Lemma authorized_style (apiKey prompt : jsstring) :
  authorized apiKey (style_request apiKey prompt).
Proof. repeat split. simpl. auto. Qed.

Lemma authorized_background (apiKey base64Image : jsstring) :
  authorized apiKey (background_request apiKey base64Image).
Proof. repeat split. simpl. auto. Qed.

Lemma authorized_quality (apiKey : jsstring) (imageFile : file) :
  authorized apiKey (quality_request apiKey imageFile).
Proof. repeat split. simpl. auto. Qed.

Create HintDb requests.
#[local] Hint Resolve authorized_style authorized_background authorized_quality
  : requests.

(** What a run of the three-model handler adds to the trace. *)
Lemma ThreeModel_new_events (host : Host) (net : network)
    (apiKeyValue food editType : jsstring) (photoFile : option file) (w : world) :
  exists new,
    trace (snd (ThreeModel.handleGenerateClick net apiKeyValue food editType
                  photoFile w)) = trace w ++ new /\
    ends_in_result new /\
    (forall m, In (ShowError m) new ->
               m = ThreeModel.key_message
               \/ m = ThreeModel.photo_message editType
               \/ m = ThreeModel.generic_message) /\
    exists issued,
      requests new = issued /\ (List.length issued <= 1)%nat /\
      Forall (authorized (trim apiKeyValue)) issued.
Proof.
  destruct (ThreeModel_run_shapes host net apiKeyValue food editType photoFile w)
    as [(Hk & ->) | [(Hk & Hp & Hm & ->) | [(Hk & Hb & Hq & alt & ->)
       | [(Hk & Hm & f & Hp & ->) | (Hk & Hm & f & Hp & ->)]]]];
    cbn [snd after settled trace]; eexists; (split; [reflexivity|]).
  - split; [eexists; split; reflexivity|]. split.
    + intros m H. only_shown H.
    + exists []. repeat split; auto.
  - split; [eexists; split; reflexivity|]. split.
    + intros m H. only_shown H.
    + exists []. repeat split; auto.
  - split; [do 2 apply ends_in_result_cons; apply blob_events_end|]. split.
    + intros m [H|[H|H]]; try discriminate.
      apply blob_events_shows in H. auto.
    + eexists. split; [cbn [requests]; rewrite requests_blob_events; reflexivity|].
      split; [simpl; lia|]. constructor; [|constructor]. auto with requests.
  - split; [do 2 apply ends_in_result_cons; apply blob_events_end|]. split.
    + intros m [H|[H|H]]; try discriminate.
      apply blob_events_shows in H. auto.
    + eexists. split; [cbn [requests]; rewrite requests_blob_events; reflexivity|].
      split; [simpl; lia|]. constructor; [|constructor]. auto with requests.
  - destruct (ThreeModel.fileToBase64 f) as [b64|e].
    + split; [do 2 apply ends_in_result_cons; apply mask_events_end|]. split.
      * intros m [H|[H|H]]; try discriminate.
        apply mask_events_shows in H. auto.
      * eexists. split;
          [cbv zeta; cbn [requests]; rewrite requests_mask_events; reflexivity|].
        split; [simpl; lia|]. constructor; [|constructor]. auto with requests.
    + split; [apply ends_in_result_cons, caught_ends_in_result|]. split.
      * intros m [H|H]; try discriminate. apply caught_shows in H. auto.
      * exists []. repeat split; auto.
Qed.

Lemma TextOnly_new_events (net : network)
    (apiKeyValue food editType : jsstring) (photoFile : option file) (w : world) :
  exists new,
    trace (snd (TextOnly.handleGenerateClick net apiKeyValue food editType
                  photoFile w)) = trace w ++ new /\
    ends_in_result new /\
    exists issued,
      requests new = issued /\ (List.length issued <= 1)%nat /\
      Forall (authorized (trim apiKeyValue)) issued.
Proof.
  destruct (trim apiKeyValue) as [|c k] eqn:Hkey.
  - rewrite TextOnly_no_key by assumption. cbn [snd after trace].
    eexists. split; [reflexivity|]. split; [eexists; split; reflexivity|].
    exists []. repeat split; auto.
  - assert (Hne : trim apiKeyValue <> []) by (rewrite Hkey; discriminate).
    rewrite <- Hkey. rewrite TextOnly_run by assumption.
    cbn [snd settled trace]. eexists. split; [reflexivity|]. split.
    + apply ends_in_result_app. do 2 apply ends_in_result_cons.
      apply text_only_events_end.
    + eexists. split.
      * rewrite requests_app, requests_text_only_info. cbn [requests app].
        rewrite requests_text_only_events. reflexivity.
      * split; [simpl; lia|]. constructor; [|constructor]. auto with requests.
Qed.

Lemma alt_prompt_events_shows (alt : jsstring) (answer : fetch_outcome)
    (m : jsstring) :
  In (ShowError m) (alt_prompt_events alt answer) ->
  m = AltPrompt.generic_message.
Proof.
  unfold alt_prompt_events. intros H.
  destruct (generated _ answer); only_shown H.
Qed.

Lemma AltPrompt_new_events (host : Host) (net : network)
    (apiKeyValue food editType : jsstring) (photoFile : option file) (w : world) :
  exists new,
    trace (snd (AltPrompt.handleGenerateClick net apiKeyValue food editType
                  photoFile w)) = trace w ++ new /\
    ends_in_result new /\
    (forall m, In (ShowError m) new ->
               m = AltPrompt.key_message \/ m = AltPrompt.generic_message) /\
    exists issued,
      requests new = issued /\ (List.length issued <= 1)%nat /\
      Forall (authorized (trim apiKeyValue)) issued.
Proof.
  destruct (trim apiKeyValue) as [|c k] eqn:Hkey.
  - rewrite AltPrompt_no_key by assumption. cbn [snd after trace].
    eexists. split; [reflexivity|]. split; [eexists; split; reflexivity|].
    split; [intros m H; only_shown H|].
    exists []. repeat split; auto.
  - assert (Hne : trim apiKeyValue <> []) by (rewrite Hkey; discriminate).
    rewrite <- Hkey. rewrite AltPrompt_run by assumption.
    cbn [snd settled trace]. eexists. split; [reflexivity|]. split; [|split].
    + apply ends_in_result_app. do 2 apply ends_in_result_cons.
      apply alt_prompt_events_end.
    + intros m H. apply in_app_or in H as [H|[H|[H|H]]]; try discriminate.
      * destruct photoFile; only_shown H.
      * apply alt_prompt_events_shows in H. auto.
    + eexists. split.
      * rewrite requests_app, requests_alt_prompt_info. cbn [requests app].
        rewrite requests_alt_prompt_events. reflexivity.
      * split; [simpl; lia|]. constructor; [|constructor]. auto with requests.
Qed.

(** X1. Whatever the key, the mode, the photo and the network's answer, a
    click issues at most one request, in each of the three variants.  The
    request is a POST to one of the three endpoints whose first header is the
    bearer token made of the trimmed key, and a request is only issued when
    that key is not empty; the trimmed key neither starts nor ends with
    white space. *)
Theorem one_authorized_request_per_click :
  forall (host : Host) (net : network) (apiKeyValue food editType : jsstring)
         (photoFile : option file) (w : world),
    let bounded (result : completion unit * world) :=
      exists issued,
        requests (trace (snd result)) = requests (trace w) ++ issued /\
        (List.length issued <= 1)%nat /\
        Forall (authorized (trim apiKeyValue)) issued /\
        (issued <> [] -> trim apiKeyValue <> []) in
    bounded (ThreeModel.handleGenerateClick net apiKeyValue food editType
               photoFile w) /\
    bounded (TextOnly.handleGenerateClick net apiKeyValue food editType
               photoFile w) /\
    bounded (AltPrompt.handleGenerateClick net apiKeyValue food editType
               photoFile w) /\
    (forall c, hd_error (trim apiKeyValue) = Some c -> isWhiteSpace c = false) /\
    (forall c, hd_error (rev (trim apiKeyValue)) = Some c ->
               isWhiteSpace c = false).
Proof.
  intros host net apiKeyValue food editType photoFile w bounded. subst bounded.
  assert (Hempty : forall (h : M unit) (m : jsstring) (issued : list request),
            trim apiKeyValue = [] ->
            h w = (Normal tt, after w [ShowError m]) ->
            requests (trace (snd (h w))) = requests (trace w) ++ issued ->
            issued = []).
  { intros h m issued _ Hrun Hreq. rewrite Hrun in Hreq.
    cbn [snd after trace] in Hreq. rewrite requests_app in Hreq.
    cbn [requests] in Hreq. now apply app_inv_head in Hreq. }
  repeat apply conj.
  - destruct (ThreeModel_new_events host net apiKeyValue food editType photoFile w)
      as (new & Ht & _ & _ & issued & Hreq & Hlen & Hauth).
    exists issued. rewrite Ht, requests_app, Hreq. repeat split; auto.
    intros Hne Hk. apply Hne.
    eapply (Hempty (ThreeModel.handleGenerateClick net apiKeyValue food editType
                      photoFile)); eauto.
    + now apply ThreeModel_no_key.
    + now rewrite Ht, requests_app, Hreq.
  - destruct (TextOnly_new_events net apiKeyValue food editType photoFile w)
      as (new & Ht & _ & issued & Hreq & Hlen & Hauth).
    exists issued. rewrite Ht, requests_app, Hreq. repeat split; auto.
    intros Hne Hk. apply Hne.
    eapply (Hempty (TextOnly.handleGenerateClick net apiKeyValue food editType
                      photoFile)); eauto.
    + now apply TextOnly_no_key.
    + now rewrite Ht, requests_app, Hreq.
  - destruct (AltPrompt_new_events host net apiKeyValue food editType photoFile w)
      as (new & Ht & _ & _ & issued & Hreq & Hlen & Hauth).
    exists issued. rewrite Ht, requests_app, Hreq. repeat split; auto.
    intros Hne Hk. apply Hne.
    eapply (Hempty (AltPrompt.handleGenerateClick net apiKeyValue food editType
                      photoFile)); eauto.
    + now apply AltPrompt_no_key.
    + now rewrite Ht, requests_app, Hreq.
  - apply trim_edges.
  - apply trim_edges.
Qed.

Lemma ends_in_result_loading_replaced (t : list event) :
  ends_in_result t -> loading_replaced t.
Proof.
  intros (e & He & Hr) pre post ->.
  rewrite last_event_skip in He by discriminate.
  destruct post as [|e' post].
  - cbn in He. injection He as <-. discriminate Hr.
  - exists e. split; [|exact Hr].
    rewrite <- He. symmetry.
    exact (last_event_skip [ShowLoading] (e' :: post) ltac:(discriminate)).
Qed.

(** X2. A click whose request and body read have settled ends with a result
    in the output area.  In each of the three variants no exception escapes
    the handler, the events the run added end with an image or an error
    being shown, and every display of the loading indicator is followed by
    such a result.  Nothing is stated about a request that never settles:
    the handlers await [fetch] and the body reads without a timeout or an
    abort signal, so such a run stays suspended with the loading indicator
    on the page. *)
Theorem click_ends_in_result :
  forall (host : Host) (net : network) (apiKeyValue food editType : jsstring)
         (photoFile : option file) (w : world),
    let completed (result : completion unit * world) :=
      fst result = Normal tt /\
      exists new,
        trace (snd result) = trace w ++ new /\
        ends_in_result new /\
        loading_replaced new /\
        ends_in_result (trace (snd result)) in
    completed (ThreeModel.handleGenerateClick net apiKeyValue food editType
                 photoFile w) /\
    completed (TextOnly.handleGenerateClick net apiKeyValue food editType
                 photoFile w) /\
    completed (AltPrompt.handleGenerateClick net apiKeyValue food editType
                 photoFile w).
Proof.
  intros host net apiKeyValue food editType photoFile w completed.
  subst completed. cbv beta.
  assert (Hkey : trim apiKeyValue = [] \/ trim apiKeyValue <> []).
  { destruct (trim apiKeyValue); [now left | right; discriminate]. }
  repeat apply conj.
  - apply ThreeModel_handler_returns.
  - destruct (ThreeModel_new_events host net apiKeyValue food editType photoFile w)
      as (new & Ht & Hend & _).
    exists new. rewrite Ht.
    repeat apply conj; auto using ends_in_result_app,
      ends_in_result_loading_replaced.
  - destruct Hkey as [Hkey|Hkey].
    + now rewrite (TextOnly_no_key net apiKeyValue food editType photoFile w Hkey).
    + pose proof (TextOnly_run net apiKeyValue food editType photoFile w Hkey)
        as Hrun.
      cbv zeta in Hrun. now rewrite Hrun.
  - destruct (TextOnly_new_events net apiKeyValue food editType photoFile w)
      as (new & Ht & Hend & _).
    exists new. rewrite Ht.
    repeat apply conj; auto using ends_in_result_app,
      ends_in_result_loading_replaced.
  - destruct Hkey as [Hkey|Hkey].
    + now rewrite (AltPrompt_no_key net apiKeyValue food editType photoFile w Hkey).
    + pose proof (AltPrompt_run host net apiKeyValue food editType photoFile w
                    Hkey) as Hrun.
      cbv zeta in Hrun. now rewrite Hrun.
  - destruct (AltPrompt_new_events host net apiKeyValue food editType photoFile w)
      as (new & Ht & Hend & _).
    exists new. rewrite Ht.
    repeat apply conj; auto using ends_in_result_app,
      ends_in_result_loading_replaced.
Qed.

(** X3. The three-model and the alternate-prompt handlers never put a
    server's text on the page: every error a run shows is one of the fixed
    sentences of the script (missing key, missing photo, something went
    wrong); the detailed failure message only goes to the console. *)
Theorem shown_errors_are_fixed :
  forall (host : Host) (net : network) (apiKeyValue food editType : jsstring)
         (photoFile : option file) (w : world),
    (exists new,
       trace (snd (ThreeModel.handleGenerateClick net apiKeyValue food editType
                     photoFile w)) = trace w ++ new /\
       forall m, In (ShowError m) new ->
                 m = ThreeModel.key_message
                 \/ m = ThreeModel.photo_message editType
                 \/ m = ThreeModel.generic_message) /\
    (exists new,
       trace (snd (AltPrompt.handleGenerateClick net apiKeyValue food editType
                     photoFile w)) = trace w ++ new /\
       forall m, In (ShowError m) new ->
                 m = AltPrompt.key_message \/ m = AltPrompt.generic_message).
Proof.
  intros host net apiKeyValue food editType photoFile w. split.
  - destruct (ThreeModel_new_events host net apiKeyValue food editType photoFile w)
      as (new & Ht & _ & Hshown & _). eauto.
  - destruct (AltPrompt_new_events host net apiKeyValue food editType photoFile w)
      as (new & Ht & _ & Hshown & _). eauto.
Qed.

(* ===================================================================== *)
(** * Failure messages, whatever the body *)
(* ===================================================================== *)

Lemma truncated_length (bound : nat) (detail : jsstring) :
  (List.length (truncated bound detail) <= bound + 1)%nat.
Proof.
  unfold truncated. destruct (Nat.ltb_spec bound (List.length detail)).
  - rewrite length_app, length_firstn. simpl. lia.
  - lia.
Qed.

Lemma humanMessage_prefix (bound : nat) (base : jsstring) (detail : option jsstring) :
  exists rest,
    humanMessage bound base detail = base ++ rest /\
    (List.length rest <= 10 + bound + 1)%nat.
Proof.
  unfold humanMessage. destruct detail as [[|c d]|].
  - exists []. rewrite app_nil_r. split; [reflexivity|simpl; lia].
  - eexists. split; [reflexivity|].
    rewrite length_app. change (List.length (lit " Details: ")) with 10%nat.
    pose proof (truncated_length bound (c :: d)). lia.
  - exists []. rewrite app_nil_r. split; [reflexivity|simpl; lia].
Qed.

Lemma TextOnly_message_nonempty (r : response) :
  nonempty (TextOnly.message r) = true.
Proof.
  rewrite TextOnly_message_human.
  destruct (humanMessage_prefix 300 (TextOnly.statusLine r) (body_text r))
    as (rest & -> & _).
  reflexivity.
Qed.

(** X4. Whatever a failing server sends, the error each call throws starts
    with the call's base sentence and is at most 171 code units longer (311
    in the text-only variant): the detail is bounded before it reaches the
    console or the page. *)
Theorem failure_message_prefix_and_bound :
  forall (base : jsstring) (r : response),
    (exists rest,
       ThreeModel.failure base r = Error (base ++ rest) /\
       (List.length rest <= 171)%nat) /\
    (exists rest,
       TextOnly.message r = TextOnly.statusLine r ++ rest /\
       (List.length rest <= 311)%nat) /\
    (exists rest,
       AltPrompt.combined r = AltPrompt.base_message ++ rest /\
       (List.length rest <= 171)%nat).
Proof.
  intros base r. repeat apply conj.
  - rewrite ThreeModel_failure_message.
    destruct (humanMessage_prefix 160 base (body_text r)) as (rest & -> & Hlen).
    exists rest. split; [reflexivity|exact Hlen].
  - rewrite TextOnly_message_human.
    destruct (humanMessage_prefix 300 (TextOnly.statusLine r) (body_text r))
      as (rest & -> & Hlen).
    exists rest. split; [reflexivity|exact Hlen].
  - rewrite AltPrompt_combined_message.
    destruct (humanMessage_prefix 160 AltPrompt.base_message (body_text r))
      as (rest & -> & Hlen).
    exists rest. split; [reflexivity|exact Hlen].
Qed.

(** X5. The text-only handler shows the failure itself: after a non-success
    answer the page shows the status line with the bounded detail, the same
    text it logs; after a rejected fetch it shows the exception's message, or
    the generic sentence when that message is empty. *)
Theorem text_only_shows_the_failure :
  forall (net : network) (apiKeyValue food editType : jsstring)
         (photoFile : option file) (w : world),
    trim apiKeyValue <> [] ->
    let r := style_request (trim apiKeyValue)
               (TextOnly.buildPrompt food editType) in
    let result :=
      TextOnly.handleGenerateClick net apiKeyValue food editType photoFile w in
    (forall resp,
       net r = Responded resp -> ok resp = false ->
       let m := humanMessage 300 (TextOnly.statusLine resp) (body_text resp) in
       result = (Normal tt,
                 settled w (text_only_info photoFile
                            ++ [ShowLoading; Fetch r;
                                ConsoleError (Error m); ShowError m]))) /\
    (forall e,
       net r = Rejected e ->
       result = (Normal tt,
                 settled w (text_only_info photoFile
                            ++ [ShowLoading; Fetch r; ConsoleError e;
                                ShowError (match exn_message e with
                                           | [] => TextOnly.generic_message
                                           | m => m
                                           end)]))).
Proof.
  intros net apiKeyValue food editType photoFile w Hkey r result.
  subst result. rewrite TextOnly_run by assumption. fold r. split.
  - intros resp Hnet Hok m. unfold text_only_events, generated.
    rewrite Hnet, Hok. unfold text_only_caught, shown. cbn [exn_message].
    rewrite TextOnly_message_nonempty, TextOnly_message_human. reflexivity.
  - intros e Hnet. unfold text_only_events, generated. rewrite Hnet.
    unfold text_only_caught, shown. destruct (exn_message e); reflexivity.
Qed.

Lemma text_only_shows_the_failure_witness :
  let resp := failed 503 (lit "Service Unavailable") (Some (lit "Model is loading")) in
  run (TextOnly.handleGenerateClick (always resp) (lit " hf_key ") (lit "Pizza")
         (lit "Style") None) (lit "Create Image")
  = (Normal tt,
     [ShowLoading;
      Fetch (style_request (lit "hf_key")
               (TextOnly.buildPrompt (lit "Pizza") (lit "Style")));
      ConsoleError (Error (lit "HF Inference error: 503 Service Unavailable. Details: Model is loading"));
      ShowError (lit "HF Inference error: 503 Service Unavailable. Details: Model is loading")]).
Proof.
  intros resp. unfold run.
  destruct (text_only_shows_the_failure (always resp) (lit " hf_key ")
              (lit "Pizza") (lit "Style") None (initial (lit "Create Image")))
    as (H & _); [discriminate|].
  rewrite (H resp eq_refl eq_refl). reflexivity.
Defined.

(* ===================================================================== *)
(** * The button, validation and the key *)
(* ===================================================================== *)

(** X6. After a click the button carries its original content again, and it
    is enabled unless the run stopped at validation, in which case the
    handler touched nothing but the output area: this holds on success, on a
    failing answer, on a rejected fetch and on a failing decode alike. *)
Theorem button_restored_after_click :
  forall (host : Host) (net : network) (apiKeyValue food editType : jsstring)
         (photoFile : option file) (w : world),
    let restored (result : completion unit * world) :=
      btn_content (snd result) = btn_content w /\
      (btn_disabled (snd result) = false
       \/ exists m, result = (Normal tt, after w [ShowError m])) in
    restored (ThreeModel.handleGenerateClick net apiKeyValue food editType
                photoFile w) /\
    restored (TextOnly.handleGenerateClick net apiKeyValue food editType
                photoFile w) /\
    restored (AltPrompt.handleGenerateClick net apiKeyValue food editType
                photoFile w).
Proof.
  intros host net apiKeyValue food editType photoFile w restored. subst restored.
  repeat apply conj.
  - destruct (ThreeModel_run_shapes host net apiKeyValue food editType photoFile w)
      as [(Hk & ->) | [(Hk & Hp & Hm & ->) | [(Hk & Hb & Hq & alt & ->)
         | [(Hk & Hm & f & Hp & ->) | (Hk & Hm & f & Hp & ->)]]]]; auto.
  - destruct (ThreeModel_run_shapes host net apiKeyValue food editType photoFile w)
      as [(Hk & ->) | [(Hk & Hp & Hm & ->) | [(Hk & Hb & Hq & alt & ->)
         | [(Hk & Hm & f & Hp & ->) | (Hk & Hm & f & Hp & ->)]]]]; eauto.
  - destruct (trim apiKeyValue) as [|c k] eqn:Hkey.
    + now rewrite TextOnly_no_key.
    + rewrite TextOnly_run; [reflexivity|]. rewrite Hkey. discriminate.
  - destruct (trim apiKeyValue) as [|c k] eqn:Hkey.
    + rewrite TextOnly_no_key by assumption. eauto.
    + rewrite TextOnly_run; [now left|]. rewrite Hkey. discriminate.
  - destruct (trim apiKeyValue) as [|c k] eqn:Hkey.
    + now rewrite AltPrompt_no_key.
    + rewrite AltPrompt_run; [reflexivity|]. rewrite Hkey. discriminate.
  - destruct (trim apiKeyValue) as [|c k] eqn:Hkey.
    + rewrite AltPrompt_no_key by assumption. eauto.
    + rewrite AltPrompt_run; [now left|]. rewrite Hkey. discriminate.
Qed.



Lemma settled_is_error (w : world) (events : list event) (m : jsstring) :
  (Normal tt, settled w events) = (Normal tt, after w [ShowError m]) ->
  events = [ShowError m].
Proof.
  intros H. injection H as Htrace _. now apply app_inv_head in Htrace.
Qed.

Lemma photo_message_not_key (editType : jsstring) :
  ThreeModel.photo_message editType <> ThreeModel.key_message.
Proof. intros H. vm_compute in H. discriminate H. Qed.

(** X8. The key error is shown exactly when the key consists of white space
    only (the empty key included): in each variant the run is that single
    error if and only if every code unit of the key field is white space. *)
Theorem key_error_iff_blank_key :
  forall (host : Host) (net : network) (apiKeyValue food editType : jsstring)
         (photoFile : option file) (w : world),
    (forallb isWhiteSpace apiKeyValue = true <->
     ThreeModel.handleGenerateClick net apiKeyValue food editType photoFile w
     = (Normal tt, after w [ShowError ThreeModel.key_message])) /\
    (forallb isWhiteSpace apiKeyValue = true <->
     TextOnly.handleGenerateClick net apiKeyValue food editType photoFile w
     = (Normal tt, after w [ShowError TextOnly.key_message])) /\
    (forallb isWhiteSpace apiKeyValue = true <->
     AltPrompt.handleGenerateClick net apiKeyValue food editType photoFile w
     = (Normal tt, after w [ShowError AltPrompt.key_message])).
Proof.
  intros host net apiKeyValue food editType photoFile w.
  rewrite <- trim_empty_iff. split; [|split].
  - split; [now apply ThreeModel_no_key|]. intros Hrun.
    destruct (ThreeModel_run_shapes host net apiKeyValue food editType photoFile w)
      as [(Hk & _) | [(_ & _ & _ & H) | [(_ & _ & _ & alt & H)
         | [(_ & _ & f & _ & H) | (_ & _ & f & _ & H)]]]]; auto;
      exfalso; rewrite Hrun in H.
    + injection H as H. apply app_inv_head in H.
      apply (photo_message_not_key editType). congruence.
    + symmetry in H. apply settled_is_error in H. discriminate H.
    + symmetry in H. apply settled_is_error in H. discriminate H.
    + symmetry in H. apply settled_is_error in H. discriminate H.
  - split; [now apply TextOnly_no_key|]. intros Hrun.
    destruct (trim apiKeyValue) as [|c k] eqn:Hkey; [reflexivity|]. exfalso.
    rewrite TextOnly_run in Hrun by (rewrite Hkey; discriminate).
    apply settled_is_error in Hrun. destruct photoFile; discriminate Hrun.
  - split; [now apply AltPrompt_no_key|]. intros Hrun.
    destruct (trim apiKeyValue) as [|c k] eqn:Hkey; [reflexivity|]. exfalso.
    rewrite AltPrompt_run in Hrun by (rewrite Hkey; discriminate).
    apply settled_is_error in Hrun. destruct photoFile; discriminate Hrun.
Qed.

(* ===================================================================== *)
(** * Images are shown on success only *)
(* ===================================================================== *)

Lemma generated_succeeded (failure : response -> jsstring)
    (answer : fetch_outcome) (b : blob) :
  generated failure answer = Normal b <-> succeeded answer b.
Proof.
  unfold generated, succeeded. split.
  - destruct answer as [e|resp]; [discriminate|].
    destruct (ok resp) eqn:Hok; [|discriminate].
    destruct (body_blob resp) as [b'|] eqn:Hb; [|discriminate].
    intros [= <-]. now exists resp.
  - intros (resp & -> & -> & ->). reflexivity.
Qed.

Lemma blob_events_image (base alt : jsstring) (answer : fetch_outcome) (b : blob) :
  shows_image (blob_events base alt answer) b <-> succeeded answer b.
Proof.
  unfold shows_image, succeeded, blob_events. split.
  - intros (alt' & H). destruct answer as [e|resp]; [only_shown H|].
    destruct (ok resp) eqn:Hok; [|only_shown H].
    destruct (body_blob resp) as [b'|] eqn:Hb; [|only_shown H].
    destruct H as [H|[]]. injection H as <- _. now exists resp.
  - intros (resp & -> & -> & ->). exists alt. now left.
Qed.

Lemma text_only_events_image (alt : jsstring) (answer : fetch_outcome) (b : blob) :
  shows_image (text_only_events alt answer) b <-> succeeded answer b.
Proof.
  rewrite <- (generated_succeeded TextOnly.message).
  unfold shows_image, text_only_events. split.
  - intros (alt' & H). destruct (generated _ answer) as [b'|e]; [|only_shown H].
    destruct H as [H|[]]. now injection H as <- _.
  - intros ->. exists alt. now left.
Qed.

Lemma alt_prompt_events_image (alt : jsstring) (answer : fetch_outcome) (b : blob) :
  shows_image (alt_prompt_events alt answer) b <-> succeeded answer b.
Proof.
  rewrite <- (generated_succeeded AltPrompt.combined).
  unfold shows_image, alt_prompt_events. split.
  - intros (alt' & H). destruct (generated _ answer) as [b'|e]; [|only_shown H].
    destruct H as [H|[]]. now injection H as <- _.
  - intros ->. exists alt. now left.
Qed.

Lemma shows_image_after (pre : list event) (r : request) (t : list event) (b : blob) :
  (forall e, In e pre -> is_console_info e = true) ->
  shows_image (pre ++ ShowLoading :: Fetch r :: t) b <-> shows_image t b.
Proof.
  intros Hpre. unfold shows_image. split; intros (alt & H); exists alt.
  - apply in_app_or in H as [H|[H|[H|H]]]; try discriminate; auto.
    apply Hpre in H. discriminate.
  - apply in_or_app. right. right. now right.
Qed.

Lemma shows_image_loading (r : request) (t : list event) (b : blob) :
  shows_image (ShowLoading :: Fetch r :: t) b <-> shows_image t b.
Proof. apply (shows_image_after []). intros e []. Qed.

(** X9. A blob is shown as an image exactly when the network answered the
    click's request with a success status and a readable body, and then it
    is that body: in the two single-endpoint handlers for every mode, in the
    three-model handler for Style (and every unrecognized mode) and for
    Quality improvement.  No failure path shows an image. *)
Theorem image_shown_iff_success :
  forall (host : Host) (net : network) (apiKeyValue food editType : jsstring)
         (photoFile : option file) (imageFile : file) (w : world) (b : blob),
    trim apiKeyValue <> [] ->
    let apiKey := trim apiKeyValue in
    let shown_by (result : completion unit * world) (r : request) :=
      exists new,
        trace (snd result) = trace w ++ new /\
        (shows_image new b <-> succeeded (net r) b) in
    shown_by (TextOnly.handleGenerateClick net apiKeyValue food editType
                photoFile w)
      (style_request apiKey (TextOnly.buildPrompt food editType)) /\
    shown_by (AltPrompt.handleGenerateClick net apiKeyValue food editType
                photoFile w)
      (style_request apiKey (AltPrompt.buildPrompt food editType)) /\
    (editType <> ThreeModel.Background_cleaning ->
     editType <> ThreeModel.Quality_improvement ->
     shown_by (ThreeModel.handleGenerateClick net apiKeyValue food editType
                 photoFile w)
       (style_request apiKey (ThreeModel.buildPrompt food editType))) /\
    shown_by (ThreeModel.handleGenerateClick net apiKeyValue food
                ThreeModel.Quality_improvement (Some imageFile) w)
      (quality_request apiKey imageFile).
Proof.
  intros host net apiKeyValue food editType photoFile imageFile w b Hkey
         apiKey shown_by.
  subst shown_by apiKey. repeat apply conj.
  - rewrite TextOnly_run by assumption. cbn [snd settled trace].
    eexists. split; [reflexivity|].
    rewrite shows_image_after; [apply text_only_events_image|].
    intros e He. destruct photoFile; simpl in He; intuition (subst; reflexivity).
  - rewrite AltPrompt_run by assumption. cbn [snd settled trace].
    eexists. split; [reflexivity|].
    rewrite shows_image_after; [apply alt_prompt_events_image|].
    intros e He. destruct photoFile; simpl in He; intuition (subst; reflexivity).
  - intros Hbg Hqi. rewrite ThreeModel_style_run by assumption.
    cbn [snd settled trace]. eexists. split; [reflexivity|].
    rewrite shows_image_loading. apply blob_events_image.
  - rewrite ThreeModel_quality_run by assumption.
    cbn [snd settled trace]. eexists. split; [reflexivity|].
    rewrite shows_image_loading. apply blob_events_image.
Qed.

Lemma image_shown_iff_success_witness :
  let b := png [x89; x50]%byte in
  shows_image
    (trace (snd (TextOnly.handleGenerateClick (always (success b)) (lit "hf_key")
                   (lit "Pizza") (lit "Style") None
                   (initial (lit "Create Image"))))) b.
Proof.
  intros b.
  destruct (image_shown_iff_success plainHost (always (success b)) (lit "hf_key")
              (lit "Pizza") (lit "Style") None (photo (lit "image/png") [])
              (initial (lit "Create Image")) b)
    as ((new & Ht & Hshow) & _); [discriminate|].
  rewrite Ht. apply Hshow. now exists (success b).
Defined.

(* ===================================================================== *)
(** * The photo on its way to the network *)
(* ===================================================================== *)

Lemma indexOf_split (c : code_unit) (s : jsstring) (i : nat) :
  indexOf c s = Some i ->
  exists pre rest, s = pre ++ c :: rest /\ ~ In c pre /\ List.length pre = i.
Proof.
  revert i. induction s as [|x s IH]; intros i; simpl; [discriminate|].
  destruct (N.eqb_spec x c) as [->|Hne].
  - intros [= <-]. exists [], s. repeat split. intros [].
  - destruct (indexOf c s) as [j|]; [|discriminate].
    intros [= <-]. destruct (IH j eq_refl) as (pre & rest & -> & Hnot & Hlen).
    exists (x :: pre), rest. repeat split.
    + intros [H|H]; [now apply Hne|now apply Hnot].
    + simpl. now rewrite Hlen.
Qed.

Lemma indexOf_absent (c : code_unit) (s : jsstring) :
  indexOf c s = None -> ~ In c s.
Proof.
  induction s as [|x s IH]; simpl; [auto|].
  destruct (N.eqb_spec x c) as [->|Hne]; [discriminate|].
  destruct (indexOf c s); [discriminate|].
  intros _ [H|H]; [now apply Hne|now apply IH].
Qed.

(** What [fileToBase64] resolves with when the reader delivers a string:
    the string itself, or what follows its first comma. *)
Lemma fileToBase64_of_string (f : file) (s : jsstring) :
  file_read f = OnLoad (ResultString s) ->
  exists base64Image,
    ThreeModel.fileToBase64 f = Normal base64Image /\
    ((~ In comma s /\ base64Image = s)
     \/ exists pre, s = pre ++ comma :: base64Image /\ ~ In comma pre).
Proof.
  intros Hread. unfold ThreeModel.fileToBase64. rewrite Hread.
  destruct (indexOf comma s) as [i|] eqn:Hi.
  - destruct (indexOf_split comma s i Hi) as (pre & rest & -> & Hnot & <-).
    exists rest. split; [now rewrite slice_after_comma|]. right. now exists pre.
  - exists s. split; [reflexivity|]. left. split; [|reflexivity].
    now apply indexOf_absent.
Qed.

Lemma fileToBase64_of_data_url (f : file) :
  reads_as_data_url f -> ~ In comma (file_type f) ->
  ThreeModel.fileToBase64 f = Normal (Base64.encode (file_bytes f)).
Proof.
  intros Hread Htype. unfold reads_as_data_url, dataURL in Hread.
  unfold ThreeModel.fileToBase64. rewrite Hread.
  change (lit "data:" ++ file_type f ++ lit ";base64," ++ Base64.encode (file_bytes f))
    with (lit "data:" ++ file_type f ++ lit ";base64"
          ++ comma :: Base64.encode (file_bytes f)).
  rewrite !app_assoc. rewrite indexOf_app.
  - now rewrite slice_after_comma.
  - intros Hin. apply in_app_or in Hin as [Hin|Hin].
    + apply in_app_or in Hin as [Hin|Hin]; [|contradiction].
      vm_compute in Hin. intuition discriminate.
    + vm_compute in Hin. intuition discriminate.
Qed.

(** X10. Background cleaning reads the photo before it calls the network:
    when the reader fails or delivers something that is not a string, no
    request is issued and the run is the loading indicator followed by the
    generic error; when it delivers a string, the one request carries that
    string, or what follows its first comma, as [inputs].  Quality
    improvement never reads the photo: the file itself is the body of its
    one request, whatever the reader would deliver. *)
Theorem photo_is_read_before_the_call :
  forall (host : Host) (net : network) (apiKeyValue food : jsstring)
         (imageFile : file) (w : world),
    trim apiKeyValue <> [] ->
    let apiKey := trim apiKeyValue in
    let cleaned :=
      ThreeModel.handleGenerateClick net apiKeyValue food
        ThreeModel.Background_cleaning (Some imageFile) w in
    let improved :=
      ThreeModel.handleGenerateClick net apiKeyValue food
        ThreeModel.Quality_improvement (Some imageFile) w in
    (file_read imageFile = OnLoad ResultOther
     \/ (exists error, file_read imageFile = OnError error) ->
     requests (trace (snd cleaned)) = requests (trace w) /\
     exists e,
       cleaned = (Normal tt,
                  settled w [ShowLoading; ConsoleError e;
                             ShowError ThreeModel.generic_message])) /\
    (forall s,
       file_read imageFile = OnLoad (ResultString s) ->
       exists base64Image,
         requests (trace (snd cleaned))
         = requests (trace w) ++ [background_request apiKey base64Image] /\
         ((~ In comma s /\ base64Image = s)
          \/ exists pre, s = pre ++ comma :: base64Image /\ ~ In comma pre)) /\
    requests (trace (snd improved))
    = requests (trace w) ++ [quality_request apiKey imageFile] /\
    body (quality_request apiKey imageFile) = BodyFile imageFile.
Proof.
  intros host net apiKeyValue food imageFile w Hkey apiKey cleaned improved.
  subst cleaned improved apiKey.
  rewrite ThreeModel_background_run, ThreeModel_quality_run by assumption.
  cbn [snd]. rewrite !settled_trace, !requests_app. cbn [requests].
  repeat apply conj.
  - intros Hfail.
    assert (He : exists e, ThreeModel.fileToBase64 imageFile = Throw e).
    { unfold ThreeModel.fileToBase64.
      destruct Hfail as [->|([e|] & ->)]; eauto. }
    destruct He as (e & ->). split.
    + cbn [caught requests]. now rewrite app_nil_r.
    + now exists e.
  - intros s Hs.
    destruct (fileToBase64_of_string imageFile s Hs) as (b64 & -> & Hshape).
    exists b64. split; [|exact Hshape].
    cbv zeta. cbn [requests]. now rewrite requests_mask_events.
  - now rewrite requests_blob_events.
  - reflexivity.
Qed.

Lemma photo_is_read_before_the_call_witness :
  let f := {| file_type := lit "image/png"; file_bytes := [x89]%byte;
              file_read := OnError None |} in
  ThreeModel.handleGenerateClick (host := plainHost)
    (always (success (png [x89]%byte))) (lit "hf_key") (lit "Pizza")
    ThreeModel.Background_cleaning (Some f) (initial (lit "Create Image"))
  = (Normal tt,
     settled (initial (lit "Create Image"))
       [ShowLoading; ConsoleError (Error (lit "Failed to read image file."));
        ShowError ThreeModel.generic_message]).
Proof.
  intros f.
  destruct (photo_is_read_before_the_call plainHost
              (always (success (png [x89]%byte))) (lit "hf_key") (lit "Pizza")
              f (initial (lit "Create Image"))) as (H & _); [discriminate|].
  destruct H as (_ & e & He); [right; now exists None|].
  rewrite He. vm_compute in He. injection He as <-. reflexivity.
Defined.

(** X11. Background cleaning end to end: with a key, a photo whose reader
    delivers its data URL, and a success answer holding a non-empty array of
    candidates with numeric scores, the request carries the Base64 text of
    the photo's bytes and the page shows, as a PNG data URL, the mask of the
    first candidate with the highest score, provided that mask is a non-empty
    string. *)
Theorem background_cleaning_end_to_end :
  forall (host : Host) (net : network) (apiKeyValue food : jsstring)
         (imageFile : file) (w : world) (resp : response)
         (first : json) (rest : list json) (mask : jsstring),
    trim apiKeyValue <> [] ->
    reads_as_data_url imageFile ->
    ~ In comma (file_type imageFile) ->
    let r := background_request (trim apiKeyValue)
               (Base64.encode (file_bytes imageFile)) in
    net r = Responded resp ->
    ok resp = true ->
    body_json resp = Some (JArr (first :: rest)) ->
    forallb scored (first :: rest) = true ->
    get (fold_left pick rest first) (lit "mask") = Some (JStr mask) ->
    mask <> [] ->
    ThreeModel.handleGenerateClick net apiKeyValue food
      ThreeModel.Background_cleaning (Some imageFile) w
    = (Normal tt,
       settled w [ShowLoading; Fetch r;
                  ShowImageFromDataUrl (png_prefix ++ mask) (mask_alt food)]).
Proof.
  intros host net apiKeyValue food imageFile w resp first rest mask
         Hkey Hread Htype r Hnet Hok Hjson Hscored Hmask Hne.
  rewrite ThreeModel_background_run by assumption.
  rewrite (fileToBase64_of_data_url imageFile Hread Htype).
  cbv zeta. fold r. unfold mask_events. rewrite Hnet, Hok, Hjson.
  assert (Hsel : ThreeModel.reduce first rest = Normal (fold_left pick rest first)).
  { simpl in Hscored. apply andb_true_iff in Hscored as [Hf Hr].
    now apply reduce_scored. }
  rewrite (decodeMask_selected first rest _ Hsel), Hmask.
  assert (Ht : truthy (fold_left pick rest first) = true).
  { apply scored_truthy. simpl in Hscored.
    apply andb_true_iff in Hscored as [Hf Hr]. now apply fold_pick_scored. }
  rewrite Ht. destruct mask as [|c m]; [contradiction|]. reflexivity.
Qed.

Lemma background_cleaning_end_to_end_witness :
  let f := photo (lit "image/png") [x89; x50; x4e; x47; x0d]%byte in
  let data := JArr [candidate f0_2 (lit "QQ=="); candidate f0_91 (lit "Qg==");
                    candidate f0_5 (lit "Qw==")] in
  ThreeModel.handleGenerateClick (host := plainHost) (always (success_json data))
    (lit " hf_key ") (lit "Pizza") ThreeModel.Background_cleaning (Some f)
    (initial (lit "Create Image"))
  = (Normal tt,
     settled (initial (lit "Create Image"))
       [ShowLoading; Fetch (background_request (lit "hf_key") (lit "iVBORw0="));
        ShowImageFromDataUrl (lit "data:image/png;base64,Qg==")
          (mask_alt (lit "Pizza"))]).
Proof.
  intros f data.
  apply (background_cleaning_end_to_end plainHost (always (success_json data))
           (lit " hf_key ") (lit "Pizza") f (initial (lit "Create Image"))
           (success_json data)
           (candidate f0_2 (lit "QQ=="))
           [candidate f0_91 (lit "Qg=="); candidate f0_5 (lit "Qw==")]
           (lit "Qg==")); try reflexivity; try discriminate.
  vm_compute. intuition discriminate.
Defined.

(* ===================================================================== *)
(** * The decode path on arbitrary JSON *)
(* ===================================================================== *)

Section DecodeAnyJson.
Context {host : Host}.

Lemma reducer_chooses (acc item result : json) :
  ThreeModel.reducer acc item = Normal result -> result = acc \/ result = item.
Proof.
  unfold ThreeModel.reducer.
  destruct (truthy acc); simpl; [|intros [= <-]; auto].
  destruct (truthy item); simpl; [|intros [= <-]; auto].
  destruct (gt _ _) as [[|]|e]; simpl; intros [= <-]; auto.
Qed.

Lemma reduce_member (rest : list json) : forall (acc best : json),
  ThreeModel.reduce acc rest = Normal best -> In best (acc :: rest).
Proof.
  induction rest as [|item rest IH]; intros acc best; simpl.
  - intros [= <-]. auto.
  - destruct (ThreeModel.reducer acc item) as [acc'|e] eqn:Hstep; simpl;
      [|discriminate].
    intros Hrest. apply IH in Hrest as [<-|Hin]; [|auto].
    apply reducer_chooses in Hstep as [->| ->]; auto.
Qed.

Lemma ToPrimitive_primitive (v : value) :
  primitive v = true -> exists p, ToPrimitive v = Normal p.
Proof.
  destruct v as [[| | | |items|props]|]; simpl; try discriminate; eauto.
Qed.

Lemma gt_primitive (a b : value) :
  primitive a = true -> primitive b = true -> exists r, gt a b = Normal r.
Proof.
  intros Ha Hb. unfold gt.
  destruct (ToPrimitive_primitive a Ha) as (pa & ->).
  destruct (ToPrimitive_primitive b Hb) as (pb & ->). simpl.
  destruct pb, pa; eauto.
Qed.

Lemma reducer_simple (acc item : json) :
  simple_entry acc = true -> simple_entry item = true ->
  exists result, ThreeModel.reducer acc item = Normal result.
Proof.
  unfold simple_entry. intros Ha Hi.
  apply andb_true_iff in Ha as [Ha _]. apply andb_true_iff in Hi as [Hi _].
  unfold ThreeModel.reducer.
  destruct (truthy acc); simpl; [|eauto].
  destruct (truthy item); simpl; [|eauto].
  destruct (gt_primitive _ _ Hi Ha) as (r & ->). simpl. eauto.
Qed.

Lemma reduce_simple (rest : list json) : forall acc,
  simple_entry acc = true -> forallb simple_entry rest = true ->
  exists best, ThreeModel.reduce acc rest = Normal best.
Proof.
  induction rest as [|item rest IH]; intros acc Ha Hr; simpl in *; [eauto|].
  apply andb_true_iff in Hr as [Hi Hr].
  destruct (reducer_simple acc item Ha Hi) as (result & Hstep).
  rewrite Hstep. simpl. apply IH; [|exact Hr].
  apply reducer_chooses in Hstep as [->| ->]; assumption.
Qed.

Lemma ToString_primitive (v : json) :
  primitive (Some v) = true -> exists s, ToString v = Normal s.
Proof.
  destruct v as [|[|]| | |items|props]; simpl; try discriminate; eauto.
Qed.

End DecodeAnyJson.

(** X12. Whatever JSON the server sends, the selection step returns one of
    the entries of the array when it returns: an element is never altered or
    made up, and a single-element array yields its element. *)
Theorem selection_returns_an_entry :
  forall (host : Host) (first : json) (rest : list json) (best : json),
    ThreeModel.reduce first rest = Normal best ->
    In best (first :: rest) /\ (rest = [] -> best = first).
Proof.
  intros host first rest best Hsel. split.
  - now apply reduce_member in Hsel.
  - intros ->. simpl in Hsel. now injection Hsel as <-.
Qed.

Lemma selection_returns_an_entry_witness :
  In (JStr (lit "b")) [JNull; JStr (lit "b"); JBool false].
Proof.
  apply (selection_returns_an_entry plainHost JNull
           [JStr (lit "b"); JBool false] (JStr (lit "b"))).
  reflexivity.
Defined.

(** X13. The decode path has four outcomes and no other, whatever the parsed
    body: a string that starts with the PNG data-URL prefix, the empty-result
    error, the missing-mask error, or the engine's conversion TypeError. *)
Theorem decode_has_four_outcomes :
  forall (host : Host) (data : json),
    (exists s, ThreeModel.decodeMask data = Normal (png_prefix ++ s)) \/
    ThreeModel.decodeMask data = Throw ThreeModel.empty_result \/
    ThreeModel.decodeMask data = Throw ThreeModel.missing_mask \/
    ThreeModel.decodeMask data = Throw cannot_convert.
Proof.
  intros host data.
  destruct data as [| | | |[|first rest]|]; try (right; left; reflexivity).
  destruct (ThreeModel.reduce first rest) as [best|e] eqn:Hsel.
  - rewrite (decodeMask_selected first rest best Hsel).
    destruct (negb (truthy best) || negb (truthy_value (get best (lit "mask"))));
      [auto|].
    destruct (get best (lit "mask")) as [mask|]; [|auto].
    destruct (ToString mask) as [s|e] eqn:Hs; simpl.
    + left. now exists s.
    + apply ToString_throws in Hs. subst e. auto.
  - unfold ThreeModel.decodeMask. rewrite Hsel. simpl.
    apply reduce_throws in Hsel. subst e. auto.
Qed.

(** X14. When every entry of a non-empty array has a primitive score and a
    primitive mask (absent, null, boolean, number or string), the decode path
    raises no conversion error: it selects an entry of the array and either
    reports the missing mask or returns a PNG data URL. *)
Theorem decode_of_simple_entries :
  forall (host : Host) (first : json) (rest : list json),
    forallb simple_entry (first :: rest) = true ->
    exists best,
      ThreeModel.reduce first rest = Normal best /\
      In best (first :: rest) /\
      (ThreeModel.decodeMask (JArr (first :: rest)) = Throw ThreeModel.missing_mask
       \/ exists s, ThreeModel.decodeMask (JArr (first :: rest))
                    = Normal (png_prefix ++ s)).
Proof.
  intros host first rest Hall.
  assert (Hsplit := Hall). simpl in Hsplit.
  apply andb_true_iff in Hsplit as [Hf Hr].
  destruct (reduce_simple rest first Hf Hr) as (best & Hsel).
  exists best. split; [exact Hsel|].
  assert (Hin : In best (first :: rest)) by now apply reduce_member in Hsel.
  split; [exact Hin|].
  rewrite (decodeMask_selected first rest best Hsel).
  destruct (negb (truthy best) || negb (truthy_value (get best (lit "mask"))));
    [auto|].
  destruct (get best (lit "mask")) as [mask|] eqn:Hmask; [|auto].
  assert (Hprim : primitive (Some mask) = true).
  { rewrite forallb_forall in Hall. specialize (Hall best Hin).
    unfold simple_entry in Hall. apply andb_true_iff in Hall as [_ Hm].
    now rewrite Hmask in Hm. }
  destruct (ToString_primitive mask Hprim) as (s & ->). simpl.
  right. now exists s.
Qed.

Lemma decode_of_simple_entries_witness :
  exists best,
    ThreeModel.reduce (host := plainHost) JNull
      [JObj [(lit "score", JStr (lit "high")); (lit "mask", JStr (lit "QQ=="))];
       JObj [(lit "mask", JBool true)]] = Normal best /\
    In best [JNull;
             JObj [(lit "score", JStr (lit "high")); (lit "mask", JStr (lit "QQ=="))];
             JObj [(lit "mask", JBool true)]] /\
    (ThreeModel.decodeMask (host := plainHost)
       (JArr [JNull;
              JObj [(lit "score", JStr (lit "high")); (lit "mask", JStr (lit "QQ=="))];
              JObj [(lit "mask", JBool true)]]) = Throw ThreeModel.missing_mask
     \/ exists s,
          ThreeModel.decodeMask (host := plainHost)
            (JArr [JNull;
                   JObj [(lit "score", JStr (lit "high"));
                         (lit "mask", JStr (lit "QQ=="))];
                   JObj [(lit "mask", JBool true)]]) = Normal (png_prefix ++ s)).
Proof.
  apply (decode_of_simple_entries plainHost). reflexivity.
Defined.

(* ===================================================================== *)
(** * Prompts across foods and modes *)
(* ===================================================================== *)

Lemma ThreeModel_buildPrompt_tail (food editType : jsstring) :
  exists tail_ : jsstring,
    (forall f, ThreeModel.buildPrompt f editType = f ++ tail_) /\ tail_ <> [].
Proof.
  unfold ThreeModel.buildPrompt.
  destruct (str_eqb editType ThreeModel.Background_cleaning);
    [|destruct (str_eqb editType ThreeModel.Quality_improvement)];
    eexists; (split; [intros f; rewrite <- !app_assoc; reflexivity|discriminate]).
Qed.

(** X15. The prompt tells foods and modes apart: for a fixed mode two
    different foods never give the same prompt, in any variant; and for a
    fixed food the three recognized modes give three different prompts, in
    the if-chain variants and in the lookup variant alike. *)
Theorem prompt_tells_foods_and_modes_apart :
  forall (host : Host) (food food' editType : jsstring),
    (ThreeModel.buildPrompt food editType = ThreeModel.buildPrompt food' editType ->
     food = food') /\
    (TextOnly.buildPrompt food editType = TextOnly.buildPrompt food' editType ->
     food = food') /\
    (AltPrompt.buildPrompt food editType = AltPrompt.buildPrompt food' editType ->
     food = food') /\
    (ThreeModel.buildPrompt food ThreeModel.Style
     <> ThreeModel.buildPrompt food ThreeModel.Background_cleaning /\
     ThreeModel.buildPrompt food ThreeModel.Style
     <> ThreeModel.buildPrompt food ThreeModel.Quality_improvement /\
     ThreeModel.buildPrompt food ThreeModel.Background_cleaning
     <> ThreeModel.buildPrompt food ThreeModel.Quality_improvement) /\
    (AltPrompt.buildPrompt food ThreeModel.Style
     <> AltPrompt.buildPrompt food ThreeModel.Background_cleaning /\
     AltPrompt.buildPrompt food ThreeModel.Style
     <> AltPrompt.buildPrompt food ThreeModel.Quality_improvement /\
     AltPrompt.buildPrompt food ThreeModel.Background_cleaning
     <> AltPrompt.buildPrompt food ThreeModel.Quality_improvement).
Proof.
  intros host food food' editType.
  assert (Hchain : ThreeModel.buildPrompt food editType
                   = ThreeModel.buildPrompt food' editType -> food = food').
  { destruct (ThreeModel_buildPrompt_tail food editType) as (t & Ht & _).
    rewrite !Ht. apply app_inv_tail. }
  split; [exact Hchain|]. split; [exact Hchain|]. split.
  { unfold AltPrompt.buildPrompt. apply app_inv_tail. }
  split.
  - unfold ThreeModel.buildPrompt.
    change (str_eqb ThreeModel.Style ThreeModel.Background_cleaning) with false.
    change (str_eqb ThreeModel.Style ThreeModel.Quality_improvement) with false.
    change (str_eqb ThreeModel.Background_cleaning ThreeModel.Background_cleaning)
      with true.
    change (str_eqb ThreeModel.Quality_improvement ThreeModel.Background_cleaning)
      with false.
    change (str_eqb ThreeModel.Quality_improvement ThreeModel.Quality_improvement)
      with true.
    cbv iota.
    repeat apply conj; intros H; apply app_inv_head in H;
      vm_compute in H; discriminate H.
  - unfold AltPrompt.buildPrompt.
    repeat apply conj; intros H; do 2 apply app_inv_head in H;
      vm_compute in H; discriminate H.
Qed.

Lemma existsb_str_eqb_false (k : jsstring) (names : list jsstring) :
  ~ In k names -> existsb (str_eqb k) names = false.
Proof.
  induction names as [|n names IH]; intros Hnot; simpl; [reflexivity|].
  rewrite IH by (intros H; apply Hnot; now right).
  rewrite orb_false_r. apply str_eqb_neq. intros ->. apply Hnot. now left.
Qed.

(** X16. In the lookup variant a mode string gets the generic clause as soon
    as it is neither one of the three keys of [editMap] nor the name of a
    member of [Object.prototype]; the prompt is then the food, the generic
    clause and the closing qualifiers. *)
Theorem lookup_prompt_falls_back :
  forall (host : Host) (food editType : jsstring),
    ~ In editType resolved_names ->
    AltPrompt.buildPrompt food editType
    = food ++ lit " photo, " ++ AltPrompt.generic_clause ++ alt_tail.
Proof.
  intros host food editType Hnot.
  apply AltPrompt_buildPrompt_fallback.
  unfold resolved_names in Hnot.
  assert (Hk : forall k, In k [lit "Style"; lit "Background cleaning";
                               lit "Quality improvement"; lit "__proto__";
                               lit "constructor"] ->
                         str_eqb editType k = false).
  { intros k Hk. apply str_eqb_neq. intros ->. apply Hnot.
    apply in_or_app. now left. }
  unfold AltPrompt.editMap, AltPrompt.Object_prototype.
  rewrite !Hk by (simpl; auto 10).
  rewrite existsb_str_eqb_false; [reflexivity|].
  intros H. apply Hnot. apply in_or_app. now right.
Qed.

Lemma lookup_prompt_falls_back_witness :
  AltPrompt.buildPrompt (host := plainHost) (lit "Pizza") (lit "style")
  = lit "Pizza photo, professional food photography, sharp focus, soft studio lighting, perfect for an online sales site hero banner, shot on DSLR, 4k, realistic textures".
Proof.
  rewrite (lookup_prompt_falls_back plainHost (lit "Pizza") (lit "style")).
  - reflexivity.
  - vm_compute. intuition discriminate.
Defined.

(* ===================================================================== *)
(** * The photo and the mode in the single-endpoint variants *)
(* ===================================================================== *)

Lemma without_info_app (t u : list event) :
  without_info (t ++ u) = without_info t ++ without_info u.
Proof. apply filter_app. Qed.

Lemma without_info_text_only (photoFile : option file) :
  without_info (text_only_info photoFile) = [].
Proof. now destruct photoFile. Qed.

Lemma without_info_alt_prompt (photoFile : option file) :
  without_info (alt_prompt_info photoFile) = [].
Proof. now destruct photoFile. Qed.

(** X17. In the text-only and the alternate-prompt variants the photo is
    never sent and never required: two clicks that differ only in the photo
    complete alike, leave the button alike and leave the same trace once the
    console note about the photo is set aside.  With a key, every mode and
    every photo give exactly one request, to the single SDXL endpoint, whose
    body holds the prompt. *)
Theorem single_endpoint_ignores_photo :
  forall (host : Host) (net : network) (apiKeyValue food editType : jsstring)
         (photo1 photo2 : option file) (w : world),
    let alike (a b : completion unit * world) :=
      fst a = fst b /\
      without_info (trace (snd a)) = without_info (trace (snd b)) /\
      btn_disabled (snd a) = btn_disabled (snd b) /\
      btn_content (snd a) = btn_content (snd b) in
    alike (TextOnly.handleGenerateClick net apiKeyValue food editType photo1 w)
          (TextOnly.handleGenerateClick net apiKeyValue food editType photo2 w) /\
    alike (AltPrompt.handleGenerateClick net apiKeyValue food editType photo1 w)
          (AltPrompt.handleGenerateClick net apiKeyValue food editType photo2 w) /\
    (trim apiKeyValue <> [] ->
     requests (trace (snd (TextOnly.handleGenerateClick net apiKeyValue food
                             editType photo1 w)))
     = requests (trace w)
       ++ [json_request TextOnly.HF_ENDPOINT (trim apiKeyValue) (lit "image/png")
             (TextOnly.buildPrompt food editType)] /\
     requests (trace (snd (AltPrompt.handleGenerateClick net apiKeyValue food
                             editType photo1 w)))
     = requests (trace w)
       ++ [json_request AltPrompt.HF_ENDPOINT (trim apiKeyValue) (lit "image/png")
             (AltPrompt.buildPrompt food editType)]).
Proof.
  intros host net apiKeyValue food editType photo1 photo2 w alike. subst alike.
  destruct (trim apiKeyValue) as [|c k] eqn:Hkey.
  - rewrite !TextOnly_no_key, !AltPrompt_no_key by assumption.
    repeat split; auto; try congruence; intros; congruence.
  - assert (Hne : trim apiKeyValue <> []) by (rewrite Hkey; discriminate).
    rewrite <- Hkey.
    rewrite !TextOnly_run, !AltPrompt_run by assumption.
    cbn [fst snd settled trace btn_disabled btn_content].
    rewrite !without_info_app, !without_info_text_only, !without_info_alt_prompt.
    repeat split.
    + rewrite !requests_app, requests_text_only_info. cbn [requests app].
      now rewrite requests_text_only_events.
    + rewrite !requests_app, requests_alt_prompt_info. cbn [requests app].
      now rewrite requests_alt_prompt_events.
Qed.

Lemma single_endpoint_ignores_photo_witness :
  requests (trace (snd (TextOnly.handleGenerateClick
                          (always (success (png [x89]%byte))) (lit "hf_key")
                          (lit "Pizza") (lit "Background cleaning") None
                          (initial (lit "Create Image")))))
  = [json_request TextOnly.HF_ENDPOINT (lit "hf_key") (lit "image/png")
       (TextOnly.buildPrompt (lit "Pizza") (lit "Background cleaning"))].
Proof.
  destruct (single_endpoint_ignores_photo plainHost
              (always (success (png [x89]%byte))) (lit "hf_key") (lit "Pizza")
              (lit "Background cleaning") None None
              (initial (lit "Create Image"))) as (_ & _ & H).
  destruct H as (H & _); [discriminate|]. exact H.
Defined.

(* ===================================================================== *)
(** * Clicks one after another *)
(* ===================================================================== *)

(** X18. What a click adds to the trace depends on its inputs and on the
    network only, not on the page it starts from: the same events follow on
    a fresh page and after any earlier clicks, and the button content is
    handed on unchanged, so consecutive clicks do not interfere. *)
Theorem click_effects_do_not_depend_on_history :
  forall (host : Host) (net : network) (apiKeyValue food editType : jsstring)
         (photoFile : option file),
    (exists new, forall w,
       let result :=
         ThreeModel.handleGenerateClick net apiKeyValue food editType photoFile w in
       fst result = Normal tt /\
       trace (snd result) = trace w ++ new /\
       btn_content (snd result) = btn_content w) /\
    (exists new, forall w,
       let result :=
         TextOnly.handleGenerateClick net apiKeyValue food editType photoFile w in
       fst result = Normal tt /\
       trace (snd result) = trace w ++ new /\
       btn_content (snd result) = btn_content w) /\
    (exists new, forall w,
       let result :=
         AltPrompt.handleGenerateClick net apiKeyValue food editType photoFile w in
       fst result = Normal tt /\
       trace (snd result) = trace w ++ new /\
       btn_content (snd result) = btn_content w).
Proof.
  intros host net apiKeyValue food editType photoFile.
  destruct (trim apiKeyValue) as [|c k] eqn:Hkey.
  { repeat apply conj; eexists; intros w result; subst result.
    - rewrite ThreeModel_no_key by assumption. repeat split.
    - rewrite TextOnly_no_key by assumption. repeat split.
    - rewrite AltPrompt_no_key by assumption. repeat split. }
  assert (Hne : trim apiKeyValue <> []) by (rewrite Hkey; discriminate).
  repeat apply conj.
  - destruct (str_eqb editType ThreeModel.Background_cleaning) eqn:Hbg.
    { apply str_eqb_eq in Hbg. subst editType. destruct photoFile as [f|].
      - eexists. intros w result. subst result.
        rewrite ThreeModel_background_run by assumption. repeat split.
      - eexists. intros w result. subst result.
        rewrite ThreeModel_no_photo by auto. repeat split. }
    destruct (str_eqb editType ThreeModel.Quality_improvement) eqn:Hqi.
    { apply str_eqb_eq in Hqi. subst editType. destruct photoFile as [f|].
      - eexists. intros w result. subst result.
        rewrite ThreeModel_quality_run by assumption. repeat split.
      - eexists. intros w result. subst result.
        rewrite ThreeModel_no_photo by auto. repeat split. }
    apply str_eqb_neq in Hbg, Hqi.
    eexists. intros w result. subst result.
    rewrite ThreeModel_style_run by assumption. repeat split.
  - eexists. intros w result. subst result.
    rewrite TextOnly_run by assumption. repeat split.
  - eexists. intros w result. subst result.
    rewrite AltPrompt_run by assumption. repeat split.
Qed.
